(** * Session management of the PowerShell assistant CLI

    A shallow embedding of [src/cli/session-manager.ts] and of the parts of
    the CLI entry point that drive it ([executeQuery],
    [handleSessionCommands], [main]), together with the properties of the
    session store, the resolver, the lifecycle manager and the retry cache.
    The argument parser ([parseArgs]) and the configuration manager
    ([src/cli/config-manager.ts], with [handleConfigCommands]) follow, the
    latter in a module and a world of its own.

    Conventions of the embedding:
    - asynchronous functions run one at a time, so [await] is sequencing in
      a state-and-exception monad over the [World];
    - the sessions directory is a finite map from file name to file
      content; [path.join (sessionsDir, n)] is the key [n];
    - a file either parses to a [SessionMetadata] or makes
      [loadSessionFromDisk] take its [catch] branch;
    - counters are integers, instants are milliseconds since the epoch,
      and [totalCost] is an exact rational (the rounding of binary64
      arithmetic is not modelled);
    - [randomUUID], [new Date()] and the query engine belong to the
      environment: the world carries the sequences they produce. *)

From Stdlib Require Import Ascii QArith.
From stdpp Require Import gmap strings list fin_maps sorting pretty.

Local Open Scope Z_scope.

(** ** Strings as the code uses them *)

(** [s.startsWith (pat)] *)
Fixpoint startsWith (pat s : string) : bool :=
  match pat, s with
  | EmptyString, _ => true
  | String a p, String b t => if Ascii.eqb a b then startsWith p t else false
  | String _ _, EmptyString => false
  end.

(** [s.endsWith (suf)] *)
Fixpoint endsWith (s suf : string) : bool :=
  if String.eqb s suf then true
  else match s with
       | EmptyString => false
       | String _ t => endsWith t suf
       end.

Fixpoint dropString (n : nat) (s : string) : string :=
  match n, s with
  | O, _ => s
  | S n', String _ t => dropString n' t
  | S _, EmptyString => EmptyString
  end.

(** [s.replace (pat, rep)] with a string pattern: only the first
    occurrence is replaced. *)
Fixpoint replace (pat rep s : string) : string :=
  if startsWith pat s then rep +:+ dropString (String.length pat) s
  else match s with
       | EmptyString => EmptyString
       | String c t => String c (replace pat rep t)
       end.

(** A string is truthy when it is not empty. *)
Definition truthy (s : string) : bool := negb (String.eqb s EmptyString).

(** [a || b] on optional strings ([undefined] and the empty string are falsy). *)
Definition or_else (a b : option string) : option string :=
  match a with
  | Some s => if truthy s then Some s else b
  | None => b
  end.

Definition is_set (a : option string) : bool :=
  match a with
  | Some s => truthy s
  | None => false
  end.

(** *** [parseInt (s)] with no radix argument

    [None] stands for [NaN].  Code units are the characters of the string
    (the white space beyond Latin-1 is out of reach of [ascii]). *)

Definition isStrWhiteSpaceChar (c : ascii) : bool :=
  let n := nat_of_ascii c in
  (Nat.eqb n 9 || Nat.eqb n 10 || Nat.eqb n 11 || Nat.eqb n 12
   || Nat.eqb n 13 || Nat.eqb n 32 || Nat.eqb n 160)%bool.

Fixpoint trimStart (s : string) : string :=
  match s with
  | String c t => if isStrWhiteSpaceChar c then trimStart t else s
  | EmptyString => s
  end.

Definition digitValue (c : ascii) : option Z :=
  let n := Z.of_nat (nat_of_ascii c) in
  if (48 <=? n) && (n <=? 57) then Some (n - 48)
  else if (97 <=? n) && (n <=? 122) then Some (n - 87)
  else if (65 <=? n) && (n <=? 90) then Some (n - 55)
  else None.

(** The longest prefix made of radix-[R] digits, as digit values. *)
Fixpoint radixDigits (R : Z) (s : string) : list Z :=
  match s with
  | String c t =>
      match digitValue c with
      | Some d => if d <? R then d :: radixDigits R t else []
      | None => []
      end
  | EmptyString => []
  end.

Definition radixValue (R : Z) (ds : list Z) : Z :=
  fold_left (fun acc d => acc * R + d) ds 0.

Definition stripSign (s : string) : Z * string :=
  match s with
  | String "-" t => (-1, t)
  | String "+" t => (1, t)
  | _ => (1, s)
  end.

Definition stripHexPrefix (s : string) : Z * string :=
  match s with
  | String "0" (String "x" t) => (16, t)
  | String "0" (String "X" t) => (16, t)
  | _ => (10, s)
  end.

Definition parseInt (s : string) : option Z :=
  let '(sign, s1) := stripSign (trimStart s) in
  let '(R, s2) := stripHexPrefix s1 in
  match radixDigits R s2 with
  | [] => None
  | ds => Some (sign * radixValue R ds)
  end.

(** ** Data model ([types.ts]) *)

Inductive SessionType := global | shell | named.

Inductive SelectionType := auto | sel (t : SessionType).

(** [powerShellPID?: number]: the field may be missing, may hold the
    [NaN] that [parseInt] produced, and comes back as [null] once such a
    record went through JSON. *)
Inductive PidField := PidUndefined | PidNull | PidNaN | PidNumber (n : Z).

Record SessionMetadata := {
  id : string;
  name : string;
  type : SessionType;
  sdkSessionId : option string;
  created : Z;
  lastUsed : Z;
  messageCount : Z;
  totalTokens : Z;
  totalCost : Q;
  powerShellPID : PidField;
  systemPrompt : option string;
  allowedTools : option (list string);
  active : bool
}.

Record SessionSelectionOptions := {
  sessionName : option string;
  shellPID : option string;
  selType : SelectionType;
  forceNew : bool
}.

(** [UserConfig.sessions] *)
Record SessionSettings := {
  autoCleanup : bool;
  shellSessionExpiry : string;
  namedSessionExpiry : string
}.

Definition DEFAULT_SESSIONS : SessionSettings :=
  {| autoCleanup := true; shellSessionExpiry := "7d"; namedSessionExpiry := "30d" |}.

Global Instance SessionType_eq_dec : EqDecision SessionType.
Proof. solve_decision. Defined.

(** ** Files *)

(** What a file of the sessions directory holds: text that
    [JSON.parse] rejects (or that is not an object), or the encoding of a
    session. *)
Inductive FileData := Garbage | Encoded (s : SessionMetadata).

(** [JSON.stringify] drops nothing of a session but the [NaN] of a
    process id, which it writes as [null]. *)
Definition jsonPid (p : PidField) : PidField :=
  match p with
  | PidNaN => PidNull
  | _ => p
  end.

Definition jsonView (s : SessionMetadata) : SessionMetadata :=
  {| id := id s; name := name s; type := type s;
     sdkSessionId := sdkSessionId s; created := created s;
     lastUsed := lastUsed s; messageCount := messageCount s;
     totalTokens := totalTokens s; totalCost := totalCost s;
     powerShellPID := jsonPid (powerShellPID s);
     systemPrompt := systemPrompt s; allowedTools := allowedTools s;
     active := active s |}.

Definition JSON_stringify (s : SessionMetadata) : FileData := Encoded (jsonView s).

Inductive JsError :=
  | ENOENT (path : string)
  | EACCES (path : string)
  | SyntaxError
  | EngineError (msg : string)
  | Error (msg : string).

(** [JSON.parse] followed by the two [new Date (...)] conversions. *)
Definition JSON_parse (d : FileData) : JsError + SessionMetadata :=
  match d with
  | Garbage => inl SyntaxError
  | Encoded s => inr s
  end.

(** ** The world: disk, environment and the [SessionManager] object *)

Inductive FsCall :=
  | WriteFile (path : string) (data : FileData)
  | Unlink (path : string).

(** What [query] is called with, as far as sessions are concerned. *)
Record QueryCall := { prompt : string; resume : option string }.

Record Usage := { input_tokens : option Z; output_tokens : option Z }.

Inductive ContentBlock := TextBlock (text : string) | OtherBlock.

Inductive SDKMessage :=
  | SystemInit (session_id : string)
  | Assistant (content : list ContentBlock)
  | Result (num_turns : Z) (usage : option Usage) (is_error : bool)
  | OtherMessage.

(** The stream a query yields, and the error that ends it if it fails. *)
Record EngineReply := { events : list SDKMessage; failure : option string }.

Record World := {
  (* the sessions directory *)
  files : gmap string FileData;
  (* files on which writeFile and unlink fail for lack of permission *)
  readonly : gset string;
  (* the mutating file system calls issued so far, newest first *)
  fsCalls : list FsCall;
  (* the instants successive [new Date ()] return, and how many were read *)
  clock : nat -> Z;
  clockReads : nat;
  (* the values successive [randomUUID ()] return, and how many were drawn *)
  uuids : nat -> string;
  uuidsDrawn : nat;
  (* [config.sessions] as [configManager.loadConfig] returns it *)
  sessions : SessionSettings;
  (* [process.env.POWERSHELL_PID || process.env.PPID] *)
  envShellPID : option string;
  (* the query engine, the exchanges submitted so far (newest first) *)
  engine : QueryCall -> EngineReply;
  queries : list QueryCall;
  (* exit code of the configuration commands, which are not modelled *)
  configExit : Z;
  (* lines written with [console.error], newest first *)
  stderr : list string;
  (* the fields of the [SessionManager] singleton *)
  activeSession : option SessionMetadata;
  lastFailedQuestion : option string
}.

Definition withDisk (fs : gmap string FileData) (calls : list FsCall) (w : World) : World :=
  {| files := fs; readonly := readonly w; fsCalls := calls;
     clock := clock w; clockReads := clockReads w;
     uuids := uuids w; uuidsDrawn := uuidsDrawn w;
     sessions := sessions w; envShellPID := envShellPID w;
     engine := engine w; queries := queries w; configExit := configExit w;
     stderr := stderr w;
     activeSession := activeSession w; lastFailedQuestion := lastFailedQuestion w |}.

Definition withEnv (reads drawn : nat) (qs : list QueryCall) (err : list string)
    (w : World) : World :=
  {| files := files w; readonly := readonly w; fsCalls := fsCalls w;
     clock := clock w; clockReads := reads;
     uuids := uuids w; uuidsDrawn := drawn;
     sessions := sessions w; envShellPID := envShellPID w;
     engine := engine w; queries := qs; configExit := configExit w;
     stderr := err;
     activeSession := activeSession w; lastFailedQuestion := lastFailedQuestion w |}.

Definition withManager (act : option SessionMetadata) (failed : option string)
    (w : World) : World :=
  {| files := files w; readonly := readonly w; fsCalls := fsCalls w;
     clock := clock w; clockReads := clockReads w;
     uuids := uuids w; uuidsDrawn := uuidsDrawn w;
     sessions := sessions w; envShellPID := envShellPID w;
     engine := engine w; queries := queries w; configExit := configExit w;
     stderr := stderr w;
     activeSession := act; lastFailedQuestion := failed |}.

(** *** The monad of asynchronous functions *)

Inductive Outcome (A : Type) : Type :=
  | Returned (a : A)
  | Thrown (e : JsError).
Arguments Returned {A} a.
Arguments Thrown {A} e.

Definition Async (A : Type) : Type := World -> Outcome A * World.

Global Instance Async_ret : MRet Async := fun A a w => (Returned a, w).

Global Instance Async_bind : MBind Async := fun A B f m w =>
  match m w with
  | (Returned a, w') => f a w'
  | (Thrown e, w') => (Thrown e, w')
  end.

Definition throw {A} (e : JsError) : Async A := fun w => (Thrown e, w).

(** [try { body } catch (e) { handler }] *)
Definition tryCatch {A} (body : Async A) (handler : JsError -> Async A) : Async A :=
  fun w =>
    match body w with
    | (Returned a, w') => (Returned a, w')
    | (Thrown e, w') => handler e w'
    end.

(** [for (const x of xs) { acc = body (acc, x) }] *)
Fixpoint forOf {A S} (xs : list A) (body : S -> A -> Async S) (acc : S) : Async S :=
  match xs with
  | [] => mret acc
  | x :: rest => acc' ← body acc x; forOf rest body acc'
  end.

(** *** Environment *)

Definition newDate : Async Z := fun w =>
  (Returned (clock w (clockReads w)),
   withEnv (S (clockReads w)) (uuidsDrawn w) (queries w) (stderr w) w).

Definition randomUUID : Async string := fun w =>
  (Returned (uuids w (uuidsDrawn w)),
   withEnv (clockReads w) (S (uuidsDrawn w)) (queries w) (stderr w) w).

Definition console_error (line : string) : Async unit := fun w =>
  (Returned tt, withEnv (clockReads w) (uuidsDrawn w) (queries w) (line :: stderr w) w).

Definition query (call : QueryCall) : Async EngineReply := fun w =>
  (Returned (engine w call),
   withEnv (clockReads w) (uuidsDrawn w) (call :: queries w) (stderr w) w).

Definition loadConfig : Async SessionSettings := fun w => (Returned (sessions w), w).

Definition getenvShellPID : Async (option string) := fun w => (Returned (envShellPID w), w).

(** *** [fs/promises] *)

Definition fs_readFile (path : string) : Async FileData := fun w =>
  match files w !! path with
  | Some d => (Returned d, w)
  | None => (Thrown (ENOENT path), w)
  end.

Definition fs_writeFile (path : string) (data : FileData) : Async unit := fun w =>
  let calls := WriteFile path data :: fsCalls w in
  if decide (path ∈ readonly w) then (Thrown (EACCES path), withDisk (files w) calls w)
  else (Returned tt, withDisk (<[path := data]> (files w)) calls w).

Definition fs_unlink (path : string) : Async unit := fun w =>
  let calls := Unlink path :: fsCalls w in
  match files w !! path with
  | None => (Thrown (ENOENT path), withDisk (files w) calls w)
  | Some _ =>
      if decide (path ∈ readonly w) then (Thrown (EACCES path), withDisk (files w) calls w)
      else (Returned tt, withDisk (delete path (files w)) calls w)
  end.

(** The entries of the sessions directory, in the order the system lists them. *)
Definition fs_readdir : Async (list string) := fun w =>
  (Returned ((map_to_list (files w)).*1), w).

(** ** [SessionManager] ([session-manager.ts]) *)

Definition getSessionPath (sessionName : string) : string := sessionName +:+ ".json".

Definition loadSessionFromDisk (sessionName : string) : Async (option SessionMetadata) :=
  tryCatch
    (data ← fs_readFile (getSessionPath sessionName);
     match JSON_parse data with
     | inr session => mret (Some session)
     | inl e => throw e
     end)
    (fun _ => mret None).

Definition saveSession (session : SessionMetadata) : Async unit :=
  fs_writeFile (getSessionPath (name session)) (JSON_stringify session).

Definition parsePid (powerShellPID : option string) : PidField :=
  match powerShellPID with
  | Some p =>
      if truthy p then
        match parseInt p with
        | Some n => PidNumber n
        | None => PidNaN
        end
      else PidUndefined
  | None => PidUndefined
  end.

Definition createSession (name0 : string) (type0 : SessionType)
    (powerShellPID0 : option string) : Async SessionMetadata :=
  id0 ← randomUUID;
  created0 ← newDate;
  lastUsed0 ← newDate;
  let session :=
    {| id := id0; name := name0; type := type0; sdkSessionId := None;
       created := created0; lastUsed := lastUsed0;
       messageCount := 0; totalTokens := 0; totalCost := 0%Q;
       powerShellPID := parsePid powerShellPID0;
       systemPrompt := None; allowedTools := None; active := true |} in
  _ ← saveSession session;
  mret session.

Definition getGlobalSession : Async SessionMetadata :=
  session ← loadSessionFromDisk "global";
  match session with
  | Some s => mret s
  | None => createSession "global" global None
  end.

Definition getShellSession (shellPID0 : string) : Async SessionMetadata :=
  let sessionName0 := "shell-" +:+ shellPID0 in
  session ← loadSessionFromDisk sessionName0;
  match session with
  | Some s => mret s
  | None => createSession sessionName0 shell (Some shellPID0)
  end.

Definition getNamedSession (name0 : string) (forceNew0 : bool) : Async SessionMetadata :=
  if forceNew0 then createSession name0 named None
  else
    session ← loadSessionFromDisk name0;
    match session with
    | Some s => mret s
    | None => createSession name0 named None
    end.

Definition setActiveSession (s : option SessionMetadata) : Async unit := fun w =>
  (Returned tt, withManager s (lastFailedQuestion w) w).

(** [options.type === t] *)
Definition isType (t : SessionType) (selected : SelectionType) : bool :=
  match selected with
  | sel t' => bool_decide (t' = t)
  | auto => false
  end.

(** The string a truthy optional string holds. *)
Definition the (a : option string) : string :=
  match a with
  | Some s => s
  | None => EmptyString
  end.

Definition getActiveSession (options : SessionSelectionOptions) : Async SessionMetadata :=
  session ←
    (if is_set (sessionName options) then
       getNamedSession (the (sessionName options)) (forceNew options)
     else if isType shell (selType options) && is_set (shellPID options) then
       getShellSession (the (shellPID options))
     else if isType named (selType options) && is_set (sessionName options) then
       getNamedSession (the (sessionName options)) (forceNew options)
     else
       getGlobalSession);
  _ ← setActiveSession (Some session);
  mret session.

Definition getCurrentSession : Async (option SessionMetadata) := fun w =>
  (Returned (activeSession w), w).

(** [a] comes before [b] when the comparator [b.lastUsed - a.lastUsed] is
    not positive. *)
Definition mostRecentFirst (a b : SessionMetadata) : Prop := lastUsed b <= lastUsed a.

Global Instance mostRecentFirst_dec a b : Decision (mostRecentFirst a b).
Proof. unfold mostRecentFirst. apply _. Defined.

(** [Array.prototype.sort] is a stable sort. *)
Definition sortSessions (l : list SessionMetadata) : list SessionMetadata :=
  merge_sort mostRecentFirst l.

(** The [catch] branch returns the empty list, which sorting leaves as it is. *)
Definition listAllSessions : Async (list SessionMetadata) :=
  sessions0 ←
    tryCatch
      (dir ← fs_readdir;
       forOf dir
         (fun acc file =>
            if endsWith file ".json" then
              session ← loadSessionFromDisk (replace ".json" EmptyString file);
              match session with
              | Some s => mret (acc ++ [s])
              | None => mret acc
              end
            else mret acc)
         [])
      (fun _ => mret []);
  mret (sortSessions sessions0).

Definition clearActiveIfNamed (sessionName0 : string) : Async unit := fun w =>
  match activeSession w with
  | Some s =>
      if String.eqb (name s) sessionName0
      then (Returned tt, withManager None (lastFailedQuestion w) w)
      else (Returned tt, w)
  | None => (Returned tt, w)
  end.

Definition deleteSession (sessionName0 : string) : Async bool :=
  tryCatch
    (_ ← fs_unlink (getSessionPath sessionName0);
     _ ← clearActiveIfNamed sessionName0;
     mret true)
    (fun _ => mret false).

Definition deleteSessionsByType (type0 : SessionType) : Async Z :=
  sessions0 ← listAllSessions;
  forOf sessions0
    (fun (deletedCount : Z) (session : SessionMetadata) =>
       if decide (type session = type0) then
         deleted ← deleteSession (name session);
         mret (if (deleted : bool) then deletedCount + 1 else deletedCount)
       else mret deletedCount)
    0.

Definition MS_PER_DAY : Z := 1000 * 60 * 60 * 24.

(** [(now - lastUsed) / (1000 * 60 * 60 * 24)], a fraction of days. *)
Definition daysSinceLastUse (now : Z) (session : SessionMetadata) : Q :=
  (now - lastUsed session)%Z # Z.to_pos MS_PER_DAY.

(** [days > expiryDays]; the comparison with [NaN] is false. *)
Definition exceeds (days : Q) (expiryDays : option Z) : bool :=
  match expiryDays with
  | Some n => negb (Qle_bool days (inject_Z n))
  | None => false
  end.

Definition shouldDelete (config : SessionSettings) (now : Z)
    (session : SessionMetadata) : bool :=
  match type session with
  | shell => exceeds (daysSinceLastUse now session) (parseInt (shellSessionExpiry config))
  | named => exceeds (daysSinceLastUse now session) (parseInt (namedSessionExpiry config))
  | global => false
  end.

Definition cleanupExpiredSessions : Async Z :=
  config ← loadConfig;
  if negb (autoCleanup config) then mret 0
  else
    sessions0 ← listAllSessions;
    now ← newDate;
    forOf sessions0
      (fun (cleanedCount : Z) (session : SessionMetadata) =>
         if shouldDelete config now session then
           deleted ← deleteSession (name session);
           mret (if (deleted : bool) then cleanedCount + 1 else cleanedCount)
         else mret cleanedCount)
      0.

(** The text of the two reports is not modelled, only what they read. *)
Definition formatSessionList : Async unit :=
  _ ← listAllSessions; mret tt.

Definition formatSessionInfo (sessionName0 : option string) : Async unit :=
  if is_set sessionName0 then
    _ ← loadSessionFromDisk (the sessionName0); mret tt
  else mret tt.

Definition setLastFailedQuestion (question0 : string) : Async unit := fun w =>
  (Returned tt, withManager (activeSession w) (Some question0) w).

Definition getLastFailedQuestion : Async (option string) := fun w =>
  (Returned (lastFailedQuestion w), w).

(** The report goes to [outputPath], outside the sessions directory; that
    write is not modelled. *)
Definition exportSession (sessionName0 outputPath : string) : Async unit :=
  session ← loadSessionFromDisk sessionName0;
  match session with
  | None => throw (Error ("Session '" +:+ sessionName0 +:+ "' not found"))
  | Some _ => mret tt
  end.

(** ** The CLI entry point *)

(** The options that reach the session core.  [configCommand] stands for
    [configShow || configReset || usePrompt || setDefaultPrompt ||
    allowTools]; [--verbose] diagnostics are not modelled. *)
Record CLIOptions := {
  question : option string;
  session : option string;
  newSession : option string;
  noHistory : bool;
  listSessions : bool;
  sessionInfo : bool;
  clear : bool;
  clearAll : bool;
  export : option string;
  retry : bool;
  help : bool;
  version : bool;
  configCommand : bool
}.

Record CLIResult := { success : bool; exitCode : Z }.

Definition withSdkSessionId (v : string) (s : SessionMetadata) : SessionMetadata :=
  {| id := id s; name := name s; type := type s;
     sdkSessionId := Some v; created := created s;
     lastUsed := lastUsed s; messageCount := messageCount s;
     totalTokens := totalTokens s; totalCost := totalCost s;
     powerShellPID := powerShellPID s;
     systemPrompt := systemPrompt s; allowedTools := allowedTools s;
     active := active s |}.

Definition withLastUsed (v : Z) (s : SessionMetadata) : SessionMetadata :=
  {| id := id s; name := name s; type := type s;
     sdkSessionId := sdkSessionId s; created := created s;
     lastUsed := v; messageCount := messageCount s;
     totalTokens := totalTokens s; totalCost := totalCost s;
     powerShellPID := powerShellPID s;
     systemPrompt := systemPrompt s; allowedTools := allowedTools s;
     active := active s |}.

Definition withCounters (count tokens : Z) (cost : Q) (s : SessionMetadata)
    : SessionMetadata :=
  {| id := id s; name := name s; type := type s;
     sdkSessionId := sdkSessionId s; created := created s;
     lastUsed := lastUsed s; messageCount := count;
     totalTokens := tokens; totalCost := cost;
     powerShellPID := powerShellPID s;
     systemPrompt := systemPrompt s; allowedTools := allowedTools s;
     active := active s |}.

(** [x || 0] *)
Definition orZero (x : option Z) : Z := default 0 x.

Definition costPer1kInput : Q := 3 # 1000.
Definition costPer1kOutput : Q := 15 # 1000.

Definition exchangeCost (inputTokens outputTokens : Z) : Q :=
  ((inject_Z inputTokens / inject_Z 1000) * costPer1kInput
   + (inject_Z outputTokens / inject_Z 1000) * costPer1kOutput)%Q.

(** What the [result] branch of the loop does to the session. *)
Definition applyResult (num_turns : Z) (usage : option Usage) (s : SessionMetadata)
    : SessionMetadata :=
  let count := messageCount s + num_turns in
  match usage with
  | Some u =>
      let inputTokens := orZero (input_tokens u) in
      let outputTokens := orZero (output_tokens u) in
      withCounters count (totalTokens s + (inputTokens + outputTokens))
        (totalCost s + exchangeCost inputTokens outputTokens)%Q s
  | None => withCounters count (totalTokens s) (totalCost s) s
  end.

Fixpoint blockText (content : list ContentBlock) : string :=
  match content with
  | TextBlock t :: rest => t +:+ blockText rest
  | OtherBlock :: rest => blockText rest
  | [] => EmptyString
  end.

(** [session] in [executeQuery] and [this.activeSession] are one object:
    a write to a field of the one is a write to the other. *)
Definition aliasWrite (s : SessionMetadata) : Async unit := setActiveSession (Some s).

Definition onMessage (st : SessionMetadata * string * bool) (message : SDKMessage)
    : Async (SessionMetadata * string * bool) :=
  let '(session0, responseText, hadError) := st in
  match message with
  | SystemInit sid =>
      let session1 := withSdkSessionId sid session0 in
      _ ← aliasWrite session1;
      mret (session1, responseText, hadError)
  | Assistant content =>
      mret (session0, responseText +:+ blockText content, hadError)
  | Result num_turns usage is_error =>
      let session1 := applyResult num_turns usage session0 in
      _ ← aliasWrite session1;
      mret (session1, responseText, is_error)
  | OtherMessage => mret st
  end.

Definition resumeOption (noHistory0 : bool) (s : SessionMetadata) : option string :=
  if noHistory0 then None
  else match sdkSessionId s with
       | Some t => if truthy t then Some t else None
       | None => None
       end.

Definition selectionOf (options : CLIOptions) (pid : option string)
    : SessionSelectionOptions :=
  {| sessionName := or_else (session options) (newSession options);
     shellPID := pid;
     selType := if is_set (newSession options) then sel named else auto;
     forceNew := is_set (newSession options) |}.

Definition errorMessage (e : JsError) : string :=
  match e with
  | ENOENT p => "ENOENT: no such file or directory, " +:+ p
  | EACCES p => "EACCES: permission denied, " +:+ p
  | SyntaxError => "Unexpected token in JSON"
  | EngineError m => m
  | Error m => m
  end.

Definition executeQuery (question0 : string) (options : CLIOptions) : Async CLIResult :=
  tryCatch
    (pid ← getenvShellPID;
     session0 ← getActiveSession (selectionOf options pid);
     _ ← loadConfig;
     reply ← query {| prompt := question0;
                      resume := resumeOption (noHistory options) session0 |};
     st ← forOf (events reply) onMessage (session0, EmptyString, false);
     let '(session1, responseText, hadError) := st in
     _ ← match failure reply with
         | Some msg => throw (EngineError msg)
         | None => mret tt
         end;
     _ ← (if noHistory options then mret tt
          else
            now ← newDate;
            let session2 := withLastUsed now session1 in
            _ ← aliasWrite session2;
            saveSession session2);
     _ ← (if hadError then setLastFailedQuestion question0 else mret tt);
     mret {| success := negb hadError; exitCode := if hadError then 1 else 0 |})
    (fun e =>
       _ ← console_error ("Error: " +:+ errorMessage e);
       _ ← setLastFailedQuestion question0;
       mret {| success := false; exitCode := 1 |}).

(** [options.session || sessionManager.getCurrentSession ()?.name || 'global'] *)
Definition targetName (options : CLIOptions) : Async string :=
  current ← getCurrentSession;
  mret (default "global" (or_else (or_else (session options) (name <$> current))
                                 (Some "global"))).

Definition handleSessionCommands (options : CLIOptions) : Async CLIResult :=
  tryCatch
    (if listSessions options then
       _ ← formatSessionList;
       mret {| success := true; exitCode := 0 |}
     else if sessionInfo options then
       _ ← formatSessionInfo (session options);
       mret {| success := true; exitCode := 0 |}
     else if clear options then
       sessionName0 ← targetName options;
       deleted ← deleteSession sessionName0;
       if (deleted : bool) then mret {| success := true; exitCode := 0 |}
       else
         _ ← console_error ("Failed to clear session '" +:+ sessionName0 +:+ "'");
         mret {| success := false; exitCode := 1 |}
     else if clearAll options then
       sessions0 ← listAllSessions;
       _ ← forOf sessions0
             (fun (cleared : Z) (s : SessionMetadata) =>
                deleted ← deleteSession (name s);
                mret (if (deleted : bool) then cleared + 1 else cleared))
             0;
       mret {| success := true; exitCode := 0 |}
     else if is_set (export options) then
       sessionName0 ← targetName options;
       _ ← exportSession sessionName0 (the (export options));
       mret {| success := true; exitCode := 0 |}
     else mret {| success := true; exitCode := 0 |})
    (fun e =>
       _ ← console_error ("Error: " +:+ errorMessage e);
       mret {| success := false; exitCode := 1 |}).

(** The configuration commands act on the configuration file only. *)
Definition handleConfigCommands : Async CLIResult := fun w =>
  (Returned {| success := Z.eqb (configExit w) 0; exitCode := configExit w |}, w).

(** [main] after [parseArgs]; the value returned is the code given to
    [process.exit]. *)
Definition main (options : CLIOptions) : Async Z :=
  tryCatch
    (if help options then mret 0
     else if version options then mret 0
     else
       _ ← cleanupExpiredSessions;
       if configCommand options then
         result ← handleConfigCommands;
         mret (exitCode result)
       else if listSessions options || sessionInfo options || clear options
               || clearAll options || is_set (export options) then
         result ← handleSessionCommands options;
         mret (exitCode result)
       else
         retried ←
           (if retry options then
              lastQuestion ← getLastFailedQuestion;
              if is_set lastQuestion then mret (inr lastQuestion)
              else
                _ ← console_error "No failed question to retry";
                mret (inl 1)
            else mret (inr (question options)));
         match retried with
         | inl code => mret code
         | inr question0 =>
             if is_set question0 then
               result ← executeQuery (the question0) options;
               mret (exitCode result)
             else mret 1
         end)
    (fun _ =>
       _ ← console_error "Unexpected error:";
       mret 1).

(** ** Relative times ([formatRelativeTime])

    [toLocaleDateString] depends on the locale of the process and is taken
    as a parameter; [Math.floor (a / b)] on integers is [Z.div]. *)



(** ** Command line arguments ([parseArgs])

    The options as [parseArgs] fills them, with every field of the
    [CLIOptions] interface of [types.ts]; an absent field is [None] or
    [false]. *)
Module Args.

Record t := {
  question : option string;
  session : option string;
  newSession : option string;
  systemPrompt : option string;
  noHistory : bool;
  listSessions : bool;
  sessionInfo : bool;
  history : bool;
  clear : bool;
  clearAll : bool;
  export : option string;
  retry : bool;
  help : bool;
  version : bool;
  configShow : bool;
  configReset : bool;
  usePrompt : option string;
  setDefaultPrompt : option string;
  allowTools : option string;
  permissionMode : option string;
  verbose : bool
}.

Definition empty : t :=
  {| question := None;
     session := None;
     newSession := None;
     systemPrompt := None;
     noHistory := false;
     listSessions := false;
     sessionInfo := false;
     history := false;
     clear := false;
     clearAll := false;
     export := None;
     retry := false;
     help := false;
     version := false;
     configShow := false;
     configReset := false;
     usePrompt := None;
     setDefaultPrompt := None;
     allowTools := None;
     permissionMode := None;
     verbose := false |}.

Definition set_question (v : option string) (o : t) : t :=
  {| question := v;
     session := session o;
     newSession := newSession o;
     systemPrompt := systemPrompt o;
     noHistory := noHistory o;
     listSessions := listSessions o;
     sessionInfo := sessionInfo o;
     history := history o;
     clear := clear o;
     clearAll := clearAll o;
     export := export o;
     retry := retry o;
     help := help o;
     version := version o;
     configShow := configShow o;
     configReset := configReset o;
     usePrompt := usePrompt o;
     setDefaultPrompt := setDefaultPrompt o;
     allowTools := allowTools o;
     permissionMode := permissionMode o;
     verbose := verbose o |}.

Definition set_session (v : option string) (o : t) : t :=
  {| question := question o;
     session := v;
     newSession := newSession o;
     systemPrompt := systemPrompt o;
     noHistory := noHistory o;
     listSessions := listSessions o;
     sessionInfo := sessionInfo o;
     history := history o;
     clear := clear o;
     clearAll := clearAll o;
     export := export o;
     retry := retry o;
     help := help o;
     version := version o;
     configShow := configShow o;
     configReset := configReset o;
     usePrompt := usePrompt o;
     setDefaultPrompt := setDefaultPrompt o;
     allowTools := allowTools o;
     permissionMode := permissionMode o;
     verbose := verbose o |}.

Definition set_newSession (v : option string) (o : t) : t :=
  {| question := question o;
     session := session o;
     newSession := v;
     systemPrompt := systemPrompt o;
     noHistory := noHistory o;
     listSessions := listSessions o;
     sessionInfo := sessionInfo o;
     history := history o;
     clear := clear o;
     clearAll := clearAll o;
     export := export o;
     retry := retry o;
     help := help o;
     version := version o;
     configShow := configShow o;
     configReset := configReset o;
     usePrompt := usePrompt o;
     setDefaultPrompt := setDefaultPrompt o;
     allowTools := allowTools o;
     permissionMode := permissionMode o;
     verbose := verbose o |}.

Definition set_systemPrompt (v : option string) (o : t) : t :=
  {| question := question o;
     session := session o;
     newSession := newSession o;
     systemPrompt := v;
     noHistory := noHistory o;
     listSessions := listSessions o;
     sessionInfo := sessionInfo o;
     history := history o;
     clear := clear o;
     clearAll := clearAll o;
     export := export o;
     retry := retry o;
     help := help o;
     version := version o;
     configShow := configShow o;
     configReset := configReset o;
     usePrompt := usePrompt o;
     setDefaultPrompt := setDefaultPrompt o;
     allowTools := allowTools o;
     permissionMode := permissionMode o;
     verbose := verbose o |}.

Definition set_noHistory (v : bool) (o : t) : t :=
  {| question := question o;
     session := session o;
     newSession := newSession o;
     systemPrompt := systemPrompt o;
     noHistory := v;
     listSessions := listSessions o;
     sessionInfo := sessionInfo o;
     history := history o;
     clear := clear o;
     clearAll := clearAll o;
     export := export o;
     retry := retry o;
     help := help o;
     version := version o;
     configShow := configShow o;
     configReset := configReset o;
     usePrompt := usePrompt o;
     setDefaultPrompt := setDefaultPrompt o;
     allowTools := allowTools o;
     permissionMode := permissionMode o;
     verbose := verbose o |}.

Definition set_listSessions (v : bool) (o : t) : t :=
  {| question := question o;
     session := session o;
     newSession := newSession o;
     systemPrompt := systemPrompt o;
     noHistory := noHistory o;
     listSessions := v;
     sessionInfo := sessionInfo o;
     history := history o;
     clear := clear o;
     clearAll := clearAll o;
     export := export o;
     retry := retry o;
     help := help o;
     version := version o;
     configShow := configShow o;
     configReset := configReset o;
     usePrompt := usePrompt o;
     setDefaultPrompt := setDefaultPrompt o;
     allowTools := allowTools o;
     permissionMode := permissionMode o;
     verbose := verbose o |}.

Definition set_sessionInfo (v : bool) (o : t) : t :=
  {| question := question o;
     session := session o;
     newSession := newSession o;
     systemPrompt := systemPrompt o;
     noHistory := noHistory o;
     listSessions := listSessions o;
     sessionInfo := v;
     history := history o;
     clear := clear o;
     clearAll := clearAll o;
     export := export o;
     retry := retry o;
     help := help o;
     version := version o;
     configShow := configShow o;
     configReset := configReset o;
     usePrompt := usePrompt o;
     setDefaultPrompt := setDefaultPrompt o;
     allowTools := allowTools o;
     permissionMode := permissionMode o;
     verbose := verbose o |}.

Definition set_history (v : bool) (o : t) : t :=
  {| question := question o;
     session := session o;
     newSession := newSession o;
     systemPrompt := systemPrompt o;
     noHistory := noHistory o;
     listSessions := listSessions o;
     sessionInfo := sessionInfo o;
     history := v;
     clear := clear o;
     clearAll := clearAll o;
     export := export o;
     retry := retry o;
     help := help o;
     version := version o;
     configShow := configShow o;
     configReset := configReset o;
     usePrompt := usePrompt o;
     setDefaultPrompt := setDefaultPrompt o;
     allowTools := allowTools o;
     permissionMode := permissionMode o;
     verbose := verbose o |}.

Definition set_clear (v : bool) (o : t) : t :=
  {| question := question o;
     session := session o;
     newSession := newSession o;
     systemPrompt := systemPrompt o;
     noHistory := noHistory o;
     listSessions := listSessions o;
     sessionInfo := sessionInfo o;
     history := history o;
     clear := v;
     clearAll := clearAll o;
     export := export o;
     retry := retry o;
     help := help o;
     version := version o;
     configShow := configShow o;
     configReset := configReset o;
     usePrompt := usePrompt o;
     setDefaultPrompt := setDefaultPrompt o;
     allowTools := allowTools o;
     permissionMode := permissionMode o;
     verbose := verbose o |}.

Definition set_clearAll (v : bool) (o : t) : t :=
  {| question := question o;
     session := session o;
     newSession := newSession o;
     systemPrompt := systemPrompt o;
     noHistory := noHistory o;
     listSessions := listSessions o;
     sessionInfo := sessionInfo o;
     history := history o;
     clear := clear o;
     clearAll := v;
     export := export o;
     retry := retry o;
     help := help o;
     version := version o;
     configShow := configShow o;
     configReset := configReset o;
     usePrompt := usePrompt o;
     setDefaultPrompt := setDefaultPrompt o;
     allowTools := allowTools o;
     permissionMode := permissionMode o;
     verbose := verbose o |}.

Definition set_export (v : option string) (o : t) : t :=
  {| question := question o;
     session := session o;
     newSession := newSession o;
     systemPrompt := systemPrompt o;
     noHistory := noHistory o;
     listSessions := listSessions o;
     sessionInfo := sessionInfo o;
     history := history o;
     clear := clear o;
     clearAll := clearAll o;
     export := v;
     retry := retry o;
     help := help o;
     version := version o;
     configShow := configShow o;
     configReset := configReset o;
     usePrompt := usePrompt o;
     setDefaultPrompt := setDefaultPrompt o;
     allowTools := allowTools o;
     permissionMode := permissionMode o;
     verbose := verbose o |}.

Definition set_retry (v : bool) (o : t) : t :=
  {| question := question o;
     session := session o;
     newSession := newSession o;
     systemPrompt := systemPrompt o;
     noHistory := noHistory o;
     listSessions := listSessions o;
     sessionInfo := sessionInfo o;
     history := history o;
     clear := clear o;
     clearAll := clearAll o;
     export := export o;
     retry := v;
     help := help o;
     version := version o;
     configShow := configShow o;
     configReset := configReset o;
     usePrompt := usePrompt o;
     setDefaultPrompt := setDefaultPrompt o;
     allowTools := allowTools o;
     permissionMode := permissionMode o;
     verbose := verbose o |}.

Definition set_help (v : bool) (o : t) : t :=
  {| question := question o;
     session := session o;
     newSession := newSession o;
     systemPrompt := systemPrompt o;
     noHistory := noHistory o;
     listSessions := listSessions o;
     sessionInfo := sessionInfo o;
     history := history o;
     clear := clear o;
     clearAll := clearAll o;
     export := export o;
     retry := retry o;
     help := v;
     version := version o;
     configShow := configShow o;
     configReset := configReset o;
     usePrompt := usePrompt o;
     setDefaultPrompt := setDefaultPrompt o;
     allowTools := allowTools o;
     permissionMode := permissionMode o;
     verbose := verbose o |}.

Definition set_version (v : bool) (o : t) : t :=
  {| question := question o;
     session := session o;
     newSession := newSession o;
     systemPrompt := systemPrompt o;
     noHistory := noHistory o;
     listSessions := listSessions o;
     sessionInfo := sessionInfo o;
     history := history o;
     clear := clear o;
     clearAll := clearAll o;
     export := export o;
     retry := retry o;
     help := help o;
     version := v;
     configShow := configShow o;
     configReset := configReset o;
     usePrompt := usePrompt o;
     setDefaultPrompt := setDefaultPrompt o;
     allowTools := allowTools o;
     permissionMode := permissionMode o;
     verbose := verbose o |}.

Definition set_configShow (v : bool) (o : t) : t :=
  {| question := question o;
     session := session o;
     newSession := newSession o;
     systemPrompt := systemPrompt o;
     noHistory := noHistory o;
     listSessions := listSessions o;
     sessionInfo := sessionInfo o;
     history := history o;
     clear := clear o;
     clearAll := clearAll o;
     export := export o;
     retry := retry o;
     help := help o;
     version := version o;
     configShow := v;
     configReset := configReset o;
     usePrompt := usePrompt o;
     setDefaultPrompt := setDefaultPrompt o;
     allowTools := allowTools o;
     permissionMode := permissionMode o;
     verbose := verbose o |}.

Definition set_configReset (v : bool) (o : t) : t :=
  {| question := question o;
     session := session o;
     newSession := newSession o;
     systemPrompt := systemPrompt o;
     noHistory := noHistory o;
     listSessions := listSessions o;
     sessionInfo := sessionInfo o;
     history := history o;
     clear := clear o;
     clearAll := clearAll o;
     export := export o;
     retry := retry o;
     help := help o;
     version := version o;
     configShow := configShow o;
     configReset := v;
     usePrompt := usePrompt o;
     setDefaultPrompt := setDefaultPrompt o;
     allowTools := allowTools o;
     permissionMode := permissionMode o;
     verbose := verbose o |}.

Definition set_usePrompt (v : option string) (o : t) : t :=
  {| question := question o;
     session := session o;
     newSession := newSession o;
     systemPrompt := systemPrompt o;
     noHistory := noHistory o;
     listSessions := listSessions o;
     sessionInfo := sessionInfo o;
     history := history o;
     clear := clear o;
     clearAll := clearAll o;
     export := export o;
     retry := retry o;
     help := help o;
     version := version o;
     configShow := configShow o;
     configReset := configReset o;
     usePrompt := v;
     setDefaultPrompt := setDefaultPrompt o;
     allowTools := allowTools o;
     permissionMode := permissionMode o;
     verbose := verbose o |}.

Definition set_setDefaultPrompt (v : option string) (o : t) : t :=
  {| question := question o;
     session := session o;
     newSession := newSession o;
     systemPrompt := systemPrompt o;
     noHistory := noHistory o;
     listSessions := listSessions o;
     sessionInfo := sessionInfo o;
     history := history o;
     clear := clear o;
     clearAll := clearAll o;
     export := export o;
     retry := retry o;
     help := help o;
     version := version o;
     configShow := configShow o;
     configReset := configReset o;
     usePrompt := usePrompt o;
     setDefaultPrompt := v;
     allowTools := allowTools o;
     permissionMode := permissionMode o;
     verbose := verbose o |}.

Definition set_allowTools (v : option string) (o : t) : t :=
  {| question := question o;
     session := session o;
     newSession := newSession o;
     systemPrompt := systemPrompt o;
     noHistory := noHistory o;
     listSessions := listSessions o;
     sessionInfo := sessionInfo o;
     history := history o;
     clear := clear o;
     clearAll := clearAll o;
     export := export o;
     retry := retry o;
     help := help o;
     version := version o;
     configShow := configShow o;
     configReset := configReset o;
     usePrompt := usePrompt o;
     setDefaultPrompt := setDefaultPrompt o;
     allowTools := v;
     permissionMode := permissionMode o;
     verbose := verbose o |}.

Definition set_permissionMode (v : option string) (o : t) : t :=
  {| question := question o;
     session := session o;
     newSession := newSession o;
     systemPrompt := systemPrompt o;
     noHistory := noHistory o;
     listSessions := listSessions o;
     sessionInfo := sessionInfo o;
     history := history o;
     clear := clear o;
     clearAll := clearAll o;
     export := export o;
     retry := retry o;
     help := help o;
     version := version o;
     configShow := configShow o;
     configReset := configReset o;
     usePrompt := usePrompt o;
     setDefaultPrompt := setDefaultPrompt o;
     allowTools := allowTools o;
     permissionMode := v;
     verbose := verbose o |}.

Definition set_verbose (v : bool) (o : t) : t :=
  {| question := question o;
     session := session o;
     newSession := newSession o;
     systemPrompt := systemPrompt o;
     noHistory := noHistory o;
     listSessions := listSessions o;
     sessionInfo := sessionInfo o;
     history := history o;
     clear := clear o;
     clearAll := clearAll o;
     export := export o;
     retry := retry o;
     help := help o;
     version := version o;
     configShow := configShow o;
     configReset := configReset o;
     usePrompt := usePrompt o;
     setDefaultPrompt := setDefaultPrompt o;
     allowTools := allowTools o;
     permissionMode := permissionMode o;
     verbose := v |}.

End Args.

(** A flag that takes the next argument as its value, and the field it
    sets ([options.x = args[++i]]). *)
Definition valueFlag (arg : string) : option (option string -> Args.t -> Args.t) :=
  if String.eqb arg "--session" || String.eqb arg "-s" then Some Args.set_session
  else if String.eqb arg "--new-session" then Some Args.set_newSession
  else if String.eqb arg "--system-prompt" || String.eqb arg "--prompt"
       then Some Args.set_systemPrompt
  else if String.eqb arg "--export" then Some Args.set_export
  else if String.eqb arg "--use-prompt" then Some Args.set_usePrompt
  else if String.eqb arg "--set-default-prompt" then Some Args.set_setDefaultPrompt
  else if String.eqb arg "--allow-tools" then Some Args.set_allowTools
  else if String.eqb arg "--permission-mode" then Some Args.set_permissionMode
  else None.

(** A flag that stands alone ([options.x = true]). *)
Definition switchFlag (arg : string) : option (Args.t -> Args.t) :=
  if String.eqb arg "--no-history" then Some (Args.set_noHistory true)
  else if String.eqb arg "--list-sessions" || String.eqb arg "--list"
       then Some (Args.set_listSessions true)
  else if String.eqb arg "--session-info" || String.eqb arg "--info"
       then Some (Args.set_sessionInfo true)
  else if String.eqb arg "--history" then Some (Args.set_history true)
  else if String.eqb arg "--clear" then Some (Args.set_clear true)
  else if String.eqb arg "--clear-all" then Some (Args.set_clearAll true)
  else if String.eqb arg "--retry" then Some (Args.set_retry true)
  else if String.eqb arg "--help" || String.eqb arg "-h" then Some (Args.set_help true)
  else if String.eqb arg "--version" || String.eqb arg "-v"
       then Some (Args.set_version true)
  else if String.eqb arg "--config-show" || String.eqb arg "--config"
       then Some (Args.set_configShow true)
  else if String.eqb arg "--config-reset" then Some (Args.set_configReset true)
  else if String.eqb arg "--verbose" then Some (Args.set_verbose true)
  else None.

(** The loop of [parseArgs] from index [i] on: [args] is what is left of
    the array.  A value flag at the end of the array sets its field to
    [undefined]. *)
Fixpoint parseLoop (args : list string) (options : Args.t) (questionParts : list string)
    : Args.t * list string :=
  match args with
  | [] => (options, questionParts)
  | arg :: rest =>
      match valueFlag arg with
      | Some set =>
          match rest with
          | value :: rest' => parseLoop rest' (set (Some value) options) questionParts
          | [] => (set None options, questionParts)
          end
      | None =>
          match switchFlag arg with
          | Some set => parseLoop rest (set options) questionParts
          | None =>
              if startsWith "--" arg then parseLoop rest options questionParts
              else parseLoop rest options (questionParts ++ [arg])
          end
      end
  end.

(** [parts.join (' ')] *)
Fixpoint join (parts : list string) : string :=
  match parts with
  | [] => EmptyString
  | [p] => p
  | p :: rest => p +:+ " " +:+ join rest
  end.

Definition parseArgs (args : list string) : Args.t :=
  let '(options, questionParts) := parseLoop args Args.empty [] in
  match questionParts with
  | [] => options
  | _ => Args.set_question (Some (join questionParts)) options
  end.


(** ** More strings: [s.split (',')] and [s.trim ()] *)

(** [s.split (sep)] with a separator of one character. *)
Fixpoint split (sep : ascii) (s : string) : list string :=
  match s with
  | EmptyString => [EmptyString]
  | String c t =>
      if Ascii.eqb c sep then EmptyString :: split sep t
      else match split sep t with
           | piece :: pieces => String c piece :: pieces
           | [] => [String c EmptyString]
           end
  end.

Definition trimEnd (s : string) : string := String.rev (trimStart (String.rev s)).

Definition trim (s : string) : string := trimEnd (trimStart s).

(** ** [ConfigManager] ([config-manager.ts])

    The configuration has a world of its own: the three directories, the
    configuration file, the [ConfigManager] singleton and the table of
    presets of [DEFAULT_CONFIG], the one object of the defaults that the
    code changes in place.  Objects are taken as [types.ts] declares
    them: a field holds a value of its declared kind, or it is absent
    ([None]) and reads as [undefined]; a file whose JSON has another
    shape is outside the model.  Numbers are finite, so that
    [JSON.stringify] writes them as they are. *)
Module ConfigManager.

Inductive Directory := baseDir | sessionsDir | transcriptsDir.

#[global] Instance Directory_eq_dec : EqDecision Directory.
Proof. solve_decision. Defined.

#[global] Instance Directory_countable : Countable Directory.
Proof.
  refine (inj_countable'
            (fun d => match d with
                      | baseDir => 0%nat
                      | sessionsDir => 1%nat
                      | transcriptsDir => 2%nat
                      end)
            (fun n => match n with
                      | 0%nat => baseDir
                      | 1%nat => sessionsDir
                      | _ => transcriptsDir
                      end) _).
  by intros [].
Defined.

(** [path.join (os.homedir (), '.claude-sessions')] and the paths below
    it; [~] stands for the home directory. *)
Definition pathOf (dir : Directory) : string :=
  match dir with
  | baseDir => "~/.claude-sessions"
  | sessionsDir => "~/.claude-sessions/sessions"
  | transcriptsDir => "~/.claude-sessions/transcripts"
  end.

Definition configFilePath : string := "~/.claude-sessions/config.json".

(** [UserConfig['sessions']] *)
Record SessionsObject := {
  autoCleanup : option bool;
  shellSessionExpiry : option string;
  namedSessionExpiry : option string
}.

(** A configuration object.  [P] is what [customSystemPrompts] holds: the
    table itself in a file, a reference to a table in memory. *)
Record ConfigOf (P : Type) := {
  version : option string;
  defaultSystemPrompt : option string;
  customSystemPrompts : option P;
  currentSystemPrompt : option string;
  allowedTools : option (list string);
  defaultSession : option string;
  autoCompaction : option bool;
  maxHistoryTurns : option Q;
  retryAttempts : option Q;
  streamOutput : option bool;
  model : option string;
  sessions : option SessionsObject
}.
Arguments Build_ConfigOf {P}.
Arguments version {P}.
Arguments defaultSystemPrompt {P}.
Arguments customSystemPrompts {P}.
Arguments currentSystemPrompt {P}.
Arguments allowedTools {P}.
Arguments defaultSession {P}.
Arguments autoCompaction {P}.
Arguments maxHistoryTurns {P}.
Arguments retryAttempts {P}.
Arguments streamOutput {P}.
Arguments model {P}.
Arguments sessions {P}.

(** The table of presets a configuration object refers to: the one of
    [DEFAULT_CONFIG], which a shallow copy of the defaults shares, or a
    table of its own, which [JSON.parse] built. *)
Inductive PromptsRef :=
  | DefaultPrompts
  | OwnPrompts (table : gmap string string).

Definition UserConfig : Type := ConfigOf PromptsRef.

(** What the configuration file holds: text that [JSON.parse] rejects,
    or the encoding of an object. *)
Inductive FileData := Garbage | Encoded (object : ConfigOf (gmap string string)).

Definition mapPrompts {P R} (f : P -> R) (c : ConfigOf P) : ConfigOf R :=
  {| version := version c;
     defaultSystemPrompt := defaultSystemPrompt c;
     customSystemPrompts := f <$> customSystemPrompts c;
     currentSystemPrompt := currentSystemPrompt c;
     allowedTools := allowedTools c;
     defaultSession := defaultSession c;
     autoCompaction := autoCompaction c;
     maxHistoryTurns := maxHistoryTurns c;
     retryAttempts := retryAttempts c;
     streamOutput := streamOutput c;
     model := model c;
     sessions := sessions c |}.

(** One property of [{...a, ...b}]: that of [b] if it has one. *)
Definition over {A} (a b : option A) : option A :=
  match b with
  | Some _ => b
  | None => a
  end.

(** [{...a, ...b}] *)
Definition spread {P} (a b : ConfigOf P) : ConfigOf P :=
  {| version := over (version a) (version b);
     defaultSystemPrompt := over (defaultSystemPrompt a) (defaultSystemPrompt b);
     customSystemPrompts := over (customSystemPrompts a) (customSystemPrompts b);
     currentSystemPrompt := over (currentSystemPrompt a) (currentSystemPrompt b);
     allowedTools := over (allowedTools a) (allowedTools b);
     defaultSession := over (defaultSession a) (defaultSession b);
     autoCompaction := over (autoCompaction a) (autoCompaction b);
     maxHistoryTurns := over (maxHistoryTurns a) (maxHistoryTurns b);
     retryAttempts := over (retryAttempts a) (retryAttempts b);
     streamOutput := over (streamOutput a) (streamOutput b);
     model := over (model a) (model b);
     sessions := over (sessions a) (sessions b) |}.

(** [config.currentSystemPrompt = v] and the other assignments to a
    field of a configuration object *)
Definition set_currentSystemPrompt {P} (v : string) (c : ConfigOf P) : ConfigOf P :=
  {| version := version c;
     defaultSystemPrompt := defaultSystemPrompt c;
     customSystemPrompts := customSystemPrompts c;
     currentSystemPrompt := Some v;
     allowedTools := allowedTools c;
     defaultSession := defaultSession c;
     autoCompaction := autoCompaction c;
     maxHistoryTurns := maxHistoryTurns c;
     retryAttempts := retryAttempts c;
     streamOutput := streamOutput c;
     model := model c;
     sessions := sessions c |}.

Definition set_defaultSystemPrompt {P} (v : string) (c : ConfigOf P) : ConfigOf P :=
  {| version := version c;
     defaultSystemPrompt := Some v;
     customSystemPrompts := customSystemPrompts c;
     currentSystemPrompt := currentSystemPrompt c;
     allowedTools := allowedTools c;
     defaultSession := defaultSession c;
     autoCompaction := autoCompaction c;
     maxHistoryTurns := maxHistoryTurns c;
     retryAttempts := retryAttempts c;
     streamOutput := streamOutput c;
     model := model c;
     sessions := sessions c |}.

Definition set_allowedTools {P} (v : list string) (c : ConfigOf P) : ConfigOf P :=
  {| version := version c;
     defaultSystemPrompt := defaultSystemPrompt c;
     customSystemPrompts := customSystemPrompts c;
     currentSystemPrompt := currentSystemPrompt c;
     allowedTools := Some v;
     defaultSession := defaultSession c;
     autoCompaction := autoCompaction c;
     maxHistoryTurns := maxHistoryTurns c;
     retryAttempts := retryAttempts c;
     streamOutput := streamOutput c;
     model := model c;
     sessions := sessions c |}.

Definition set_model {P} (v : string) (c : ConfigOf P) : ConfigOf P :=
  {| version := version c;
     defaultSystemPrompt := defaultSystemPrompt c;
     customSystemPrompts := customSystemPrompts c;
     currentSystemPrompt := currentSystemPrompt c;
     allowedTools := allowedTools c;
     defaultSession := defaultSession c;
     autoCompaction := autoCompaction c;
     maxHistoryTurns := maxHistoryTurns c;
     retryAttempts := retryAttempts c;
     streamOutput := streamOutput c;
     model := Some v;
     sessions := sessions c |}.

Definition set_customSystemPrompts {P} (v : P) (c : ConfigOf P) : ConfigOf P :=
  {| version := version c;
     defaultSystemPrompt := defaultSystemPrompt c;
     customSystemPrompts := Some v;
     currentSystemPrompt := currentSystemPrompt c;
     allowedTools := allowedTools c;
     defaultSession := defaultSession c;
     autoCompaction := autoCompaction c;
     maxHistoryTurns := maxHistoryTurns c;
     retryAttempts := retryAttempts c;
     streamOutput := streamOutput c;
     model := model c;
     sessions := sessions c |}.

(** [DEFAULT_CONFIG.customSystemPrompts] when the module is loaded. *)
Definition initialPrompts : gmap string string :=
  list_to_map
    [("default",
      "You are a helpful assistant. Keep responses concise - maximum 2-3 sentences unless more detail is specifically requested.");
     ("powershell",
      "You are a PowerShell and Windows command-line expert. Provide concise, accurate answers about PowerShell cmdlets, scripts, and best practices. Keep responses brief - maximum 2-3 sentences with essential syntax/examples only.");
     ("git",
      "You are a Git version control expert. Provide clear, concise explanations and examples for Git commands and workflows. Keep responses brief - show essential syntax and common options only, maximum 2-3 sentences.");
     ("nodejs",
      "You are a Node.js and JavaScript expert. Help with Node.js development, npm, and JavaScript best practices. Keep responses concise - maximum 2-3 sentences with essential examples only.");
     ("custom", EmptyString)].

(** [{ ...DEFAULT_CONFIG }]: the copy is shallow, its table of presets is
    the table of [DEFAULT_CONFIG]. *)
Definition DEFAULT_CONFIG : UserConfig :=
  {| version := Some "1.0.0";
     defaultSystemPrompt :=
       Some "You are a helpful assistant for developers working in PowerShell and command-line environments. Keep responses concise - maximum 2-3 sentences unless more detail is specifically requested.";
     customSystemPrompts := Some DefaultPrompts;
     currentSystemPrompt := Some "default";
     allowedTools := Some ["Read"; "Grep"; "WebSearch"];
     defaultSession := Some "global";
     autoCompaction := Some true;
     maxHistoryTurns := Some (50 # 1)%Q;
     retryAttempts := Some (1 # 1)%Q;
     streamOutput := Some true;
     model := None;
     sessions := Some {| autoCleanup := Some true;
                         shellSessionExpiry := Some "7d";
                         namedSessionExpiry := Some "30d" |} |}.

(** *** The world of the configuration *)

Record World := {
  (* the directories that exist *)
  directories : gset Directory;
  (* the configuration file, if there is one *)
  configFile : option FileData;
  (* whether the file system refuses [mkdir] and [writeFile] *)
  readOnly : bool;
  (* [DEFAULT_CONFIG.customSystemPrompts] *)
  defaultPrompts : gmap string string;
  (* [this.config] of the [ConfigManager] singleton *)
  config : option UserConfig;
  (* lines written with [console.error], newest first *)
  stderr : list string
}.

Definition withDirectories (dirs : gset Directory) (w : World) : World :=
  {| directories := dirs; configFile := configFile w; readOnly := readOnly w;
     defaultPrompts := defaultPrompts w; config := config w; stderr := stderr w |}.

Definition withConfigFile (data : option FileData) (w : World) : World :=
  {| directories := directories w; configFile := data; readOnly := readOnly w;
     defaultPrompts := defaultPrompts w; config := config w; stderr := stderr w |}.

Definition withDefaultPrompts (table : gmap string string) (w : World) : World :=
  {| directories := directories w; configFile := configFile w; readOnly := readOnly w;
     defaultPrompts := table; config := config w; stderr := stderr w |}.

Definition withConfig (c : option UserConfig) (w : World) : World :=
  {| directories := directories w; configFile := configFile w; readOnly := readOnly w;
     defaultPrompts := defaultPrompts w; config := c; stderr := stderr w |}.

Definition withStderr (lines : list string) (w : World) : World :=
  {| directories := directories w; configFile := configFile w; readOnly := readOnly w;
     defaultPrompts := defaultPrompts w; config := config w; stderr := lines |}.

Definition Async (A : Type) : Type := World -> Outcome A * World.

#[export] Instance Async_ret : MRet Async := fun A a w => (Returned a, w).

#[export] Instance Async_bind : MBind Async := fun A B f m w =>
  match m w with
  | (Returned a, w') => f a w'
  | (Thrown e, w') => (Thrown e, w')
  end.

Definition throw {A} (e : JsError) : Async A := fun w => (Thrown e, w).

(** [try { body } catch (e) { handler }] *)
Definition tryCatch {A} (body : Async A) (handler : JsError -> Async A) : Async A :=
  fun w =>
    match body w with
    | (Returned a, w') => (Returned a, w')
    | (Thrown e, w') => handler e w'
    end.

(** [for (const x of xs) { body (x) }] *)
Fixpoint forOf {A} (xs : list A) (body : A -> Async unit) : Async unit :=
  match xs with
  | [] => mret tt
  | x :: rest => _ ← body x; forOf rest body
  end.

(** *** [fs/promises] and [console] *)

Definition fs_access (dir : Directory) : Async unit := fun w =>
  if decide (dir ∈ directories w) then (Returned tt, w)
  else (Thrown (ENOENT (pathOf dir)), w).

(** [fs.mkdir (dir, { recursive: true })]: the directories above [dir]
    are made with it. *)
Definition fs_mkdir (dir : Directory) : Async unit := fun w =>
  if readOnly w then (Thrown (EACCES (pathOf dir)), w)
  else (Returned tt, withDirectories ({[dir; baseDir]} ∪ directories w) w).

Definition fs_readFile : Async FileData := fun w =>
  match configFile w with
  | Some data => (Returned data, w)
  | None => (Thrown (ENOENT configFilePath), w)
  end.

Definition fs_writeFile (data : FileData) : Async unit := fun w =>
  if readOnly w then (Thrown (EACCES configFilePath), w)
  else if decide (baseDir ∈ directories w) then (Returned tt, withConfigFile (Some data) w)
  else (Thrown (ENOENT configFilePath), w).

Definition console_error (line : string) : Async unit := fun w =>
  (Returned tt, withStderr (line :: stderr w) w).

(** *** JSON and objects *)

Definition tableOf (w : World) (r : PromptsRef) : gmap string string :=
  match r with
  | DefaultPrompts => defaultPrompts w
  | OwnPrompts table => table
  end.

(** [JSON.stringify (config, null, 2)] writes the table the object
    refers to. *)
Definition JSON_stringify (config0 : UserConfig) : Async FileData := fun w =>
  (Returned (Encoded (mapPrompts (tableOf w) config0)), w).


(** [JSON.parse (data)] builds new objects. *)
Definition JSON_parse (data : FileData) : Async UserConfig :=
  match data with
  | Garbage => throw SyntaxError
  | Encoded object => mret (mapPrompts OwnPrompts object)
  end.

(** The names every object inherits from [Object.prototype]. *)
Definition prototypeKeys : list string :=
  ["constructor"; "__defineGetter__"; "__defineSetter__"; "hasOwnProperty";
   "__lookupGetter__"; "__lookupSetter__"; "isPrototypeOf"; "propertyIsEnumerable";
   "toString"; "valueOf"; "__proto__"; "toLocaleString"].

(** What [table[key]] evaluates to: a text of the table, a member of
    [Object.prototype] (a function or an object, hence truthy), or
    [undefined]. *)
Inductive PromptValue := Text (s : string) | Inherited (key : string) | Undefined.

Definition getProperty (table : gmap string string) (key : string) : PromptValue :=
  match table !! key with
  | Some s => Text s
  | None => if decide (key ∈ prototypeKeys) then Inherited key else Undefined
  end.

(** A property name from a value that may be [undefined]. *)
Definition keyOf (name : option string) : string :=
  match name with
  | Some s => s
  | None => "undefined"
  end.

Definition valueOf (text : option string) : PromptValue :=
  match text with
  | Some s => Text s
  | None => Undefined
  end.

(** [v || text] *)
Definition or_text (v : PromptValue) (text : option string) : PromptValue :=
  match v with
  | Text s => if truthy s then Text s else valueOf text
  | Inherited key => Inherited key
  | Undefined => valueOf text
  end.

(** The table a reference leads to. *)
Definition deref (r : PromptsRef) : Async (gmap string string) := fun w =>
  (Returned (tableOf w r), w).

(** [DEFAULT_CONFIG.customSystemPrompts[key] = text] *)
Definition assignDefault (key text : string) : Async unit := fun w =>
  (Returned tt, withDefaultPrompts (<[key := text]> (defaultPrompts w)) w).

Definition getConfig : Async (option UserConfig) := fun w => (Returned (config w), w).

Definition setConfig (c : UserConfig) : Async unit := fun w =>
  (Returned tt, withConfig (Some c) w).

(** *** The methods *)

Definition ensureDirectories : Async unit :=
  forOf [baseDir; sessionsDir; transcriptsDir]
    (fun dir => tryCatch (fs_access dir) (fun _ => fs_mkdir dir)).

Definition saveConfig (config0 : UserConfig) : Async unit :=
  _ ← ensureDirectories;
  data ← JSON_stringify config0;
  _ ← fs_writeFile data;
  setConfig config0.

Definition loadConfig : Async UserConfig :=
  cached ← getConfig;
  match cached with
  | Some config0 => mret config0
  | None =>
      _ ← ensureDirectories;
      tryCatch
        (data ← fs_readFile;
         parsed ← JSON_parse data;
         _ ← setConfig parsed;
         _ ← setConfig (spread DEFAULT_CONFIG parsed);
         mret (spread DEFAULT_CONFIG parsed))
        (fun _ =>
           _ ← setConfig DEFAULT_CONFIG;
           _ ← saveConfig DEFAULT_CONFIG;
           mret DEFAULT_CONFIG)
  end.

Definition resetConfig : Async unit :=
  _ ← setConfig DEFAULT_CONFIG;
  saveConfig DEFAULT_CONFIG.

Definition getCurrentSystemPrompt : Async PromptValue :=
  config0 ← loadConfig;
  let presetName := currentSystemPrompt config0 in
  match customSystemPrompts config0 with
  | Some r =>
      table ← deref r;
      mret (or_text (getProperty table (keyOf presetName)) (defaultSystemPrompt config0))
  | None => throw (Error "Cannot read properties of undefined")
  end.

(** The setters assign to the object [loadConfig] returned, which is the
    object [this.config] holds: the assignment shows in [this.config]
    before [saveConfig] runs. *)
Definition setCurrentPromptPreset (preset : string) : Async unit :=
  config0 ← loadConfig;
  let config1 := set_currentSystemPrompt preset config0 in
  _ ← setConfig config1;
  saveConfig config1.

(** [config.customSystemPrompts.custom = prompt] writes in the table the
    object refers to. *)
Definition assignCustom (prompt0 : string) (config0 : UserConfig) : Async UserConfig :=
  match customSystemPrompts config0 with
  | Some DefaultPrompts =>
      _ ← assignDefault "custom" prompt0;
      mret config0
  | Some (OwnPrompts table) =>
      let config1 :=
        set_customSystemPrompts (OwnPrompts (<["custom" := prompt0]> table)) config0 in
      _ ← setConfig config1;
      mret config1
  | None => throw (Error "Cannot set properties of undefined")
  end.

Definition setCustomSystemPrompt (prompt0 : string) : Async unit :=
  config0 ← loadConfig;
  config1 ← assignCustom prompt0 config0;
  let config2 := set_currentSystemPrompt "custom" config1 in
  _ ← setConfig config2;
  saveConfig config2.

Definition setDefaultSystemPrompt (prompt0 : string) : Async unit :=
  config0 ← loadConfig;
  let config1 := set_defaultSystemPrompt prompt0 config0 in
  _ ← setConfig config1;
  saveConfig config1.

Definition getAllowedTools : Async (option (list string)) :=
  config0 ← loadConfig;
  mret (allowedTools config0).

Definition setAllowedTools (tools : list string) : Async unit :=
  config0 ← loadConfig;
  let config1 := set_allowedTools tools config0 in
  _ ← setConfig config1;
  saveConfig config1.

Definition getModel : Async (option string) :=
  config0 ← loadConfig;
  mret (model config0).

Definition setModel (model0 : string) : Async unit :=
  config0 ← loadConfig;
  let config1 := set_model model0 config0 in
  _ ← setConfig config1;
  saveConfig config1.

Definition getMaxHistoryTurns : Async (option Q) :=
  config0 ← loadConfig;
  mret (maxHistoryTurns config0).

Definition getRetryAttempts : Async (option Q) :=
  config0 ← loadConfig;
  mret (retryAttempts config0).

Definition isStreamingEnabled : Async (option bool) :=
  config0 ← loadConfig;
  mret (streamOutput config0).

Definition isAutoCompactionEnabled : Async (option bool) :=
  config0 ← loadConfig;
  mret (autoCompaction config0).

Definition getSessionSettings : Async (option SessionsObject) :=
  config0 ← loadConfig;
  mret (sessions config0).

(** The text of the report is not modelled, only what it reads. *)
Definition displayConfig : Async unit :=
  _ ← loadConfig; mret tt.

(** *** [handleConfigCommands] of the command line *)

Definition handleConfigCommands (options : Args.t) : Async CLIResult :=
  tryCatch
    (if Args.configShow options then
       _ ← displayConfig;
       mret {| success := true; exitCode := 0 |}
     else if Args.configReset options then
       _ ← resetConfig;
       mret {| success := true; exitCode := 0 |}
     else if is_set (Args.usePrompt options) then
       _ ← setCurrentPromptPreset (the (Args.usePrompt options));
       mret {| success := true; exitCode := 0 |}
     else if is_set (Args.setDefaultPrompt options) then
       _ ← setCustomSystemPrompt (the (Args.setDefaultPrompt options));
       mret {| success := true; exitCode := 0 |}
     else if is_set (Args.allowTools options) then
       _ ← setAllowedTools (trim <$> split "," (the (Args.allowTools options)));
       mret {| success := true; exitCode := 0 |}
     else mret {| success := true; exitCode := 0 |})
    (fun e =>
       _ ← console_error ("Error: " +:+ errorMessage e);
       mret {| success := false; exitCode := 1 |}).

End ConfigManager.

(** * Vocabulary of the statements

    The functions below are not in the source: they name what the source
    functions compute (the record a request designates, the entries a
    listing reads, the world a deletion leaves) and the conditions under
    which the properties are stated. *)

Definition parseFile (o : option FileData) : option SessionMetadata :=
  match o with
  | Some (Encoded s) => Some s
  | _ => None
  end.

(** What a sweep, a deletion or a listing may change is the directory, the
    log of file system calls, the number of clock reads and the active
    pointer; everything else is framed. *)
Record diskFrame (w w' : World) : Prop := {
  frame_readonly : readonly w' = readonly w;
  frame_clock : clock w' = clock w;
  frame_uuids : uuids w' = uuids w;
  frame_uuidsDrawn : uuidsDrawn w' = uuidsDrawn w;
  frame_sessions : sessions w' = sessions w;
  frame_envShellPID : envShellPID w' = envShellPID w;
  frame_engine : engine w' = engine w;
  frame_queries : queries w' = queries w;
  frame_configExit : configExit w' = configExit w;
  frame_stderr : stderr w' = stderr w;
  frame_lastFailedQuestion : lastFailedQuestion w' = lastFailedQuestion w
}.

(** The world a successful unlink of [getSessionPath n] leaves. *)
Definition afterDelete (n : string) (w : World) : World :=
  (clearActiveIfNamed n
     (withDisk (delete (getSessionPath n) (files w))
               (Unlink (getSessionPath n) :: fsCalls w) w)).2.

Definition deletable (p : string) (w : World) : bool :=
  bool_decide (is_Some (files w !! p) ∧ p ∉ readonly w).

(** One turn of the loops of [cleanupExpiredSessions],
    [deleteSessionsByType] and [--clear-all]: delete the session if [P]
    selects it, and count the deletion if it succeeded. *)
Definition deleteStep (P : SessionMetadata -> bool) (c : Z) (s : SessionMetadata)
    : Async Z :=
  fun w =>
    if P s then
      match deleteSession (name s) w with
      | (Returned b, w') => (Returned (if b then c + 1 else c), w')
      | (Thrown e, w') => (Thrown e, w')
      end
    else (Returned c, w).

Definition targets (P : SessionMetadata -> bool) (l : list SessionMetadata) : list string :=
  (fun s => getSessionPath (name s)) <$> filter (fun s => P s = true) l.

(** What the loop of [listAllSessions] pushes for one directory entry. *)
Definition listedAt (w : World) (file : string) : option SessionMetadata :=
  if endsWith file ".json"
  then parseFile (files w !! getSessionPath (replace ".json" EmptyString file))
  else None.

Definition listed (w : World) : list SessionMetadata :=
  omap (listedAt w) (map_to_list (files w)).*1.

Definition canonicalEntry (p : string) (d : FileData) : bool :=
  (if endsWith p ".json"
   then String.eqb (getSessionPath (replace ".json" EmptyString p)) p
   else true)
  && match d with
     | Encoded s => String.eqb p (getSessionPath (name s))
     | Garbage => true
     end.

(** Every listed file name leads back to itself, and every session sits in
    the file its name designates: the shape of a directory that
    [saveSession] filled with names that [listAllSessions] can read back. *)
Definition storeCanonical (w : World) : Prop :=
  map_Forall (fun p d => canonicalEntry p d = true) (files w).

(** The instant the next [new Date ()] returns. *)
Definition nextInstant (w : World) : Z := clock w (clockReads w).

Definition sweepBody (config : SessionSettings) (now : Z) (cleanedCount : Z)
    (session0 : SessionMetadata) : Async Z :=
  if shouldDelete config now session0 then
    deleted ← deleteSession (name session0);
    mret (if (deleted : bool) then cleanedCount + 1 else cleanedCount)
  else mret cleanedCount.

(** The sweep on a canonical directory, entry by entry. *)
Definition swept (w : World) (p : string) : option FileData :=
  match files w !! p with
  | Some (Encoded s) =>
      if shouldDelete (sessions w) (nextInstant w) s
         && negb (bool_decide (p ∈ readonly w))
      then None else Some (Encoded s)
  | other => other
  end.

(** The record [createSession] builds in world [w]. *)
Definition freshSession (n : string) (t : SessionType) (pid : option string)
    (w : World) : SessionMetadata :=
  {| id := uuids w (uuidsDrawn w); name := n; type := t; sdkSessionId := None;
     created := clock w (clockReads w); lastUsed := clock w (S (clockReads w));
     messageCount := 0; totalTokens := 0; totalCost := 0%Q;
     powerShellPID := parsePid pid;
     systemPrompt := None; allowedTools := None; active := true |}.

(** The world after one identifier and two instants were drawn and file
    [p] was written (or the write was refused). *)
Definition afterCreate (written : bool) (p : string) (d : FileData) (w : World) : World :=
  withDisk (if written then <[p := d]> (files w) else files w)
           (WriteFile p d :: fsCalls w)
           (withEnv (S (S (clockReads w))) (S (uuidsDrawn w)) (queries w) (stderr w) w).

(** Which record a request designates: its name, its kind, the process id
    to record, and whether a fresh record is forced. *)
Definition resolution (options : SessionSelectionOptions)
    : string * SessionType * option string * bool :=
  if is_set (sessionName options) then
    (the (sessionName options), named, None, forceNew options)
  else if isType shell (selType options) && is_set (shellPID options) then
    ("shell-" +:+ the (shellPID options), shell, Some (the (shellPID options)), false)
  else ("global", global, None, false).

Definition loadOrCreate (n : string) (t : SessionType) (pid : option string)
    (force : bool) : Async SessionMetadata :=
  fun w =>
    match (if force then None else parseFile (files w !! getSessionPath n)) with
    | Some s => (Returned s, w)
    | None => createSession n t pid w
    end.

Definition activate (r : Outcome SessionMetadata * World) : Outcome SessionMetadata * World :=
  match r with
  | (Returned s, w') => (Returned s, withManager (Some s) (lastFailedQuestion w') w')
  | (Thrown e, w') => (Thrown e, w')
  end.

(** [randomUUID] never repeats itself, and every identifier in the
    directory was drawn from it earlier. *)
Definition idsIssued (w : World) : Prop :=
  Inj (=) (=) (uuids w)
  /\ forall p s, files w !! p = Some (Encoded s) ->
                 exists i, (i < uuidsDrawn w)%nat /\ id s = uuids w i.

(** The loop of [executeQuery] as a function of its three variables. *)
Definition stepMessage (st : SessionMetadata * string * bool) (message : SDKMessage)
    : SessionMetadata * string * bool :=
  let '(session0, responseText, hadError) := st in
  match message with
  | SystemInit sid => (withSdkSessionId sid session0, responseText, hadError)
  | Assistant content => (session0, responseText +:+ blockText content, hadError)
  | Result num_turns usage is_error =>
      (applyResult num_turns usage session0, responseText, is_error)
  | OtherMessage => st
  end.

Definition afterEvents (evs : list SDKMessage) (s : SessionMetadata)
    : SessionMetadata * string * bool :=
  fold_left stepMessage evs (s, EmptyString, false).

(** [executeQuery] from the point where the session is resolved. *)
Definition afterResolution (question0 : string) (options : CLIOptions)
    (session0 : SessionMetadata) : Async CLIResult :=
  _ ← loadConfig;
  reply ← query {| prompt := question0;
                   resume := resumeOption (noHistory options) session0 |};
  st ← forOf (events reply) onMessage (session0, EmptyString, false);
  let '(session1, responseText, hadError) := st in
  _ ← match failure reply with
      | Some msg => throw (EngineError msg)
      | None => mret tt
      end;
  _ ← (if noHistory options then mret tt
       else
         now ← newDate;
         let session2 := withLastUsed now session1 in
         _ ← aliasWrite session2;
         saveSession session2);
  _ ← (if hadError then setLastFailedQuestion question0 else mret tt);
  mret {| success := negb hadError; exitCode := if hadError then 1 else 0 |}.

Definition onFailure (question0 : string) (e : JsError) : Async CLIResult :=
  _ ← console_error ("Error: " +:+ errorMessage e);
  _ ← setLastFailedQuestion question0;
  mret {| success := false; exitCode := 1 |}.

Definition callOf (question0 : string) (options : CLIOptions) (s : SessionMetadata)
    : QueryCall :=
  {| prompt := question0; resume := resumeOption (noHistory options) s |}.

(** The session as the loop leaves it, for the reply the engine gives in [w]. *)
Definition exchanged (question0 : string) (options : CLIOptions) (s : SessionMetadata)
    (w : World) : SessionMetadata * string * bool :=
  afterEvents (events (engine w (callOf question0 options s))) s.

Definition replyOf (question0 : string) (options : CLIOptions) (s : SessionMetadata)
    (w : World) : EngineReply :=
  engine w (callOf question0 options s).






Definition isDecimalDigit (c : ascii) : bool :=
  let n := Z.of_nat (nat_of_ascii c) in (48 <=? n) && (n <=? 57).

Definition isHexMarker (c : ascii) : bool := Ascii.eqb c "x" || Ascii.eqb c "X".

Definition startsWithDigit (s : string) : bool :=
  match s with
  | String c _ => isDecimalDigit c
  | EmptyString => false
  end.

Fixpoint allDecimal (s : string) : bool :=
  match s with
  | String c t => isDecimalDigit c && allDecimal t
  | EmptyString => true
  end.

Fixpoint decimalDigits (s : string) : list Z :=
  match s with
  | String c t => (Z.of_nat (nat_of_ascii c) - 48) :: decimalDigits t
  | EmptyString => []
  end.

(** What may follow the digits: nothing, or text whose first character is
    neither a digit nor the [x] of a hexadecimal prefix. *)
Definition unitSuffix (u : string) : bool :=
  match u with
  | String c _ => negb (isDecimalDigit c) && negb (isHexMarker c)
  | EmptyString => true
  end.


(** Every session sits in the file its name designates, as [saveSession]
    puts it. *)
Definition storeNamed (w : World) : Prop :=
  forall p s, files w !! p = Some (Encoded s) -> p = getSessionPath (name s).


(** The [is_error] flag of the last [result] message, [false] when there
    is none. *)
Definition lastResultError (evs : list SDKMessage) : bool :=
  fold_left (fun b m => match m with Result _ _ e => e | _ => b end) evs false.

(** The session id of the last [init] message, the former one when there
    is none. *)
Definition lastInit (evs : list SDKMessage) (former : option string) : option string :=
  fold_left (fun o m => match m with SystemInit sid => Some sid | _ => o end) evs former.

(** No two files hold sessions with the same identifier. *)
Definition idsDistinct (w : World) : Prop :=
  forall p1 p2 s1 s2,
    files w !! p1 = Some (Encoded s1) -> files w !! p2 = Some (Encoded s2) ->
    id s1 = id s2 -> p1 = p2.

(** The shape [saveSession] and [randomUUID] give a directory: every
    session in the file of its name, with an identifier of its own that
    was drawn from the generator. *)
Definition storeInvariant (w : World) : Prop :=
  storeNamed w /\ idsIssued w /\ idsDistinct w.

(** *** The configuration *)

Definition allDirectories : gset ConfigManager.Directory :=
  {[ConfigManager.baseDir; ConfigManager.sessionsDir; ConfigManager.transcriptsDir]}.

(** The three directories exist. *)
Definition ready (w : ConfigManager.World) : Prop :=
  allDirectories ⊆ ConfigManager.directories w.

(** There is no configuration file, or [JSON.parse] rejects it. *)
Definition unreadable (w : ConfigManager.World) : Prop :=
  ConfigManager.configFile w = None
  \/ ConfigManager.configFile w = Some ConfigManager.Garbage.

(** The same disk in a new process: the singleton has loaded nothing and
    [DEFAULT_CONFIG] is as the module defines it. *)
Definition restart (w : ConfigManager.World) : ConfigManager.World :=
  {| ConfigManager.directories := ConfigManager.directories w;
     ConfigManager.configFile := ConfigManager.configFile w;
     ConfigManager.readOnly := ConfigManager.readOnly w;
     ConfigManager.defaultPrompts := ConfigManager.initialPrompts;
     ConfigManager.config := None;
     ConfigManager.stderr := [] |}.

(** The object with its table of presets written out, as a file holds it. *)
Definition written (w : ConfigManager.World) (c : ConfigManager.UserConfig)
    : ConfigManager.ConfigOf (gmap string string) :=
  ConfigManager.mapPrompts (ConfigManager.tableOf w) c.

(** The object [loadConfig] builds from the object of a file. *)
Definition merged (object : ConfigManager.ConfigOf (gmap string string))
    : ConfigManager.UserConfig :=
  ConfigManager.spread ConfigManager.DEFAULT_CONFIG
    (ConfigManager.mapPrompts ConfigManager.OwnPrompts object).

(** The object as a new process reads it back: with a table of its own. *)
Definition detached (w : ConfigManager.World) (c : ConfigManager.UserConfig)
    : ConfigManager.UserConfig :=
  ConfigManager.mapPrompts ConfigManager.OwnPrompts (written w c).

(** Every field that [DEFAULT_CONFIG] defines is defined. *)
Definition complete {P} (c : ConfigManager.ConfigOf P) : Prop :=
  is_Some (ConfigManager.version c)
  /\ is_Some (ConfigManager.defaultSystemPrompt c)
  /\ is_Some (ConfigManager.customSystemPrompts c)
  /\ is_Some (ConfigManager.currentSystemPrompt c)
  /\ is_Some (ConfigManager.allowedTools c)
  /\ is_Some (ConfigManager.defaultSession c)
  /\ is_Some (ConfigManager.autoCompaction c)
  /\ is_Some (ConfigManager.maxHistoryTurns c)
  /\ is_Some (ConfigManager.retryAttempts c)
  /\ is_Some (ConfigManager.streamOutput c)
  /\ is_Some (ConfigManager.sessions c).

(** [config.sessions] as [cleanupExpiredSessions] reads it: an absent
    [autoCleanup] is falsy, and [parseInt] turns an absent expiry into the
    text [undefined]. *)
Definition settingsOf (s : ConfigManager.SessionsObject) : SessionSettings :=
  {| autoCleanup := match ConfigManager.autoCleanup s with
                    | Some b => b
                    | None => false
                    end;
     shellSessionExpiry := ConfigManager.keyOf (ConfigManager.shellSessionExpiry s);
     namedSessionExpiry := ConfigManager.keyOf (ConfigManager.namedSessionExpiry s) |}.

(** With these settings the sweep of a canonical directory leaves every
    session of type [t] in place. *)
Definition sweepSpares (settings : SessionSettings) (t : SessionType) : Prop :=
  forall w, sessions w = settings -> storeCanonical w ->
    exists n w',
      cleanupExpiredSessions w = (Returned n, w')
      /\ forall p s, files w !! p = Some (Encoded s) -> type s = t ->
                     files w' !! p = Some (Encoded s).

(** The body the setters share: assign to the loaded object, then save it. *)
Definition assignAndSave (f : ConfigManager.UserConfig -> ConfigManager.UserConfig)
    : ConfigManager.Async unit :=
  fun w =>
    match ConfigManager.loadConfig w with
    | (Returned config0, w0) =>
        ConfigManager.saveConfig (f config0)
          (ConfigManager.withConfig (Some (f config0)) w0)
    | (Thrown e, w0) => (Thrown e, w0)
    end.

(** The configuration file gives a table of presets of its own. *)
Definition ownTable (w : ConfigManager.World) : bool :=
  match ConfigManager.configFile w with
  | Some (ConfigManager.Encoded object) =>
      bool_decide (is_Some (ConfigManager.customSystemPrompts object))
  | _ => false
  end.

(** One of the options that make [main] call [handleConfigCommands]. *)
Definition configRequested (o : Args.t) : bool :=
  Args.configShow o || Args.configReset o || is_set (Args.usePrompt o)
  || is_set (Args.setDefaultPrompt o) || is_set (Args.allowTools o).

(** ** Sample worlds and requests *)

(** A world with an empty sessions directory, in a process that just
    started. *)
Definition emptyWorld : World :=
  {| files := ∅; readonly := ∅; fsCalls := [];
     clock := fun n => 1000 * Z.of_nat n; clockReads := 0;
     uuids := fun n => pretty n; uuidsDrawn := 0;
     sessions := DEFAULT_SESSIONS; envShellPID := Some "4242";
     engine := fun _ => {| events := []; failure := None |};
     queries := []; configExit := 0; stderr := [];
     activeSession := None; lastFailedQuestion := None |}.

Definition retryOptions : CLIOptions :=
  {| question := None; session := None; newSession := None; noHistory := false;
     listSessions := false; sessionInfo := false; clear := false;
     clearAll := false; export := None; retry := true; help := false;
     version := false; configCommand := false |}.

Definition sampleSession (n : string) (t : SessionType) (used : Z) : SessionMetadata :=
  {| id := "id-" +:+ n; name := n; type := t; sdkSessionId := None;
     created := 0; lastUsed := used;
     messageCount := 0; totalTokens := 0; totalCost := 0%Q;
     powerShellPID := PidUndefined;
     systemPrompt := None; allowedTools := None; active := true |}.

(** [emptyWorld] with the given directory and write protection. *)
Definition worldWith (fs : gmap string FileData) (ro : gset string) : World :=
  {| files := fs; readonly := ro; fsCalls := [];
     clock := clock emptyWorld; clockReads := 0;
     uuids := uuids emptyWorld; uuidsDrawn := 0;
     sessions := DEFAULT_SESSIONS; envShellPID := Some "4242";
     engine := engine emptyWorld;
     queries := []; configExit := 0; stderr := [];
     activeSession := None; lastFailedQuestion := None |}.

(** A session [topic] whose file cannot be removed. *)
Definition protectedWorld : World :=
  worldWith {[ "topic.json" := Encoded (sampleSession "topic" named 0) ]}
            {[ "topic.json" ]}.

(** A directory that already holds a session named [topic]. *)
Definition topicWorld : World :=
  {| files := {[ "topic.json" := Encoded (freshSession "topic" named None emptyWorld) ]};
     readonly := ∅; fsCalls := [];
     clock := clock emptyWorld; clockReads := 2;
     uuids := uuids emptyWorld; uuidsDrawn := 1;
     sessions := DEFAULT_SESSIONS; envShellPID := Some "4242";
     engine := engine emptyWorld;
     queries := []; configExit := 0; stderr := [];
     activeSession := None; lastFailedQuestion := None |}.

Definition dottedOptions : SessionSelectionOptions :=
  {| sessionName := Some "a.jsonb"; shellPID := None; selType := auto;
     forceNew := false |}.

(** The world after [--session a.jsonb] was used once on an empty directory. *)
Definition dottedWorld : World := (getActiveSession dottedOptions emptyWorld).2.

(** [emptyWorld] with an engine that always gives the same reply. *)
Definition worldAnswering (reply : EngineReply) : World :=
  {| files := ∅; readonly := ∅; fsCalls := [];
     clock := clock emptyWorld; clockReads := 0;
     uuids := uuids emptyWorld; uuidsDrawn := 0;
     sessions := DEFAULT_SESSIONS; envShellPID := Some "4242";
     engine := fun _ => reply;
     queries := []; configExit := 0; stderr := [];
     activeSession := None; lastFailedQuestion := None |}.

Definition someUsage : option Usage :=
  Some {| input_tokens := Some 30; output_tokens := Some 20 |}.

Definition talkWorld : World :=
  worldAnswering {| events := [SystemInit "sdk-1"; Assistant [TextBlock "hello"];
                               Result 1 someUsage false];
                    failure := None |}.


Definition askOptions (ephemeral : bool) : CLIOptions :=
  {| question := Some "hi"; session := None; newSession := None;
     noHistory := ephemeral;
     listSessions := false; sessionInfo := false; clear := false;
     clearAll := false; export := None; retry := false; help := false;
     version := false; configCommand := false |}.

(** A world whose clock shows [now] and then advances by a millisecond per
    read. *)
Definition worldAt (now : Z) (config : SessionSettings) (fs : gmap string FileData)
    : World :=
  {| files := fs; readonly := ∅; fsCalls := [];
     clock := fun n => now + Z.of_nat n; clockReads := 0;
     uuids := uuids emptyWorld; uuidsDrawn := 0;
     sessions := config; envShellPID := Some "4242";
     engine := engine emptyWorld;
     queries := []; configExit := 0; stderr := [];
     activeSession := None; lastFailedQuestion := None |}.




Definition expiryConfig (shellExpiry namedExpiry : string) : SessionSettings :=
  {| autoCleanup := true; shellSessionExpiry := shellExpiry;
     namedSessionExpiry := namedExpiry |}.

(** A shell session used at this very instant, under a shell expiry of ["-1d"]. *)
Definition signedExpiryWorld : World :=
  worldAt 1000 (expiryConfig "-1d" "30d")
          {[ "shell-77.json" := Encoded (sampleSession "shell-77" shell 1000) ]}.

(** A shell session idle for a year, under a shell expiry that is not a number. *)
Definition noExpiryWorld : World :=
  worldAt (365 * MS_PER_DAY) (expiryConfig "never" "30d")
          {[ "shell-77.json" := Encoded (sampleSession "shell-77" shell 0) ]}.






Definition namedOptions (n : string) : SessionSelectionOptions :=
  {| sessionName := Some n; shellPID := None; selType := auto; forceNew := false |}.


Definition exportOptions (target : option string) (output : string) : CLIOptions :=
  {| question := None; session := target; newSession := None; noHistory := false;
     listSessions := false; sessionInfo := false; clear := false;
     clearAll := false; export := Some output; retry := false; help := false;
     version := false; configCommand := false |}.

Definition crashWorld : World :=
  worldAnswering {| events := [SystemInit "sdk-1"; Result 1 someUsage false];
                    failure := Some "socket hang up" |}.

Definition sessionOptions (n : string) : CLIOptions :=
  {| question := Some "hi"; session := Some n; newSession := None;
     noHistory := false;
     listSessions := false; sessionInfo := false; clear := false;
     clearAll := false; export := None; retry := false; help := false;
     version := false; configCommand := false |}.

(** The engine answers every query with a new session id [sdk-1]. *)
Definition topicTalkWorld : World :=
  {| files := {[ "topic.json" := Encoded (sampleSession "topic" named 0) ]};
     readonly := ∅; fsCalls := [];
     clock := clock emptyWorld; clockReads := 0;
     uuids := uuids emptyWorld; uuidsDrawn := 0;
     sessions := DEFAULT_SESSIONS; envShellPID := Some "4242";
     engine := engine talkWorld;
     queries := []; configExit := 0; stderr := [];
     activeSession := None; lastFailedQuestion := None |}.

(** [talkWorld] with a directory in which [global.json] cannot be written. *)
Definition lockedTalkWorld : World :=
  {| files := ∅; readonly := {[ "global.json" ]}; fsCalls := [];
     clock := clock emptyWorld; clockReads := 0;
     uuids := uuids emptyWorld; uuidsDrawn := 0;
     sessions := DEFAULT_SESSIONS; envShellPID := Some "4242";
     engine := engine talkWorld;
     queries := []; configExit := 0; stderr := [];
     activeSession := None; lastFailedQuestion := None |}.


(** A first run: no directory, no file. *)
Definition firstRun : ConfigManager.World :=
  {| ConfigManager.directories := ∅;
     ConfigManager.configFile := None;
     ConfigManager.readOnly := false;
     ConfigManager.defaultPrompts := ConfigManager.initialPrompts;
     ConfigManager.config := None;
     ConfigManager.stderr := [] |}.

(** The directories exist but nothing can be written. *)
Definition lockedRun : ConfigManager.World :=
  {| ConfigManager.directories := allDirectories;
     ConfigManager.configFile := Some ConfigManager.Garbage;
     ConfigManager.readOnly := true;
     ConfigManager.defaultPrompts := ConfigManager.initialPrompts;
     ConfigManager.config := None;
     ConfigManager.stderr := [] |}.

(** A file that only says that expired sessions are to be swept. *)
Definition sweepOnly : ConfigManager.ConfigOf (gmap string string) :=
  {| ConfigManager.version := None;
     ConfigManager.defaultSystemPrompt := None;
     ConfigManager.customSystemPrompts := None;
     ConfigManager.currentSystemPrompt := None;
     ConfigManager.allowedTools := None;
     ConfigManager.defaultSession := None;
     ConfigManager.autoCompaction := None;
     ConfigManager.maxHistoryTurns := None;
     ConfigManager.retryAttempts := None;
     ConfigManager.streamOutput := None;
     ConfigManager.model := None;
     ConfigManager.sessions :=
       Some {| ConfigManager.autoCleanup := Some true;
               ConfigManager.shellSessionExpiry := None;
               ConfigManager.namedSessionExpiry := None |} |}.

(** The [sessions] object of a file. *)
Definition sessionsIn (c : ConfigManager.ConfigOf (gmap string string))
    : ConfigManager.SessionsObject :=
  match ConfigManager.sessions c with
  | Some s => s
  | None => {| ConfigManager.autoCleanup := None;
               ConfigManager.shellSessionExpiry := None;
               ConfigManager.namedSessionExpiry := None |}
  end.

Definition edited (c : ConfigManager.ConfigOf (gmap string string)) : ConfigManager.World :=
  {| ConfigManager.directories := allDirectories;
     ConfigManager.configFile := Some (ConfigManager.Encoded c);
     ConfigManager.readOnly := false;
     ConfigManager.defaultPrompts := ConfigManager.initialPrompts;
     ConfigManager.config := None;
     ConfigManager.stderr := [] |}.

(** * Properties *)

(** ** Running the primitives *)

Ltac run := unfold mbind, mret, Async_bind, Async_ret, tryCatch, throw in *.

Lemma bind_eq_Async {A B} (m : Async A) (f : A -> Async B) w :
  (m ≫= f) w = match m w with
               | (Returned a, w') => f a w'
               | (Thrown e, w') => (Thrown e, w')
               end.
Proof. reflexivity. Qed.

Lemma diskFrame_refl w : diskFrame w w.
Proof. by constructor. Qed.

Lemma diskFrame_trans w1 w2 w3 : diskFrame w1 w2 -> diskFrame w2 w3 -> diskFrame w1 w3.
Proof. intros [] []; constructor; congruence. Qed.

Lemma loadSessionFromDisk_eq n w :
  loadSessionFromDisk n w = (Returned (parseFile (files w !! getSessionPath n)), w).
Proof.
  unfold loadSessionFromDisk, fs_readFile; run.
  destruct (files w !! getSessionPath n) as [[|s]|]; reflexivity.
Qed.

Lemma deleteSession_eq n w :
  deleteSession n w =
    if deletable (getSessionPath n) w then (Returned true, afterDelete n w)
    else (Returned false,
          withDisk (files w) (Unlink (getSessionPath n) :: fsCalls w) w).
Proof.
  unfold deleteSession, deletable, afterDelete, fs_unlink; run.
  destruct (files w !! getSessionPath n) as [d|] eqn:Hf.
  - destruct (decide (getSessionPath n ∈ readonly w)) as [Hr|Hr].
    + rewrite bool_decide_eq_false_2; [reflexivity | tauto].
    + rewrite bool_decide_eq_true_2; [|eauto].
      unfold clearActiveIfNamed. simpl.
      destruct (activeSession w) as [a|]; [|reflexivity].
      destruct (String.eqb (name a) n); reflexivity.
  - rewrite bool_decide_eq_false_2; [reflexivity|].
    intros [[? ?] _]; discriminate.
Qed.

Lemma afterDelete_files n w :
  files (afterDelete n w) = delete (getSessionPath n) (files w).
Proof.
  unfold afterDelete, clearActiveIfNamed. simpl.
  destruct (activeSession w) as [a|]; [|reflexivity].
  destruct (String.eqb (name a) n); reflexivity.
Qed.

Lemma afterDelete_active n w :
  activeSession (afterDelete n w) =
    match activeSession w with
    | Some a => if String.eqb (name a) n then None else Some a
    | None => None
    end.
Proof.
  unfold afterDelete, clearActiveIfNamed. simpl.
  destruct (activeSession w) as [a|] eqn:Ha; simpl; [|by rewrite Ha].
  destruct (String.eqb (name a) n); simpl; [reflexivity | by rewrite Ha].
Qed.

Lemma afterDelete_frame n w : diskFrame w (afterDelete n w).
Proof.
  unfold afterDelete, clearActiveIfNamed. simpl.
  destruct (activeSession w) as [a|]; [|by constructor].
  destruct (String.eqb (name a) n); by constructor.
Qed.

Lemma deleteSession_frame n w : diskFrame w (deleteSession n w).2.
Proof.
  rewrite deleteSession_eq. destruct (deletable _ w); simpl.
  - apply afterDelete_frame.
  - by constructor.
Qed.

(** ** Loops that delete *)

Lemma deleteLoop_spec P body l :
  (forall c s w, body c s w = deleteStep P c s w) ->
  forall c w, exists c' w',
    forOf l body c w = (Returned c', w')
    /\ diskFrame w w'
    /\ (forall p, files w' !! p =
                  if bool_decide (p ∈ targets P l ∧ p ∉ readonly w) then None
                  else files w !! p)
    /\ c' - c = Z.of_nat (size (files w)) - Z.of_nat (size (files w'))
    /\ (activeSession w' = activeSession w \/ activeSession w' = None).
Proof.
  intros Hbody. induction l as [|s l IH]; intros c w.
  - exists c, w. split; [reflexivity|]. split; [apply diskFrame_refl|].
    split; [|split; [lia | by left]].
    intros p. rewrite bool_decide_eq_false_2; [done|].
    unfold targets. rewrite filter_nil, fmap_nil. intros [H _]. by apply not_elem_of_nil in H.
  - simpl. rewrite bind_eq_Async, Hbody. unfold deleteStep.
    destruct (P s) eqn:HP.
    + rewrite deleteSession_eq.
      destruct (deletable (getSessionPath (name s)) w) eqn:Hd.
      * destruct (IH (c + 1) (afterDelete (name s) w)) as (c' & w' & Hrun & Hfr & Hfiles & Hcnt & Hact).
        exists c', w'. split; [exact Hrun|].
        apply bool_decide_eq_true_1 in Hd as [[d Hd] Hro].
        pose proof (afterDelete_frame (name s) w) as Hfr0.
        split; [eapply diskFrame_trans; eauto|].
        split; [|split].
        -- intros p. rewrite Hfiles, afterDelete_files, (frame_readonly _ _ Hfr0).
           unfold targets. rewrite filter_cons_True by done. rewrite fmap_cons.
           destruct (decide (p = getSessionPath (name s))) as [->|Hne].
           ++ rewrite lookup_delete_eq.
              rewrite (bool_decide_eq_true_2 (_ ∈ _ :: _ ∧ _)); [|split; [left|done]].
              by case_bool_decide.
           ++ rewrite lookup_delete_ne by done.
              erewrite bool_decide_ext; [reflexivity|]. rewrite elem_of_cons. tauto.
        -- rewrite afterDelete_files in Hcnt.
           rewrite map_size_delete_Some in Hcnt by eauto.
           assert (size (files w) ≠ 0%nat).
           { intros H0. apply map_size_empty_iff in H0. rewrite H0 in Hd.
             by rewrite lookup_empty in Hd. }
           lia.
        -- rewrite afterDelete_active in Hact.
           destruct (activeSession w) as [a|]; [|tauto].
           destruct (String.eqb (name a) (name s)); tauto.
      * set (w1 := withDisk (files w) (Unlink (getSessionPath (name s)) :: fsCalls w) w).
        destruct (IH c w1) as (c' & w' & Hrun & Hfr & Hfiles & Hcnt & Hact).
        exists c', w'. split; [exact Hrun|].
        split; [eapply diskFrame_trans; [|exact Hfr]; by constructor|].
        split; [|split; [exact Hcnt | exact Hact]].
        intros p. rewrite Hfiles. simpl.
        unfold targets. rewrite filter_cons_True by done. rewrite fmap_cons.
        apply bool_decide_eq_false_1 in Hd.
        destruct (decide (p = getSessionPath (name s))) as [->|Hne].
        -- repeat case_bool_decide; try done.
           ++ destruct (files w !! getSessionPath (name s)) eqn:E; [|done].
              exfalso. apply Hd. split; [eauto|tauto].
           ++ destruct (files w !! getSessionPath (name s)) eqn:E; [|done].
              exfalso. apply Hd. split; [eauto|tauto].
        -- erewrite bool_decide_ext; [reflexivity|]. rewrite elem_of_cons. tauto.
    + destruct (IH c w) as (c' & w' & Hrun & Hfr & Hfiles & Hcnt & Hact).
      exists c', w'. split; [exact Hrun|]. split; [exact Hfr|].
      split; [|split; [exact Hcnt | exact Hact]].
      intros p. rewrite Hfiles. unfold targets.
      rewrite filter_cons_False; [done|]. by rewrite HP.
Qed.

(** ** Strings *)

Lemma app_String c (a b : string) : String c a +:+ b = String c (a +:+ b).
Proof. reflexivity. Qed.

Lemma app_Empty (b : string) : EmptyString +:+ b = b.
Proof. reflexivity. Qed.

Lemma length_app_string (a b : string) :
  String.length (a +:+ b) = (String.length a + String.length b)%nat.
Proof.
  induction a as [|c a IH]; [reflexivity|].
  rewrite app_String. simpl. by rewrite IH.
Qed.

Lemma app_string_cancel_r (a b c : string) : a +:+ c = b +:+ c -> a = b.
Proof.
  revert b. induction a as [|x a IH]; intros [|y b] H.
  - reflexivity.
  - apply (f_equal String.length) in H.
    rewrite !length_app_string in H. simpl in H. lia.
  - apply (f_equal String.length) in H.
    rewrite !length_app_string in H. simpl in H. lia.
  - rewrite !app_String in H. injection H as -> H. f_equal. by apply IH.
Qed.

Global Instance getSessionPath_inj : Inj (=) (=) getSessionPath.
Proof. intros a b H. by apply app_string_cancel_r in H. Qed.

Lemma endsWith_eq (s suf : string) :
  endsWith s suf =
    if String.eqb s suf then true
    else match s with
         | EmptyString => false
         | String _ t => endsWith t suf
         end.
Proof. destruct s; reflexivity. Qed.

Lemma endsWith_app (a b : string) : endsWith (a +:+ b) b = true.
Proof.
  induction a as [|c a IH]; rewrite endsWith_eq.
  - by rewrite app_Empty, String.eqb_refl.
  - rewrite app_String.
    destruct (String.eqb (String c (a +:+ b)) b); [reflexivity | exact IH].
Qed.

Lemma endsWith_getSessionPath n : endsWith (getSessionPath n) ".json" = true.
Proof. apply endsWith_app. Qed.

Lemma truthy_true s : truthy s = true <-> s <> EmptyString.
Proof.
  unfold truthy. rewrite negb_true_iff. apply String.eqb_neq.
Qed.

(** ** Listing *)

Lemma listAllSessions_eq w :
  listAllSessions w = (Returned (sortSessions (listed w)), w).
Proof.
  unfold listAllSessions, fs_readdir, listed. rewrite bind_eq_Async.
  unfold tryCatch at 1. rewrite bind_eq_Async.
  generalize ((map_to_list (files w)).*1). intros dir.
  assert (Hloop : forall acc,
    forOf dir
      (fun acc file =>
         if endsWith file ".json" then
           session ← loadSessionFromDisk (replace ".json" EmptyString file);
           match session with
           | Some s => mret (acc ++ [s])
           | None => mret acc
           end
         else mret acc) acc w
    = (Returned (acc ++ omap (listedAt w) dir), w)).
  { induction dir as [|file dir IH]; intros acc; simpl.
    - by rewrite app_nil_r.
    - rewrite bind_eq_Async. unfold listedAt at 1.
      destruct (endsWith file ".json").
      + rewrite bind_eq_Async, loadSessionFromDisk_eq.
        destruct (parseFile _) as [s|]; simpl.
        * unfold mret, Async_ret. rewrite IH. by rewrite <- app_assoc.
        * unfold mret at 1, Async_ret. by rewrite IH.
      + unfold mret at 1, Async_ret. by rewrite IH. }
  rewrite Hloop. reflexivity.
Qed.

Lemma canonical_listedAt w p d :
  files w !! p = Some d -> canonicalEntry p d = true ->
  listedAt w p = parseFile (Some d).
Proof.
  intros Hp Hc. unfold canonicalEntry in Hc. apply andb_true_iff in Hc as [H1 H2].
  unfold listedAt. destruct (endsWith p ".json") eqn:He.
  - apply String.eqb_eq in H1. by rewrite H1, Hp.
  - destruct d as [|s]; [reflexivity|]. apply String.eqb_eq in H2.
    rewrite H2, endsWith_getSessionPath in He. discriminate.
Qed.

Lemma listed_canonical w :
  storeCanonical w ->
  listed w = omap (fun pd => parseFile (Some pd.2)) (map_to_list (files w)).
Proof.
  intros Hc. unfold listed.
  assert (H : Forall (fun pd => files w !! pd.1 = Some pd.2) (map_to_list (files w))).
  { apply Forall_forall. intros [p d] Hin. by apply elem_of_map_to_list in Hin. }
  induction H as [|[p d] l Hpd _ IH]; [reflexivity|].
  rewrite fmap_cons. simpl in Hpd. simpl.
  rewrite (canonical_listedAt w p d Hpd); [|by apply (Hc p d)].
  destruct d as [|s]; simpl; [exact IH | f_equal; exact IH].
Qed.

Lemma elem_of_listed w s :
  storeCanonical w ->
  s ∈ listed w <-> files w !! getSessionPath (name s) = Some (Encoded s).
Proof.
  intros Hc. rewrite listed_canonical by done. rewrite list_elem_of_omap. split.
  - intros ([p d] & Hin & Hparse). apply elem_of_map_to_list in Hin.
    simpl in Hparse. destruct d as [|s']; [discriminate|].
    injection Hparse as ->. pose proof (Hc p _ Hin) as Hcan.
    apply andb_true_iff in Hcan as [_ H2]. apply String.eqb_eq in H2. by subst p.
  - intros Hs. exists (getSessionPath (name s), Encoded s). split; [|reflexivity].
    by apply elem_of_map_to_list.
Qed.

Lemma elem_of_sortSessions s l : s ∈ sortSessions l <-> s ∈ l.
Proof. unfold sortSessions. by rewrite merge_sort_Permutation. Qed.

(** ** The expiry sweep *)

Lemma deleteStep_sweep config now c s w :
  sweepBody config now c s w = deleteStep (shouldDelete config now) c s w.
Proof.
  unfold deleteStep, sweepBody. destruct (shouldDelete config now s); [|reflexivity].
  rewrite bind_eq_Async. destruct (deleteSession (name s) w) as [[b|e] w']; reflexivity.
Qed.

Lemma cleanupExpiredSessions_eq w :
  cleanupExpiredSessions w =
    if autoCleanup (sessions w) then
      forOf (sortSessions (listed w)) (sweepBody (sessions w) (nextInstant w)) 0
        (withEnv (S (clockReads w)) (uuidsDrawn w) (queries w) (stderr w) w)
    else (Returned 0, w).
Proof.
  unfold cleanupExpiredSessions, loadConfig. rewrite bind_eq_Async.
  destruct (autoCleanup (sessions w)); [|reflexivity].
  unfold negb. cbv iota.
  rewrite bind_eq_Async, listAllSessions_eq, bind_eq_Async.
  reflexivity.
Qed.

Lemma cleanupExpiredSessions_disabled w :
  autoCleanup (sessions w) = false -> cleanupExpiredSessions w = (Returned 0, w).
Proof. intros H. by rewrite cleanupExpiredSessions_eq, H. Qed.

Lemma cleanupExpiredSessions_enabled w :
  autoCleanup (sessions w) = true ->
  exists n w',
    cleanupExpiredSessions w = (Returned n, w')
    /\ diskFrame w w'
    /\ (forall p, files w' !! p =
          if bool_decide
               (p ∈ targets (shouldDelete (sessions w) (nextInstant w))
                            (sortSessions (listed w))
                ∧ p ∉ readonly w)
          then None else files w !! p)
    /\ n = Z.of_nat (size (files w)) - Z.of_nat (size (files w'))
    /\ (activeSession w' = activeSession w \/ activeSession w' = None).
Proof.
  intros H. rewrite cleanupExpiredSessions_eq, H.
  set (w1 := withEnv (S (clockReads w)) (uuidsDrawn w) (queries w) (stderr w) w).
  destruct (deleteLoop_spec (shouldDelete (sessions w) (nextInstant w))
              (sweepBody (sessions w) (nextInstant w))
              (sortSessions (listed w))
              (deleteStep_sweep (sessions w) (nextInstant w)) 0 w1)
    as (n & w' & Hrun & Hfr & Hfiles & Hcnt & Hact).
  exists n, w'. split; [exact Hrun|].
  split; [eapply diskFrame_trans; [|exact Hfr]; by constructor|].
  split; [exact Hfiles|]. split; [|exact Hact].
  simpl in Hcnt. lia.
Qed.

Lemma targets_canonical w P p :
  storeCanonical w ->
  p ∈ targets P (sortSessions (listed w))
  <-> exists s, files w !! p = Some (Encoded s) /\ P s = true.
Proof.
  intros Hc. unfold targets. rewrite list_elem_of_fmap. split.
  - intros (s & -> & Hin). apply list_elem_of_filter in Hin as [HP Hin].
    apply elem_of_sortSessions, elem_of_listed in Hin; [|done]. eauto.
  - intros (s & Hs & HP). exists s.
    pose proof (Hc p _ Hs) as Hcan. apply andb_true_iff in Hcan as [_ H2].
    apply String.eqb_eq in H2. split; [done|].
    apply list_elem_of_filter. split; [done|].
    apply elem_of_sortSessions, elem_of_listed; [done|]. by rewrite <- H2.
Qed.

Lemma exceeds_days now s n :
  exceeds (daysSinceLastUse now s) (Some n) = true
  <-> n * MS_PER_DAY < now - lastUsed s.
Proof.
  unfold exceeds, daysSinceLastUse. rewrite negb_true_iff.
  rewrite <- not_true_iff_false, Qle_bool_iff.
  unfold Qle, inject_Z. cbn [Qnum Qden].
  replace (Z.pos (Z.to_pos MS_PER_DAY)) with 86400000 by reflexivity.
  unfold MS_PER_DAY. lia.
Qed.


Lemma cleanupExpiredSessions_canonical w :
  storeCanonical w -> autoCleanup (sessions w) = true ->
  exists n w',
    cleanupExpiredSessions w = (Returned n, w')
    /\ diskFrame w w'
    /\ (forall p, files w' !! p = swept w p)
    /\ n = Z.of_nat (size (files w)) - Z.of_nat (size (files w')).
Proof.
  intros Hc Hen.
  destruct (cleanupExpiredSessions_enabled w Hen)
    as (n & w' & Hrun & Hfr & Hfiles & Hcnt & _).
  exists n, w'. split; [exact Hrun|]. split; [exact Hfr|]. split; [|exact Hcnt].
  intros p. rewrite Hfiles. unfold swept. case_bool_decide as Hd.
  - destruct Hd as [Hin Hro]. apply targets_canonical in Hin as (s & Hs & HP); [|done].
    rewrite Hs, HP. by rewrite bool_decide_eq_false_2.
  - destruct (files w !! p) as [[|s]|] eqn:Hs; try done.
    destruct (shouldDelete _ _ s) eqn:HP; [|done].
    case_bool_decide as Hro; [done|]. exfalso. apply Hd. split; [|done].
    apply targets_canonical; eauto.
Qed.

(** ** Resolution *)

Lemma createSession_eq n t pid w :
  createSession n t pid w =
    let s := freshSession n t pid w in
    let p := getSessionPath n in
    if decide (p ∈ readonly w)
    then (Thrown (EACCES p), afterCreate false p (Encoded (jsonView s)) w)
    else (Returned s, afterCreate true p (Encoded (jsonView s)) w).
Proof.
  unfold createSession, saveSession, fs_writeFile, randomUUID, newDate; run. simpl.
  destruct (decide (getSessionPath n ∈ readonly w)); reflexivity.
Qed.

Lemma getGlobalSession_eq w : getGlobalSession w = loadOrCreate "global" global None false w.
Proof.
  unfold getGlobalSession, loadOrCreate. rewrite bind_eq_Async, loadSessionFromDisk_eq.
  by destruct (parseFile _).
Qed.

Lemma getShellSession_eq pid w :
  getShellSession pid w = loadOrCreate ("shell-" +:+ pid) shell (Some pid) false w.
Proof.
  unfold getShellSession, loadOrCreate. rewrite bind_eq_Async, loadSessionFromDisk_eq.
  by destruct (parseFile _).
Qed.

Lemma getNamedSession_eq n force w :
  getNamedSession n force w = loadOrCreate n named None force w.
Proof.
  unfold getNamedSession, loadOrCreate. destruct force; [reflexivity|].
  rewrite bind_eq_Async, loadSessionFromDisk_eq. by destruct (parseFile _).
Qed.

Lemma getActiveSession_eq options w :
  getActiveSession options w =
    let '(n, t, pid, force) := resolution options in
    activate (loadOrCreate n t pid force w).
Proof.
  unfold getActiveSession, resolution. rewrite bind_eq_Async.
  destruct (is_set (sessionName options)) eqn:Hn.
  - rewrite getNamedSession_eq. by destruct (loadOrCreate _ _ _ _ w) as [[?|?] ?].
  - destruct (isType shell (selType options) && is_set (shellPID options)).
    + rewrite getShellSession_eq. by destruct (loadOrCreate _ _ _ _ w) as [[?|?] ?].
    + rewrite andb_false_r.
      rewrite getGlobalSession_eq. by destruct (loadOrCreate _ _ _ _ w) as [[?|?] ?].
Qed.

(** The outcomes of a resolution: the record was loaded, a record was
    created and saved, or the save was refused. *)
Lemma loadOrCreate_cases n t pid force w :
  (exists s, force = false
             /\ files w !! getSessionPath n = Some (Encoded s)
             /\ loadOrCreate n t pid force w = (Returned s, w))
  \/ ((force = true \/ parseFile (files w !! getSessionPath n) = None)
      /\ (getSessionPath n ∉ readonly w)
      /\ loadOrCreate n t pid force w =
           (Returned (freshSession n t pid w),
            afterCreate true (getSessionPath n)
                        (Encoded (jsonView (freshSession n t pid w))) w))
  \/ ((force = true \/ parseFile (files w !! getSessionPath n) = None)
      /\ (getSessionPath n ∈ readonly w)
      /\ loadOrCreate n t pid force w =
           (Thrown (EACCES (getSessionPath n)),
            afterCreate false (getSessionPath n)
                        (Encoded (jsonView (freshSession n t pid w))) w)).
Proof.
  unfold loadOrCreate. destruct force.
  - rewrite createSession_eq. simpl.
    destruct (decide (getSessionPath n ∈ readonly w)); [right; right | right; left]; auto.
  - destruct (files w !! getSessionPath n) as [[|s]|] eqn:Hf; simpl.
    + rewrite createSession_eq. simpl.
      destruct (decide (getSessionPath n ∈ readonly w)); [right; right | right; left]; auto.
    + left. eauto.
    + rewrite createSession_eq. simpl.
      destruct (decide (getSessionPath n ∈ readonly w)); [right; right | right; left]; auto.
Qed.

Lemma cleanupExpiredSessions_returns w :
  exists n w1, cleanupExpiredSessions w = (Returned n, w1) /\ diskFrame w w1.
Proof.
  destruct (autoCleanup (sessions w)) eqn:H.
  - destruct (cleanupExpiredSessions_enabled w H) as (n & w1 & Hrun & Hfr & _).
    eauto.
  - exists 0, w. split; [by apply cleanupExpiredSessions_disabled | apply diskFrame_refl].
Qed.

(** ** The retry cache *)

(** C8: [setLastFailedQuestion] overwrites whatever was remembered;
    [getLastFailedQuestion] returns the remembered text and leaves it in
    place, so asking again gives the same text; when nothing was recorded
    it returns nothing, and [main] with [--retry] then writes a diagnostic
    and exits with code 1 without submitting any query. *)
Theorem retry_cache_single_slot (q : string) (w : World) (options : CLIOptions) :
  retry options = true ->
  help options = false -> version options = false ->
  configCommand options = false ->
  listSessions options || sessionInfo options || clear options
    || clearAll options || is_set (export options) = false ->
  let w1 := (setLastFailedQuestion q w).2 in
  lastFailedQuestion w1 = Some q
  /\ getLastFailedQuestion w1 = (Returned (Some q), w1)
  /\ (_ ← getLastFailedQuestion; getLastFailedQuestion) w1 = (Returned (Some q), w1)
  /\ (lastFailedQuestion w = None ->
      getLastFailedQuestion w = (Returned None, w)
      /\ exists w', main options w = (Returned 1, w')
                    /\ queries w' = queries w
                    /\ stderr w' = "No failed question to retry" :: stderr w).
Proof.
  intros Hretry Hhelp Hversion Hconfig Hcmd w1.
  split; [reflexivity|]. split; [reflexivity|]. split; [reflexivity|].
  intros Hnone. split; [unfold getLastFailedQuestion; by rewrite Hnone|].
  destruct (cleanupExpiredSessions_returns w) as (n & w2 & Hsweep & Hfr).
  unfold main, tryCatch. rewrite Hhelp, Hversion, bind_eq_Async, Hsweep.
  rewrite Hconfig, Hcmd, bind_eq_Async, Hretry, bind_eq_Async.
  unfold getLastFailedQuestion at 1.
  rewrite (frame_lastFailedQuestion _ _ Hfr), Hnone. simpl.
  eexists. split; [reflexivity|]. simpl.
  by rewrite (frame_queries _ _ Hfr), (frame_stderr _ _ Hfr).
Qed.

Lemma retry_cache_single_slot_witness :
  lastFailedQuestion (setLastFailedQuestion "why" emptyWorld).2 = Some "why"
  /\ (_ ← getLastFailedQuestion; getLastFailedQuestion)
       (setLastFailedQuestion "why" emptyWorld).2
     = (Returned (Some "why"), (setLastFailedQuestion "why" emptyWorld).2)
  /\ getLastFailedQuestion emptyWorld = (Returned None, emptyWorld)
  /\ exists w', main retryOptions emptyWorld = (Returned 1, w')
                /\ queries w' = []
                /\ stderr w' = ["No failed question to retry"].
Proof.
  destruct (retry_cache_single_slot "why" emptyWorld retryOptions
              eq_refl eq_refl eq_refl eq_refl eq_refl)
    as (H1 & _ & H3 & H4).
  split; [exact H1|]. split; [exact H3|]. exact (H4 eq_refl).
Defined.

(** ** Deleting and saving *)

(** C5, as stated, fails: [deleteSession] turns every failure of [unlink]
    into the answer [false].  Here the file exists and is write protected:
    [unlink] fails with EACCES, and the caller gets [false], not the error. *)
Lemma delete_failure_not_propagated :
  ~ (forall n w e,
       (fs_unlink (getSessionPath n) w).1 = Thrown e ->
       (forall p, e <> ENOENT p) ->
       (deleteSession n w).1 = Thrown e).
Proof.
  intros H.
  specialize (H "topic" protectedWorld (EACCES "topic.json") eq_refl).
  discriminate H. intros p; discriminate.
Qed.

(** C5, amended: [deleteSession] never throws.  It answers [true] exactly
    when the file existed and its removal succeeded; then the file is gone,
    a later load finds nothing and an active pointer to that name is
    cleared.  It answers [false] when nothing matched and also when the
    removal failed for another reason; the directory and the active pointer
    are then unchanged.  A failure of the write in [saveSession] is thrown
    to the caller. *)
Theorem delete_and_save_failures (n : string) (s : SessionMetadata) (w : World) :
  (exists b w',
     deleteSession n w = (Returned b, w')
     /\ (b = true <-> is_Some (files w !! getSessionPath n)
                      /\ getSessionPath n ∉ readonly w)
     /\ (b = true ->
         files w' = delete (getSessionPath n) (files w)
         /\ loadSessionFromDisk n w' = (Returned None, w')
         /\ activeSession w' =
              match activeSession w with
              | Some a => if String.eqb (name a) n then None else Some a
              | None => None
              end)
     /\ (b = false -> files w' = files w /\ activeSession w' = activeSession w))
  /\ (forall e, (fs_writeFile (getSessionPath (name s)) (JSON_stringify s) w).1 = Thrown e ->
                (saveSession s w).1 = Thrown e)
  /\ (getSessionPath (name s) ∈ readonly w ->
      (saveSession s w).1 = Thrown (EACCES (getSessionPath (name s)))).
Proof.
  split; [|split].
  - rewrite deleteSession_eq. destruct (deletable (getSessionPath n) w) eqn:Hd.
    + exists true, (afterDelete n w). split; [reflexivity|].
      apply bool_decide_eq_true_1 in Hd. split; [tauto|]. split; [|discriminate].
      intros _. split; [apply afterDelete_files|]. split; [|apply afterDelete_active].
      rewrite loadSessionFromDisk_eq, afterDelete_files, lookup_delete_eq. reflexivity.
    + eexists false, _. split; [reflexivity|].
      apply bool_decide_eq_false_1 in Hd. split; [split; [discriminate | tauto]|].
      split; [discriminate|]. intros _. split; reflexivity.
  - intros e H. exact H.
  - intros Hro. unfold saveSession, fs_writeFile.
    destruct (decide (getSessionPath (name s) ∈ readonly w)); [reflexivity | done].
Qed.

Lemma delete_and_save_failures_witness :
  getSessionPath (name (sampleSession "topic" named 0)) ∈ readonly protectedWorld
  /\ (saveSession (sampleSession "topic" named 0) protectedWorld).1
     = Thrown (EACCES "topic.json").
Proof.
  split; [vm_compute; reflexivity|].
  apply (proj2 (proj2 (delete_and_save_failures "topic" (sampleSession "topic" named 0)
                         protectedWorld))).
  vm_compute. reflexivity.
Defined.

(** ** Resolving sessions *)

Lemma jsonView_fresh n t w : jsonView (freshSession n t None w) = freshSession n t None w.
Proof. reflexivity. Qed.

(** C3: a request with an explicit (non-empty) name and [forceNew] creates
    and saves a new [named] record with zeroed counters and no SDK session
    id; its identifier differs from that of every record stored before; it
    replaces whatever the file of that name held, and is what a later load
    returns. *)
Theorem forced_new_session_is_fresh (options : SessionSelectionOptions) (n : string)
    (w : World) :
  sessionName options = Some n -> truthy n = true -> forceNew options = true ->
  getSessionPath n ∉ readonly w -> idsIssued w ->
  exists s w',
    getActiveSession options w = (Returned s, w')
    /\ name s = n /\ type s = named
    /\ messageCount s = 0 /\ totalTokens s = 0 /\ totalCost s = 0%Q
    /\ sdkSessionId s = None
    /\ (forall p old, files w !! p = Some (Encoded old) -> id s <> id old)
    /\ files w' = <[getSessionPath n := Encoded s]> (files w)
    /\ loadSessionFromDisk n w' = (Returned (Some s), w')
    /\ activeSession w' = Some s.
Proof.
  intros Hn Ht Hf Hro [Hinj Hids].
  rewrite getActiveSession_eq. unfold resolution, is_set, the. rewrite Hn, Ht, Hf.
  unfold loadOrCreate. rewrite createSession_eq. cbv zeta.
  destruct (decide (getSessionPath n ∈ readonly w)); [done|].
  eexists _, _. split; [reflexivity|].
  repeat (split; [reflexivity|]).
  split.
  - intros p old Hold Heq. destruct (Hids p old Hold) as (i & Hlt & Hi).
    simpl in Heq. rewrite Hi in Heq. apply Hinj in Heq. lia.
  - split; [reflexivity|]. split; [|reflexivity].
    rewrite loadSessionFromDisk_eq. simpl. by rewrite lookup_insert_eq.
Qed.

Lemma topicWorld_idsIssued : idsIssued topicWorld.
Proof.
  split; [simpl; apply _|].
  intros p s Hs. simpl in Hs. apply lookup_singleton_Some in Hs as [_ Hs].
  injection Hs as <-. exists 0%nat. split; [simpl; lia | reflexivity].
Qed.

Lemma forced_new_session_is_fresh_witness :
  exists s w',
    getActiveSession {| sessionName := Some "topic"; shellPID := None;
                        selType := sel named; forceNew := true |} topicWorld
      = (Returned s, w')
    /\ name s = "topic" /\ type s = named
    /\ messageCount s = 0 /\ totalTokens s = 0 /\ totalCost s = 0%Q
    /\ sdkSessionId s = None
    /\ (forall p old, files topicWorld !! p = Some (Encoded old) -> id s <> id old)
    /\ files w' = <[getSessionPath "topic" := Encoded s]> (files topicWorld)
    /\ loadSessionFromDisk "topic" w' = (Returned (Some s), w')
    /\ activeSession w' = Some s.
Proof.
  apply forced_new_session_is_fresh;
    [reflexivity | reflexivity | reflexivity | | exact topicWorld_idsIssued].
  vm_compute. intros H. discriminate H.
Defined.




(** ** Loading and listing *)

Global Instance mostRecentFirst_total : Total mostRecentFirst.
Proof. intros a b. unfold mostRecentFirst. lia. Qed.

Global Instance mostRecentFirst_trans : Transitive mostRecentFirst.
Proof. intros a b c. unfold mostRecentFirst. lia. Qed.

(** [loadSessionFromDisk] never throws: a missing file and a file that
    does not parse both give [None]. *)
Lemma load_missing_or_corrupt n w :
  (files w !! getSessionPath n = None \/ files w !! getSessionPath n = Some Garbage) ->
  loadSessionFromDisk n w = (Returned None, w).
Proof. intros [H|H]; by rewrite loadSessionFromDisk_eq, H. Qed.


(** C6 at a session whose name contains [.json] before its end: the file
    [a.jsonb.json] is there and loads, but [listAllSessions] strips the
    first [.json] of the file name, looks for [ab.json.json], and returns
    an empty list. *)
Theorem listing_misses_session :
  (exists s, (getActiveSession dottedOptions emptyWorld).1 = Returned s
             /\ files dottedWorld !! "a.jsonb.json" = Some (Encoded s)
             /\ loadSessionFromDisk "a.jsonb" dottedWorld = (Returned (Some s), dottedWorld))
  /\ replace ".json" EmptyString "a.jsonb.json" = "ab.json"
  /\ listAllSessions dottedWorld = (Returned [], dottedWorld).
Proof.
  split; [|split].
  - eexists. split; [vm_compute; reflexivity|].
    split; [vm_compute; reflexivity|].
    rewrite loadSessionFromDisk_eq. vm_compute. reflexivity.
  - reflexivity.
  - rewrite listAllSessions_eq. vm_compute. reflexivity.
Qed.

(** ** Exchanges *)

Lemma executeQuery_eq question0 options w :
  executeQuery question0 options w =
    match getActiveSession (selectionOf options (envShellPID w)) w with
    | (Returned session0, w0) =>
        tryCatch (afterResolution question0 options session0) (onFailure question0) w0
    | (Thrown e, w0) => onFailure question0 e w0
    end.
Proof.
  unfold executeQuery, tryCatch at 1. rewrite bind_eq_Async. unfold getenvShellPID at 1.
  rewrite bind_eq_Async.
  destruct (getActiveSession _ w) as [[s0|e] w0]; reflexivity.
Qed.

Lemma withManager_same w a f :
  activeSession w = a -> lastFailedQuestion w = f -> withManager a f w = w.
Proof. destruct w; simpl; intros; by subst. Qed.

Lemma forOf_onMessage evs : forall st w,
  activeSession w = Some st.1.1 ->
  forOf evs onMessage st w =
    (Returned (fold_left stepMessage evs st),
     withManager (Some (fold_left stepMessage evs st).1.1) (lastFailedQuestion w) w).
Proof.
  induction evs as [|m evs IH]; intros [[s text] err] w Hact; simpl in Hact.
  - simpl. by rewrite withManager_same.
  - cbn [forOf fold_left]. rewrite bind_eq_Async.
    destruct m as [sid|content|n u e|]; cbn [onMessage stepMessage].
    + rewrite bind_eq_Async. unfold aliasWrite, setActiveSession at 1.
      unfold mret at 1, Async_ret. by rewrite IH.
    + unfold mret at 1, Async_ret. by rewrite IH.
    + rewrite bind_eq_Async. unfold aliasWrite, setActiveSession at 1.
      unfold mret at 1, Async_ret. by rewrite IH.
    + unfold mret at 1, Async_ret. by rewrite IH.
Qed.

(** The loop leaves the identity of the session alone. *)
Lemma stepMessage_static st m :
  name (stepMessage st m).1.1 = name st.1.1
  /\ type (stepMessage st m).1.1 = type st.1.1
  /\ id (stepMessage st m).1.1 = id st.1.1
  /\ lastUsed (stepMessage st m).1.1 = lastUsed st.1.1.
Proof.
  destruct st as [[s text] err], m as [sid|content|n u e|]; simpl; try done.
  unfold applyResult. by destruct u.
Qed.

Lemma fold_stepMessage_static evs : forall st,
  name (fold_left stepMessage evs st).1.1 = name st.1.1
  /\ type (fold_left stepMessage evs st).1.1 = type st.1.1
  /\ id (fold_left stepMessage evs st).1.1 = id st.1.1
  /\ lastUsed (fold_left stepMessage evs st).1.1 = lastUsed st.1.1.
Proof.
  induction evs as [|m evs IH]; intros st; [done|]. simpl.
  destruct (IH (stepMessage st m)) as (-> & -> & -> & ->).
  apply stepMessage_static.
Qed.

Ltac run_exchange :=
  unfold afterResolution, tryCatch;
  rewrite bind_eq_Async; unfold loadConfig at 1;
  rewrite bind_eq_Async; unfold query at 1;
  rewrite bind_eq_Async, forOf_onMessage by assumption;
  cbn [engine withEnv].


(** A recorded exchange: the reply ended without an exception and the file
    of the session can be written. *)
Lemma afterResolution_saved question0 options s0 w0 :
  noHistory options = false -> activeSession w0 = Some s0 ->
  failure (replyOf question0 options s0 w0) = None ->
  getSessionPath (name s0) ∉ readonly w0 ->
  let '(s1, _, err) := exchanged question0 options s0 w0 in
  let s2 := withLastUsed (nextInstant w0) s1 in
  exists w',
    tryCatch (afterResolution question0 options s0) (onFailure question0) w0
      = (Returned {| success := negb err; exitCode := if err then 1 else 0 |}, w')
    /\ activeSession w' = Some s2
    /\ files w' = <[getSessionPath (name s0) := Encoded (jsonView s2)]> (files w0)
    /\ fsCalls w' = WriteFile (getSessionPath (name s0)) (Encoded (jsonView s2)) :: fsCalls w0
    /\ lastFailedQuestion w' = (if err then Some question0 else lastFailedQuestion w0)
    /\ queries w' = callOf question0 options s0 :: queries w0.
Proof.
  intros Hno Hact Hfail Hro. unfold exchanged, replyOf, afterEvents, callOf in *.
  pose proof (fold_stepMessage_static
                (events (engine w0 {| prompt := question0;
                                      resume := resumeOption (noHistory options) s0 |}))
                (s0, EmptyString, false)) as (Hname & _).
  destruct (fold_left stepMessage _ _) as [[s1 text] err] eqn:Hfold.
  simpl in Hname. cbv zeta.
  run_exchange. rewrite Hfold, Hfail, Hno.
  rewrite bind_eq_Async. unfold mret at 1, Async_ret.
  rewrite bind_eq_Async, bind_eq_Async. unfold newDate at 1.
  rewrite bind_eq_Async. unfold aliasWrite, setActiveSession at 1.
  unfold saveSession, fs_writeFile. cbn [readonly withManager withEnv name withLastUsed].
  rewrite Hname.
  destruct (decide (getSessionPath (name s0) ∈ readonly w0)); [done|].
  destruct err; eexists; (split; [reflexivity|]); by repeat split.
Qed.

(** Whatever happens after resolution, [executeQuery] returns a result and
    the directory is either left as it was or has the file of the session
    rewritten with a record of the same name and kind. *)
Lemma afterResolution_files question0 options s0 w0 :
  activeSession w0 = Some s0 ->
  exists r w',
    tryCatch (afterResolution question0 options s0) (onFailure question0) w0
      = (Returned r, w')
    /\ readonly w' = readonly w0
    /\ (files w' = files w0
        \/ exists s2, files w' = <[getSessionPath (name s0) := Encoded s2]> (files w0)
                      /\ name s2 = name s0 /\ type s2 = type s0).
Proof.
  intros Hact.
  pose proof (fold_stepMessage_static
                (events (engine w0 {| prompt := question0;
                                      resume := resumeOption (noHistory options) s0 |}))
                (s0, EmptyString, false)) as (Hname & Htype & _).
  run_exchange.
  destruct (fold_left stepMessage _ _) as [[s1 text] err] eqn:Hfold.
  simpl in Hname, Htype.
  destruct (failure _) as [msg|].
  { eexists _, _. split; [reflexivity|]. split; [reflexivity | by left]. }
  destruct (noHistory options).
  { destruct err; eexists _, _; (split; [reflexivity|]); split; try reflexivity; by left. }
  rewrite bind_eq_Async. unfold mret at 1, Async_ret.
  rewrite bind_eq_Async, bind_eq_Async. unfold newDate at 1.
  rewrite bind_eq_Async. unfold aliasWrite, setActiveSession at 1.
  unfold saveSession, fs_writeFile. cbn [readonly withManager withEnv name withLastUsed].
  rewrite Hname.
  destruct (decide (getSessionPath (name s0) ∈ readonly w0)).
  - eexists _, _. split; [reflexivity|]. split; [reflexivity | by left].
  - destruct err; eexists _, _; (split; [reflexivity|]); (split; [reflexivity|]);
      right; eexists; (split; [reflexivity|]); by split.
Qed.

Lemma getActiveSession_active options w s0 w0 :
  getActiveSession options w = (Returned s0, w0) -> activeSession w0 = Some s0.
Proof.
  rewrite getActiveSession_eq. destruct (resolution options) as [[[n t] pid] force].
  unfold activate. destruct (loadOrCreate n t pid force w) as [[s|e] w1]; [|discriminate].
  by intros [= <- <-].
Qed.













(** ** The sweep, by the calendar *)





(** ** Expiry settings *)

Ltac each_ascii c :=
  destruct c as [[] [] [] [] [] [] [] []]; try discriminate; try reflexivity.

Lemma digit_not_space c : isDecimalDigit c = true -> isStrWhiteSpaceChar c = false.
Proof. each_ascii c. Qed.

Lemma digit_stripSign c t : isDecimalDigit c = true -> stripSign (String c t) = (1, String c t).
Proof. each_ascii c. Qed.

Lemma digit_value c :
  isDecimalDigit c = true ->
  digitValue c = Some (Z.of_nat (nat_of_ascii c) - 48)
  /\ (Z.of_nat (nat_of_ascii c) - 48 <? 10) = true.
Proof. each_ascii c; intros _; split; reflexivity. Qed.

Lemma nondigit_value c :
  isDecimalDigit c = false ->
  match digitValue c with
  | Some d => (d <? 10) = false
  | None => True
  end.
Proof. each_ascii c. Qed.

Lemma nondigit_stripHexPrefix s :
  startsWithDigit s = false -> stripHexPrefix s = (10, s).
Proof. destruct s as [|c t]; [reflexivity|]. simpl. each_ascii c. Qed.

Lemma stripHexPrefix_no_marker c c2 t :
  isHexMarker c2 = false ->
  stripHexPrefix (String c (String c2 t)) = (10, String c (String c2 t)).
Proof.
  intros H. destruct (Ascii.eqb c "0") eqn:Hc.
  - apply Ascii.eqb_eq in Hc as ->. each_ascii c2.
  - revert Hc. each_ascii c.
Qed.

Lemma digit_not_marker c : isDecimalDigit c = true -> isHexMarker c = false.
Proof. each_ascii c. Qed.

Lemma radixDigits_decimal ds u :
  allDecimal ds = true -> unitSuffix u = true ->
  radixDigits 10 (ds +:+ u) = decimalDigits ds.
Proof.
  intros Hds Hu. induction ds as [|c ds IH].
  - rewrite app_Empty. destruct u as [|c t]; [reflexivity|]. simpl in *.
    apply andb_true_iff in Hu as [Hu _]. apply negb_true_iff in Hu.
    pose proof (nondigit_value c Hu) as Hv.
    destruct (digitValue c) as [d|]; [by rewrite Hv | reflexivity].
  - rewrite app_String. simpl in Hds. apply andb_true_iff in Hds as [Hc Hds].
    cbn [radixDigits decimalDigits].
    destruct (digit_value c Hc) as [-> ->]. by rewrite IH.
Qed.

Lemma parseInt_decimal ds u :
  allDecimal ds = true -> ds <> EmptyString -> unitSuffix u = true ->
  parseInt (ds +:+ u) = Some (radixValue 10 (decimalDigits ds)).
Proof.
  intros Hds Hne Hu. destruct ds as [|c ds]; [done|].
  pose proof Hds as Hall. simpl in Hds. apply andb_true_iff in Hds as [Hc Hds'].
  unfold parseInt. rewrite app_String.
  assert (Htrim : trimStart (String c (ds +:+ u)) = String c (ds +:+ u)).
  { simpl. by rewrite (digit_not_space c Hc). }
  rewrite Htrim, (digit_stripSign c _ Hc).
  assert (Hhex : stripHexPrefix (String c (ds +:+ u)) = (10, String c (ds +:+ u))).
  { destruct ds as [|c2 ds].
    - rewrite app_Empty. destruct u as [|x t].
      + revert Hc. each_ascii c.
      + apply stripHexPrefix_no_marker. simpl in Hu.
        apply andb_true_iff in Hu as [_ Hu]. by apply negb_true_iff in Hu.
    - rewrite app_String. apply stripHexPrefix_no_marker, digit_not_marker.
      simpl in Hds'. by apply andb_true_iff in Hds' as [? _]. }
  rewrite Hhex. rewrite <- app_String, (radixDigits_decimal _ u Hall Hu).
  cbn [decimalDigits]. f_equal. lia.
Qed.

Lemma parseInt_no_digit e :
  startsWithDigit (stripSign (trimStart e)).2 = false -> parseInt e = None.
Proof.
  intros H. unfold parseInt. destruct (stripSign (trimStart e)) as [sign s1].
  simpl in H. rewrite (nondigit_stripHexPrefix s1 H).
  destruct s1 as [|c t]; [reflexivity|]. simpl in H. simpl.
  pose proof (nondigit_value c H) as Hv.
  destruct (digitValue c) as [d|]; [by rewrite Hv | reflexivity].
Qed.

Lemma shouldDelete_NaN config now s :
  (type s = shell -> parseInt (shellSessionExpiry config) = None) ->
  (type s = named -> parseInt (namedSessionExpiry config) = None) ->
  shouldDelete config now s = false.
Proof.
  intros Hs Hn. unfold shouldDelete. destruct (type s); [reflexivity| |].
  - by rewrite Hs.
  - by rewrite Hn.
Qed.

(** C10, as stated, fails: ["-1d"] does not begin with a digit, yet
    [parseInt] reads -1 in it, not [NaN], and a shell session used at this
    very instant is then expired. *)
Lemma signed_expiry_is_a_number :
  startsWithDigit "-1d" = false
  /\ parseInt "-1d" = Some (-1)
  /\ parseInt " 7d" = Some 7
  /\ (cleanupExpiredSessions signedExpiryWorld).1 = Returned 1
  /\ files (cleanupExpiredSessions signedExpiryWorld).2 !! "shell-77.json" = None.
Proof.
  repeat split; rewrite ?cleanupExpiredSessions_eq; vm_compute; reflexivity.
Qed.

(** C10, amended.  The sweep reads an expiry setting with [parseInt]:
    decimal digits followed by anything that does not start with a digit
    (or with the [x] of a hexadecimal prefix) give the number the digits
    spell, and that number is always compared with the elapsed time in
    days, so ["24h"] is 24 days like ["24d"].  A setting in which no digit
    follows the optional leading white space and sign gives [NaN], and
    then no session of that kind is deleted. *)
Theorem expiry_is_parsed_as_days (w : World) (ds u e : string) :
  storeCanonical w -> autoCleanup (sessions w) = true ->
  allDecimal ds = true -> ds <> EmptyString -> unitSuffix u = true ->
  startsWithDigit (stripSign (trimStart e)).2 = false ->
  parseInt (ds +:+ u) = Some (radixValue 10 (decimalDigits ds))
  /\ (forall now s,
        exceeds (daysSinceLastUse now s) (parseInt (ds +:+ u)) = true
        <-> radixValue 10 (decimalDigits ds) * MS_PER_DAY < now - lastUsed s)
  /\ (parseInt "24h" = Some 24 /\ parseInt "24d" = Some 24
      /\ forall enabled namedExpiry now s,
           shouldDelete {| autoCleanup := enabled; shellSessionExpiry := "24h";
                           namedSessionExpiry := namedExpiry |} now s
           = shouldDelete {| autoCleanup := enabled; shellSessionExpiry := "24d";
                             namedSessionExpiry := namedExpiry |} now s)
  /\ parseInt e = None
  /\ (forall k, (k = shell -> parseInt (shellSessionExpiry (sessions w)) = None) ->
                (k = named -> parseInt (namedSessionExpiry (sessions w)) = None) ->
      forall p s, files w !! p = Some (Encoded s) -> type s = k ->
                  files (cleanupExpiredSessions w).2 !! p = Some (Encoded s)).
Proof.
  intros Hc Hen Hds Hne Hu He.
  pose proof (parseInt_decimal ds u Hds Hne Hu) as Hparse.
  split; [exact Hparse|]. split; [intros now s; rewrite Hparse; apply exceeds_days|].
  split; [split; [reflexivity | split; [reflexivity|]]|].
  { intros enabled namedExpiry now s. reflexivity. }
  split; [by apply parseInt_no_digit|].
  intros k Hshell Hnamed p s Hs Hk.
  destruct (cleanupExpiredSessions_canonical w Hc Hen) as (n & w' & Hrun & _ & Hfiles & _).
  rewrite Hrun. simpl. rewrite Hfiles. unfold swept. rewrite Hs.
  rewrite shouldDelete_NaN; [reflexivity | |]; intros Ht; rewrite Ht in Hk; subst k; auto.
Qed.

Lemma noExpiryWorld_canonical : storeCanonical noExpiryWorld.
Proof.
  intros p d Hp. simpl in Hp. apply lookup_singleton_Some in Hp as [<- <-].
  reflexivity.
Qed.

Lemma expiry_is_parsed_as_days_witness :
  parseInt "24h" = Some 24
  /\ parseInt "never" = None
  /\ files (cleanupExpiredSessions noExpiryWorld).2 !! "shell-77.json"
     = Some (Encoded (sampleSession "shell-77" shell 0)).
Proof.
  destruct (expiry_is_parsed_as_days noExpiryWorld "24" "h" "never"
              noExpiryWorld_canonical eq_refl eq_refl
              ltac:(discriminate) eq_refl eq_refl)
    as (H24 & _ & _ & Hnan & Hkept).
  split; [exact H24|]. split; [exact Hnan|].
  apply (Hkept shell); [reflexivity | discriminate | reflexivity | reflexivity].
Defined.

(** ** The global session *)












(** * Further properties of the session manager *)

(** ** Saving, loading, resolving *)





Lemma resolution_named options n :
  sessionName options = Some n -> truthy n = true ->
  resolution options = (n, named, None, forceNew options).
Proof. intros Hn Ht. unfold resolution, is_set, the. by rewrite Hn, Ht. Qed.

(** X2: a request with an explicit name and no [forceNew], made twice,
    returns the same record both times, and the second resolution writes
    nothing.  When the file was absent or unreadable the record is a new
    [named] one with zeroed counters and no SDK session id; when it was
    there, it is returned as it is and nothing is written at all. *)
Theorem named_resolved_twice (options : SessionSelectionOptions) (n : string)
    (w : World) :
  sessionName options = Some n -> truthy n = true -> forceNew options = false ->
  (parseFile (files w !! getSessionPath n) = None -> getSessionPath n ∉ readonly w) ->
  exists s1 w1 w2,
    getActiveSession options w = (Returned s1, w1)
    /\ getActiveSession options w1 = (Returned s1, w2)
    /\ files w2 = files w1 /\ fsCalls w2 = fsCalls w1
    /\ (parseFile (files w !! getSessionPath n) = None ->
        name s1 = n /\ type s1 = named
        /\ messageCount s1 = 0 /\ totalTokens s1 = 0 /\ totalCost s1 = 0%Q
        /\ sdkSessionId s1 = None
        /\ files w1 = <[getSessionPath n := Encoded s1]> (files w))
    /\ (forall s, files w !! getSessionPath n = Some (Encoded s) ->
                  s1 = s /\ files w1 = files w /\ fsCalls w1 = fsCalls w).
Proof.
  intros Hn Ht Hf Hwr.
  rewrite getActiveSession_eq, (resolution_named options n Hn Ht), Hf.
  unfold loadOrCreate.
  destruct (parseFile (files w !! getSessionPath n)) as [s|] eqn:Hp.
  - assert (Hs : files w !! getSessionPath n = Some (Encoded s)).
    { destruct (files w !! getSessionPath n) as [[|s']|]; try discriminate.
      by injection Hp as ->. }
    exists s. eexists. eexists. split; [reflexivity|].
    rewrite getActiveSession_eq, (resolution_named options n Hn Ht), Hf.
    unfold loadOrCreate. simpl. rewrite Hp. simpl.
    split; [reflexivity|]. split; [reflexivity|]. split; [reflexivity|].
    split; [discriminate|]. intros s' Hs'. rewrite Hs in Hs'. injection Hs' as <-.
    by repeat split.
  - rewrite createSession_eq. cbv zeta.
    destruct (decide (getSessionPath n ∈ readonly w)) as [Hro|Hro]; [by apply Hwr in Hro|].
    eexists _, _, _. split; [reflexivity|].
    rewrite getActiveSession_eq, (resolution_named options n Hn Ht), Hf.
    unfold loadOrCreate. simpl. rewrite lookup_insert_eq. simpl.
    split; [reflexivity|]. split; [reflexivity|]. split; [reflexivity|].
    split; [intros _; by repeat split|].
    intros s Hs. rewrite Hs in Hp. discriminate Hp.
Qed.

Lemma named_resolved_twice_witness :
  exists s1 w1 w2,
    getActiveSession (namedOptions "topic") emptyWorld = (Returned s1, w1)
    /\ getActiveSession (namedOptions "topic") w1 = (Returned s1, w2)
    /\ files w2 = files w1 /\ fsCalls w2 = fsCalls w1
    /\ name s1 = "topic" /\ type s1 = named.
Proof.
  destruct (named_resolved_twice (namedOptions "topic") "topic" emptyWorld
              eq_refl eq_refl eq_refl)
    as (s1 & w1 & w2 & H1 & H2 & Hf & Hc & Hnew & _).
  - intros _. vm_compute. intros H. discriminate H.
  - exists s1, w1, w2. repeat (split; [assumption|]).
    destruct (Hnew eq_refl) as (Hname & Htype & _). by split.
Defined.





Lemma selection_never_shell options pid :
  forall n t p f, resolution (selectionOf options pid) = (n, t, p, f) ->
  t <> shell /\ (t = global -> n = "global")
  /\ (t = named -> or_else (session options) (newSession options) = Some n).
Proof.
  intros n t p f. unfold resolution, selectionOf. simpl.
  destruct (is_set (or_else (session options) (newSession options))) eqn:Hset.
  - intros [= <- <- <- <-]. split; [discriminate|]. split; [discriminate|].
    intros _. destruct (or_else _ _) as [m|]; [reflexivity | discriminate].
  - assert (Hty : isType shell (if is_set (newSession options) then sel named else auto)
                  = false) by by destruct (is_set (newSession options)).
    rewrite Hty. simpl. intros [= <- <- <- <-].
    split; [discriminate|]. split; [reflexivity | discriminate].
Qed.

(** X4: [executeQuery] asks for the selection type [named] or [auto], never
    [shell]: whatever the options and the process id in the environment,
    it resolves to the explicit name or to [global], and every file that
    is new in the directory afterwards holds a session that is not of kind
    [shell]. *)
Theorem cli_never_creates_shell_session (question0 : string) (options : CLIOptions)
    (w : World) :
  storeNamed w ->
  (forall n t p f,
     resolution (selectionOf options (envShellPID w)) = (n, t, p, f) ->
     t <> shell /\ (t = global -> n = "global")
     /\ (t = named -> or_else (session options) (newSession options) = Some n))
  /\ (forall p s,
        files w !! p = None ->
        files (executeQuery question0 options w).2 !! p = Some (Encoded s) ->
        type s <> shell).
Proof.
  intros Hstore. split; [apply selection_never_shell|].
  intros p s Hnone. rewrite executeQuery_eq, getActiveSession_eq.
  destruct (resolution _) as [[[n t] pid] force] eqn:Hres.
  destruct (selection_never_shell _ _ _ _ _ _ Hres) as (Hshell & _).
  destruct (loadOrCreate_cases n t pid force w)
    as [(s0 & _ & Hs0 & ->)|[(_ & _ & ->)|(_ & _ & ->)]]; cbn [activate].
  - set (w0 := withManager (Some s0) (lastFailedQuestion w) w).
    destruct (afterResolution_files question0 options s0 w0 eq_refl)
      as (r' & w' & -> & _ & [Hsame|(s2 & Hins & Hname & Htype)]); simpl.
    + rewrite Hsame. simpl. by rewrite Hnone.
    + rewrite Hins. simpl. rewrite <- (Hstore _ _ Hs0).
      destruct (decide (p = getSessionPath n)) as [->|Hne].
      * by rewrite Hs0 in Hnone.
      * rewrite lookup_insert_ne by done. by rewrite Hnone.
  - set (s0 := freshSession n t pid w).
    set (w0 := withManager _ _ _).
    destruct (afterResolution_files question0 options s0 w0 eq_refl)
      as (r' & w' & -> & _ & [Hsame|(s2 & Hins & Hname & Htype)]); simpl.
    + rewrite Hsame. simpl.
      destruct (decide (p = getSessionPath n)) as [->|Hne].
      * rewrite lookup_insert_eq. by intros [= <-].
      * rewrite lookup_insert_ne by done. by rewrite Hnone.
    + rewrite Hins. simpl.
      destruct (decide (p = getSessionPath n)) as [->|Hne].
      * rewrite lookup_insert_eq. intros [= <-]. by rewrite Htype.
      * rewrite !lookup_insert_ne by done. by rewrite Hnone.
  - simpl. by rewrite Hnone.
Qed.

Lemma emptyWorld_storeNamed : storeNamed emptyWorld.
Proof. intros p s Hs. simpl in Hs. by rewrite lookup_empty in Hs. Qed.

Lemma cli_never_creates_shell_session_witness :
  resolution (selectionOf (askOptions false) (envShellPID emptyWorld))
  = ("global", global, None, false)
  /\ (forall p s,
        files emptyWorld !! p = None ->
        files (executeQuery "hi" (askOptions false) emptyWorld).2 !! p = Some (Encoded s) ->
        type s <> shell).
Proof.
  split; [reflexivity|].
  exact (proj2 (cli_never_creates_shell_session "hi" (askOptions false) emptyWorld
                  emptyWorld_storeNamed)).
Defined.

(** ** Bulk deletion and the session commands *)







Lemma targetName_eq options w :
  targetName options w =
    (Returned (if is_set (session options) then the (session options)
               else match activeSession w with
                    | Some a => if truthy (name a) then name a else "global"
                    | None => "global"
                    end), w).
Proof.
  unfold targetName, getCurrentSession. rewrite bind_eq_Async.
  unfold mret, Async_ret. f_equal. f_equal.
  unfold or_else, is_set, the.
  destruct (session options) as [n|]; [destruct (truthy n) eqn:Hn|]; simpl;
    rewrite ?Hn; try reflexivity;
    (destruct (activeSession w) as [a|]; simpl; [|reflexivity]);
    by destruct (truthy (name a)).
Qed.



(** X8: [--export] of a session that does not load (no file, or a file
    that does not parse) fails: the command writes
    [Error: Session '<name>' not found], exits with 1 and leaves the
    directory untouched. *)
Theorem export_missing_session (options : CLIOptions) (w : World) :
  listSessions options = false -> sessionInfo options = false ->
  clear options = false -> clearAll options = false ->
  is_set (export options) = true ->
  exists n,
    targetName options w = (Returned n, w)
    /\ (parseFile (files w !! getSessionPath n) = None ->
        exists w',
          handleSessionCommands options w
            = (Returned {| success := false; exitCode := 1 |}, w')
          /\ files w' = files w /\ fsCalls w' = fsCalls w
          /\ stderr w' = ("Error: Session '" +:+ n +:+ "' not found") :: stderr w).
Proof.
  intros Hl Hi Hcl Hall Hex. unfold handleSessionCommands, tryCatch.
  rewrite Hl, Hi, Hcl, Hall, Hex, bind_eq_Async, targetName_eq.
  set (n := if is_set (session options) then _ else _).
  exists n. split; [reflexivity|].
  rewrite bind_eq_Async. unfold exportSession. rewrite bind_eq_Async, loadSessionFromDisk_eq.
  intros Hnone. rewrite Hnone. eexists. split; [reflexivity|]. by repeat split.
Qed.

Lemma export_missing_session_witness :
  exists w',
    handleSessionCommands (exportOptions (Some "nowhere") "out.txt") emptyWorld
      = (Returned {| success := false; exitCode := 1 |}, w')
    /\ files w' = files emptyWorld /\ fsCalls w' = fsCalls emptyWorld
    /\ stderr w' = ["Error: Session 'nowhere' not found"].
Proof.
  destruct (export_missing_session (exportOptions (Some "nowhere") "out.txt") emptyWorld
              eq_refl eq_refl eq_refl eq_refl eq_refl)
    as (n & Hn & Hmiss).
  injection Hn as <-. exact (Hmiss eq_refl).
Defined.

(** ** Failures and tokens in [executeQuery] *)

(** What [executeQuery] leaves alone after resolution, and what it may
    have done to the directory. *)
Lemma afterResolution_effects question0 options s0 w0 :
  activeSession w0 = Some s0 ->
  exists r w',
    tryCatch (afterResolution question0 options s0) (onFailure question0) w0
      = (Returned r, w')
    /\ readonly w' = readonly w0 /\ uuids w' = uuids w0
    /\ uuidsDrawn w' = uuidsDrawn w0 /\ clock w' = clock w0
    /\ queries w' = callOf question0 options s0 :: queries w0
    /\ (files w' = files w0
        \/ exists s2, files w' = <[getSessionPath (name s0) := Encoded s2]> (files w0)
                      /\ name s2 = name s0 /\ type s2 = type s0 /\ id s2 = id s0).
Proof.
  intros Hact.
  pose proof (fold_stepMessage_static
                (events (engine w0 {| prompt := question0;
                                      resume := resumeOption (noHistory options) s0 |}))
                (s0, EmptyString, false)) as (Hname & Htype & Hid & _).
  run_exchange. unfold callOf.
  destruct (fold_left stepMessage _ _) as [[s1 text] err] eqn:Hfold.
  simpl in Hname, Htype, Hid.
  destruct (failure _) as [msg|].
  { eexists _, _. split; [reflexivity|]. repeat (split; [reflexivity|]). by left. }
  destruct (noHistory options).
  { destruct err; eexists _, _; (split; [reflexivity|]);
      repeat (split; [reflexivity|]); by left. }
  rewrite bind_eq_Async. unfold mret at 1, Async_ret.
  rewrite bind_eq_Async, bind_eq_Async. unfold newDate at 1.
  rewrite bind_eq_Async. unfold aliasWrite, setActiveSession at 1.
  unfold saveSession, fs_writeFile. cbn [readonly withManager withEnv name withLastUsed].
  rewrite Hname.
  destruct (decide (getSessionPath (name s0) ∈ readonly w0)).
  - eexists _, _. split; [reflexivity|]. repeat (split; [reflexivity|]). by left.
  - destruct err; eexists _, _; (split; [reflexivity|]);
      repeat (split; [reflexivity|]);
      right; eexists; (split; [reflexivity|]); by repeat split.
Qed.

(** X9: when the engine throws, also after it has sent a [result]
    message, [executeQuery] returns a failure with exit code 1, writes
    [Error: <message>], keeps the question for [--retry] and saves
    nothing: the directory is as resolution left it, whether the exchange
    was ephemeral or not. *)
Theorem engine_exception_saves_nothing (question0 : string) (options : CLIOptions)
    (w w0 : World) (s0 : SessionMetadata) (msg : string) :
  getActiveSession (selectionOf options (envShellPID w)) w = (Returned s0, w0) ->
  failure (replyOf question0 options s0 w0) = Some msg ->
  exists w',
    executeQuery question0 options w = (Returned {| success := false; exitCode := 1 |}, w')
    /\ files w' = files w0 /\ fsCalls w' = fsCalls w0
    /\ lastFailedQuestion w' = Some question0
    /\ stderr w' = ("Error: " +:+ msg) :: stderr w0
    /\ queries w' = callOf question0 options s0 :: queries w0.
Proof.
  intros Hres Hfail. pose proof (getActiveSession_active _ _ _ _ Hres) as Hact.
  rewrite executeQuery_eq, Hres. unfold replyOf, callOf in *.
  run_exchange.
  destruct (fold_left stepMessage _ _) as [[s1 text] err].
  rewrite Hfail. eexists. split; [reflexivity|]. by repeat split.
Qed.

Lemma engine_exception_saves_nothing_witness :
  exists w',
    executeQuery "hi" (askOptions false) crashWorld
      = (Returned {| success := false; exitCode := 1 |}, w')
    /\ files w' = files (getActiveSession (selectionOf (askOptions false) (Some "4242"))
                                          crashWorld).2
    /\ lastFailedQuestion w' = Some "hi"
    /\ stderr w' = ["Error: socket hang up"].
Proof.
  destruct (engine_exception_saves_nothing "hi" (askOptions false) crashWorld
              (getActiveSession (selectionOf (askOptions false) (Some "4242"))
                                crashWorld).2
              (freshSession "global" global None crashWorld) "socket hang up")
    as (w' & Hrun & Hfiles & _ & Hlast & Herr & _).
  - vm_compute. reflexivity.
  - reflexivity.
  - exists w'. by repeat split.
Defined.

(** X10: a storage failure inside [executeQuery] ends the command with exit
    code 1 and makes the question the one to retry.  When the session
    cannot be created, no query is submitted at all; when the engine
    answered (even without error) and the record cannot be saved
    afterwards, the answer was obtained but the command still fails, and
    the file is unchanged. *)
Theorem storage_failure_fails_the_query (question0 : string) (options : CLIOptions)
    (w : World) :
  (forall e w0,
     getActiveSession (selectionOf options (envShellPID w)) w = (Thrown e, w0) ->
     exists w',
       executeQuery question0 options w
         = (Returned {| success := false; exitCode := 1 |}, w')
       /\ files w' = files w /\ queries w' = queries w
       /\ lastFailedQuestion w' = Some question0)
  /\ (forall s0 w0,
        getActiveSession (selectionOf options (envShellPID w)) w = (Returned s0, w0) ->
        noHistory options = false ->
        failure (replyOf question0 options s0 w0) = None ->
        getSessionPath (name s0) ∈ readonly w0 ->
        exists w',
          executeQuery question0 options w
            = (Returned {| success := false; exitCode := 1 |}, w')
          /\ files w' = files w0
          /\ queries w' = callOf question0 options s0 :: queries w0
          /\ lastFailedQuestion w' = Some question0).
Proof.
  split.
  - intros e w0 Hres. rewrite executeQuery_eq, Hres.
    eexists. split; [reflexivity|]. simpl.
    revert Hres. rewrite getActiveSession_eq.
    destruct (resolution _) as [[[n t] pid] force].
    destruct (loadOrCreate_cases n t pid force w)
      as [(s & _ & _ & ->)|[(_ & _ & ->)|(_ & _ & ->)]]; simpl; try discriminate.
    by intros [= <- <-].
  - intros s0 w0 Hres Hno Hfail Hro.
    pose proof (getActiveSession_active _ _ _ _ Hres) as Hact.
    rewrite executeQuery_eq, Hres. unfold replyOf, callOf in *.
    pose proof (fold_stepMessage_static
                  (events (engine w0 {| prompt := question0;
                                        resume := resumeOption (noHistory options) s0 |}))
                  (s0, EmptyString, false)) as (Hname & _).
    run_exchange.
    destruct (fold_left stepMessage _ _) as [[s1 text] err]. simpl in Hname.
    rewrite Hfail, Hno.
    rewrite bind_eq_Async. unfold mret at 1, Async_ret.
    rewrite bind_eq_Async, bind_eq_Async. unfold newDate at 1.
    rewrite bind_eq_Async. unfold aliasWrite, setActiveSession at 1.
    unfold saveSession, fs_writeFile. cbn [readonly withManager withEnv name withLastUsed].
    rewrite Hname.
    destruct (decide (getSessionPath (name s0) ∈ readonly w0)); [|done].
    eexists. split; [reflexivity|]. by repeat split.
Qed.

Lemma storage_failure_fails_the_query_witness :
  exists w',
    executeQuery "hi" (askOptions false) lockedTalkWorld
      = (Returned {| success := false; exitCode := 1 |}, w')
    /\ files w' = files lockedTalkWorld /\ queries w' = queries lockedTalkWorld
    /\ lastFailedQuestion w' = Some "hi".
Proof.
  refine (proj1 (storage_failure_fails_the_query "hi" (askOptions false) lockedTalkWorld)
            (EACCES "global.json")
            (getActiveSession (selectionOf (askOptions false) (Some "4242"))
                              lockedTalkWorld).2 _).
  vm_compute. reflexivity.
Defined.

Lemma fold_stepMessage_flags evs : forall st,
  sdkSessionId (fold_left stepMessage evs st).1.1 = lastInit evs (sdkSessionId st.1.1)
  /\ (fold_left stepMessage evs st).2
     = fold_left (fun b m => match m with Result _ _ e => e | _ => b end) evs st.2.
Proof.
  unfold lastInit. induction evs as [|m evs IH]; intros st; [done|].
  cbn [fold_left]. destruct (IH (stepMessage st m)) as [-> ->].
  destruct st as [[s text] err], m as [sid|content|n u e|]; simpl; try done.
  unfold applyResult. by destruct u.
Qed.

(** X11: the session id that the engine announces in its last [init]
    message is saved with the session, and the next [executeQuery] on the
    same session sends it back as the [resume] option; the first query
    carries the id that the directory held. *)
Theorem resume_token_carried_over (q1 q2 : string) (options : CLIOptions)
    (n sid : string) (s : SessionMetadata) (w : World) :
  session options = Some n -> truthy n = true ->
  is_set (newSession options) = false -> noHistory options = false ->
  files w !! getSessionPath n = Some (Encoded s) -> name s = n ->
  getSessionPath n ∉ readonly w ->
  failure (engine w {| prompt := q1; resume := resumeOption false s |}) = None ->
  lastInit (events (engine w {| prompt := q1; resume := resumeOption false s |}))
           (sdkSessionId s) = Some sid ->
  truthy sid = true ->
  exists r1 w1 r2 w2 s',
    executeQuery q1 options w = (Returned r1, w1)
    /\ queries w1 = {| prompt := q1; resume := resumeOption false s |} :: queries w
    /\ loadSessionFromDisk n w1 = (Returned (Some s'), w1)
    /\ sdkSessionId s' = Some sid
    /\ executeQuery q2 options w1 = (Returned r2, w2)
    /\ queries w2 = {| prompt := q2; resume := Some sid |} :: queries w1.
Proof.
  intros Hs Hn Hnew Hno Hfile Hname Hro Hfail Hinit Hsid.
  assert (Hres : forall pid, resolution (selectionOf options pid) = (n, named, None, false)).
  { intros pid. unfold resolution, selectionOf.
    cbn [sessionName selType shellPID forceNew]. rewrite Hnew, Hs.
    unfold or_else, is_set, the. by rewrite !Hn. }
  rewrite executeQuery_eq, getActiveSession_eq, Hres. unfold loadOrCreate.
  rewrite Hfile. cbn [parseFile activate].
  set (w0 := withManager (Some s) (lastFailedQuestion w) w).
  assert (Hro0 : getSessionPath (name s) ∉ readonly w0) by by rewrite Hname.
  pose proof (afterResolution_saved q1 options s w0 Hno eq_refl) as Hsaved.
  unfold replyOf, exchanged, afterEvents, callOf in Hsaved. rewrite Hno in Hsaved.
  cbn [engine w0 withManager] in Hsaved. specialize (Hsaved Hfail Hro0).
  pose proof (fold_stepMessage_flags
                (events (engine w {| prompt := q1; resume := resumeOption false s |}))
                (s, EmptyString, false)) as [Hsdk _].
  destruct (fold_left stepMessage _ _) as [[s1 text] err]. cbn [fst] in Hsdk.
  rewrite Hinit in Hsdk.
  destruct Hsaved as (w1 & Hrun & _ & Hfiles & _ & _ & Hq).
  rewrite Hname in Hfiles.
  eexists _, w1. rewrite Hrun.
  destruct (afterResolution_effects q2 options
              (jsonView (withLastUsed (nextInstant w0) s1))
              (withManager (Some (jsonView (withLastUsed (nextInstant w0) s1)))
                           (lastFailedQuestion w1) w1) eq_refl)
    as (r2 & w2 & Hrun2 & _ & _ & _ & _ & Hq2 & _).
  exists r2, w2, (jsonView (withLastUsed (nextInstant w0) s1)).
  split; [reflexivity|]. split; [exact Hq|].
  split; [rewrite loadSessionFromDisk_eq, Hfiles, lookup_insert_eq; reflexivity|].
  split; [exact Hsdk|].
  rewrite executeQuery_eq, getActiveSession_eq, Hres. unfold loadOrCreate.
  rewrite Hfiles, lookup_insert_eq. cbn [parseFile activate].
  rewrite Hrun2. split; [reflexivity|]. rewrite Hq2. simpl.
  unfold callOf, resumeOption. rewrite Hno. simpl. by rewrite Hsdk, Hsid.
Qed.

Lemma resume_token_carried_over_witness :
  exists r1 w1 r2 w2 s',
    executeQuery "hi" (sessionOptions "topic") topicTalkWorld = (Returned r1, w1)
    /\ queries w1 = [{| prompt := "hi"; resume := None |}]
    /\ loadSessionFromDisk "topic" w1 = (Returned (Some s'), w1)
    /\ sdkSessionId s' = Some "sdk-1"
    /\ executeQuery "more" (sessionOptions "topic") w1 = (Returned r2, w2)
    /\ queries w2 = {| prompt := "more"; resume := Some "sdk-1" |} :: queries w1.
Proof.
  apply (resume_token_carried_over "hi" "more" (sessionOptions "topic") "topic" "sdk-1"
           (sampleSession "topic" named 0) topicTalkWorld); try reflexivity.
  vm_compute. intros H. discriminate H.
Defined.

(** X12: when the engine does not throw and the record can be saved (or
    the exchange is ephemeral), the outcome of [executeQuery] follows the
    [is_error] flag of the last [result] message alone: exit code 1 and
    the question kept for [--retry] if it is set, exit code 0 and the
    retry slot untouched otherwise, in particular when the stream carries
    no [result] message at all. *)
Theorem exit_code_follows_last_result (question0 : string) (options : CLIOptions)
    (w w0 : World) (s0 : SessionMetadata) :
  getActiveSession (selectionOf options (envShellPID w)) w = (Returned s0, w0) ->
  failure (replyOf question0 options s0 w0) = None ->
  (noHistory options = false -> getSessionPath (name s0) ∉ readonly w0) ->
  let e := lastResultError (events (replyOf question0 options s0 w0)) in
  exists w',
    executeQuery question0 options w
      = (Returned {| success := negb e; exitCode := if e then 1 else 0 |}, w')
    /\ lastFailedQuestion w'
       = (if e then Some question0 else lastFailedQuestion w0)
    /\ stderr w' = stderr w0.
Proof.
  intros Hres Hfail Hro e. pose proof (getActiveSession_active _ _ _ _ Hres) as Hact.
  rewrite executeQuery_eq, Hres.
  assert (Herr : (fold_left stepMessage (events (replyOf question0 options s0 w0))
                            (s0, EmptyString, false)).2 = e).
  { subst e. unfold lastResultError. apply fold_stepMessage_flags. }
  clearbody e.
  destruct (noHistory options) eqn:Hno.
  - clear Hro. unfold replyOf, callOf in *. run_exchange.
    destruct (fold_left stepMessage _ _) as [[s1 text] err]. simpl in Herr. subst err.
    rewrite Hfail, Hno. destruct e; eexists; (split; [reflexivity|]); by split.
  - specialize (Hro eq_refl). unfold replyOf, callOf in *.
    pose proof (fold_stepMessage_static
                  (events (engine w0 {| prompt := question0;
                                        resume := resumeOption (noHistory options) s0 |}))
                  (s0, EmptyString, false)) as (Hname & _).
    run_exchange.
    destruct (fold_left stepMessage _ _) as [[s1 text] err].
    simpl in Herr, Hname. subst err.
    rewrite Hfail, Hno.
    rewrite bind_eq_Async. unfold mret at 1, Async_ret.
    rewrite bind_eq_Async, bind_eq_Async. unfold newDate at 1.
    rewrite bind_eq_Async. unfold aliasWrite, setActiveSession at 1.
    unfold saveSession, fs_writeFile. cbn [readonly withManager withEnv name withLastUsed].
    rewrite Hname.
    destruct (decide (getSessionPath (name s0) ∈ readonly w0)); [done|].
    destruct e; eexists; (split; [reflexivity|]); by split.
Qed.

Lemma exit_code_follows_last_result_witness :
  exists w',
    executeQuery "hi" (askOptions false) emptyWorld
      = (Returned {| success := true; exitCode := 0 |}, w')
    /\ lastFailedQuestion w' = None /\ stderr w' = [].
Proof.
  refine (exit_code_follows_last_result "hi" (askOptions false) emptyWorld
            (getActiveSession (selectionOf (askOptions false) (Some "4242"))
                              emptyWorld).2
            (freshSession "global" global None emptyWorld) _ _ _).
  - vm_compute. reflexivity.
  - reflexivity.
  - intros _. vm_compute. intros H. discriminate H.
Defined.

(** ** [main] *)

(** X13: [--help] wins over everything and [--version] over everything
    but [--help]: [main] exits with 0 without sweeping, reading or writing
    anything.  With no command and no question (or an empty one), it runs
    the expiry sweep, submits no query and exits with 1. *)
Theorem main_without_work (options : CLIOptions) (w : World) :
  (help options = true -> main options w = (Returned 0, w))
  /\ (help options = false -> version options = true ->
      main options w = (Returned 0, w))
  /\ (help options = false -> version options = false ->
      configCommand options = false ->
      listSessions options || sessionInfo options || clear options
        || clearAll options || is_set (export options) = false ->
      retry options = false -> is_set (question options) = false ->
      main options w = (Returned 1, (cleanupExpiredSessions w).2)
      /\ queries (cleanupExpiredSessions w).2 = queries w
      /\ stderr (cleanupExpiredSessions w).2 = stderr w).
Proof.
  split; [|split].
  - intros Hh. unfold main, tryCatch. by rewrite Hh.
  - intros Hh Hv. unfold main, tryCatch. by rewrite Hh, Hv.
  - intros Hh Hv Hc Hcmd Hr Hq.
    destruct (cleanupExpiredSessions_returns w) as (n & w1 & Hsweep & Hfr).
    unfold main, tryCatch. rewrite Hh, Hv, bind_eq_Async, Hsweep.
    rewrite Hc, Hcmd, bind_eq_Async, Hr. unfold mret at 1, Async_ret. rewrite Hq.
    simpl. split; [reflexivity|].
    split; [apply (frame_queries _ _ Hfr) | apply (frame_stderr _ _ Hfr)].
Qed.

Lemma main_without_work_witness :
  main {| question := Some EmptyString; session := None; newSession := None;
          noHistory := false; listSessions := false; sessionInfo := false;
          clear := false; clearAll := false; export := None; retry := false;
          help := false; version := false; configCommand := false |} emptyWorld
  = (Returned 1, (cleanupExpiredSessions emptyWorld).2)
  /\ queries (cleanupExpiredSessions emptyWorld).2 = []
  /\ stderr (cleanupExpiredSessions emptyWorld).2 = [].
Proof.
  apply (proj2 (proj2 (main_without_work _ emptyWorld))); reflexivity.
Defined.

(** ** The listing on a canonical directory *)




(** ** What every command keeps *)

Lemma invariant_shrink w w' :
  uuids w' = uuids w -> (uuidsDrawn w <= uuidsDrawn w')%nat ->
  (forall p, files w' !! p = None \/ files w' !! p = files w !! p) ->
  storeInvariant w -> storeInvariant w'.
Proof.
  intros Hu Hd Hsub (Hnamed & [Hinj Hiss] & Hdist).
  assert (Hin : forall p s, files w' !! p = Some (Encoded s) ->
                            files w !! p = Some (Encoded s)).
  { intros p s Hs. destruct (Hsub p) as [H|H]; congruence. }
  split; [|split; [split|]].
  - intros p s Hs. apply Hnamed. auto.
  - by rewrite Hu.
  - intros p s Hs. rewrite Hu. destruct (Hiss p s (Hin p s Hs)) as (i & Hlt & Hi).
    exists i. split; [lia | exact Hi].
  - intros p1 p2 s1 s2 H1 H2. apply Hdist; auto.
Qed.

Ltac same_store w :=
  apply (invariant_shrink w);
  [ reflexivity | simpl; lia | intros ?; right; reflexivity | assumption ].

Lemma invariant_create w w' n s :
  uuids w' = uuids w -> uuidsDrawn w' = S (uuidsDrawn w) ->
  files w' = <[getSessionPath n := Encoded s]> (files w) ->
  name s = n -> id s = uuids w (uuidsDrawn w) ->
  storeInvariant w -> storeInvariant w'.
Proof.
  intros Hu Hd Hf Hname Hid (Hnamed & [Hinj Hiss] & Hdist).
  assert (Hfresh : forall p x, files w !! p = Some (Encoded x) -> id x <> id s).
  { intros p x Hx Heq. destruct (Hiss p x Hx) as (i & Hlt & Hi).
    rewrite Hi, Hid in Heq. apply Hinj in Heq. lia. }
  split; [|split; [split|]].
  - intros p x. rewrite Hf. intros Hx.
    apply lookup_insert_Some in Hx as [[<- [= <-]]|[_ Hx]]; [by rewrite Hname | auto].
  - by rewrite Hu.
  - intros p x. rewrite Hf, Hu, Hd. intros Hx.
    apply lookup_insert_Some in Hx as [[_ [= <-]]|[_ Hx]].
    + exists (uuidsDrawn w). split; [lia | exact Hid].
    + destruct (Hiss p x Hx) as (i & Hlt & Hi). exists i. split; [lia | exact Hi].
  - intros p1 p2 s1 s2. rewrite Hf. intros H1 H2 Heq.
    apply lookup_insert_Some in H1 as [[<- [= <-]]|[Hn1 H1]];
      apply lookup_insert_Some in H2 as [[<- [= <-]]|[Hn2 H2]]; try done.
    + exfalso. by apply (Hfresh _ _ H2).
    + exfalso. by apply (Hfresh _ _ H1).
    + by apply (Hdist p1 p2 s1 s2).
Qed.

Lemma invariant_update w w' p x s :
  uuids w' = uuids w -> uuidsDrawn w' = uuidsDrawn w ->
  files w !! p = Some (Encoded x) ->
  files w' = <[p := Encoded s]> (files w) ->
  name s = name x -> id s = id x ->
  storeInvariant w -> storeInvariant w'.
Proof.
  intros Hu Hd Hx Hf Hname Hid (Hnamed & [Hinj Hiss] & Hdist).
  split; [|split; [split|]].
  - intros q y. rewrite Hf. intros Hy.
    apply lookup_insert_Some in Hy as [[<- [= <-]]|[_ Hy]]; [|auto].
    rewrite Hname. by apply Hnamed.
  - by rewrite Hu.
  - intros q y. rewrite Hf, Hu, Hd. intros Hy.
    apply lookup_insert_Some in Hy as [[<- [= <-]]|[_ Hy]]; [|eauto].
    rewrite Hid. eauto.
  - intros p1 p2 s1 s2. rewrite Hf. intros H1 H2 Heq.
    apply lookup_insert_Some in H1 as [[<- [= <-]]|[Hn1 H1]];
      apply lookup_insert_Some in H2 as [[<- [= <-]]|[Hn2 H2]]; try done.
    + rewrite Hid in Heq. by apply (Hdist p p2 x s2).
    + rewrite Hid in Heq. by apply (Hdist p1 p s1 x).
    + by apply (Hdist p1 p2 s1 s2).
Qed.

Lemma getActiveSession_invariant options w r w0 :
  getActiveSession options w = (r, w0) -> storeInvariant w ->
  storeInvariant w0
  /\ (forall s0, r = Returned s0 ->
        exists x, files w0 !! getSessionPath (name s0) = Some (Encoded x)
                  /\ name x = name s0 /\ id x = id s0).
Proof.
  rewrite getActiveSession_eq. destruct (resolution options) as [[[n t] pid] force].
  intros Hrun Hinv.
  destruct (loadOrCreate_cases n t pid force w)
    as [(s & _ & Hs & Heq)|[(_ & _ & Heq)|(_ & _ & Heq)]];
    rewrite Heq in Hrun; simpl in Hrun; injection Hrun as <- <-.
  - split; [same_store w|].
    intros s0 [= <-]. exists s. simpl.
    destruct Hinv as (Hnamed & _). rewrite <- (Hnamed _ _ Hs). by repeat split.
  - split.
    + eapply (invariant_create w _ n (jsonView (freshSession n t pid w))); eauto.
    + intros s0 [= <-]. eexists. simpl. rewrite lookup_insert_eq. by repeat split.
  - split; [same_store w|]. intros s0 H. discriminate H.
Qed.

Lemma executeQuery_invariant question0 options w :
  storeInvariant w -> storeInvariant (executeQuery question0 options w).2.
Proof.
  intros Hinv. rewrite executeQuery_eq.
  destruct (getActiveSession _ w) as [r w0] eqn:Hres.
  destruct (getActiveSession_invariant _ _ _ _ Hres Hinv) as [Hinv0 Hat].
  destruct r as [s0|e].
  - pose proof (getActiveSession_active _ _ _ _ Hres) as Hact.
    destruct (Hat s0 eq_refl) as (x & Hx & Hname & Hid).
    destruct (afterResolution_effects question0 options s0 w0 Hact)
      as (r' & w' & -> & _ & Hu & Hd & _ & _ & [Hsame|(s2 & Hins & Hn2 & _ & Hi2)]); simpl.
    + apply (invariant_shrink w0); [exact Hu | lia | | done].
      intros p. right. by rewrite Hsame.
    + apply (invariant_update w0 w' (getSessionPath (name s0)) x s2); auto; congruence.
  - simpl. same_store w0.
Qed.

Lemma deleteLoop_invariant P body l c w :
  (forall c s w, body c s w = deleteStep P c s w) ->
  storeInvariant w -> storeInvariant (forOf l body c w).2.
Proof.
  intros Hbody Hinv.
  destruct (deleteLoop_spec P body l Hbody c w) as (n & w' & -> & Hfr & Hfiles & _).
  simpl. apply (invariant_shrink w);
    [apply Hfr | rewrite (frame_uuidsDrawn _ _ Hfr); lia | | done].
  intros p. rewrite Hfiles. case_bool_decide; auto.
Qed.

Lemma cleanupExpiredSessions_invariant w :
  storeInvariant w -> storeInvariant (cleanupExpiredSessions w).2.
Proof.
  intros Hinv. rewrite cleanupExpiredSessions_eq.
  destruct (autoCleanup (sessions w)); [|done].
  apply (deleteLoop_invariant (shouldDelete (sessions w) (nextInstant w)));
    [apply deleteStep_sweep|].
  same_store w.
Qed.

Lemma deleteSession_invariant n w :
  storeInvariant w -> storeInvariant (deleteSession n w).2.
Proof.
  intros Hinv. rewrite deleteSession_eq. destruct (deletable _ w); simpl.
  - apply (invariant_shrink w);
      [apply afterDelete_frame
      | rewrite (frame_uuidsDrawn _ _ (afterDelete_frame n w)); lia | | done].
    intros p. rewrite afterDelete_files.
    destruct (decide (p = getSessionPath n)) as [->|Hne].
    + left. apply lookup_delete_eq.
    + right. by apply lookup_delete_ne.
  - same_store w.
Qed.

Lemma handleSessionCommands_invariant options w :
  storeInvariant w -> storeInvariant (handleSessionCommands options w).2.
Proof.
  intros Hinv. unfold handleSessionCommands, tryCatch.
  destruct (listSessions options).
  { rewrite bind_eq_Async. unfold formatSessionList.
    rewrite bind_eq_Async, listAllSessions_eq. exact Hinv. }
  destruct (sessionInfo options).
  { rewrite bind_eq_Async. unfold formatSessionInfo.
    destruct (is_set (session options)); [|exact Hinv].
    rewrite bind_eq_Async, loadSessionFromDisk_eq. exact Hinv. }
  destruct (clear options).
  { rewrite bind_eq_Async, targetName_eq, bind_eq_Async.
    set (n := if is_set (session options) then _ else _).
    pose proof (deleteSession_invariant n w Hinv) as Hdel.
    destruct (deleteSession n w) as [[[|]|e] w1]; simpl in *; exact Hdel. }
  destruct (clearAll options).
  { rewrite bind_eq_Async, listAllSessions_eq, bind_eq_Async.
    match goal with
    | |- context [forOf ?l ?b 0 w] =>
        pose proof (deleteLoop_invariant (fun _ => true) b l 0 w) as Hloop;
        destruct (forOf l b 0 w) as [[k|e] w1]
    end; simpl in *; apply Hloop; try done;
      intros c s w0; unfold deleteStep; rewrite bind_eq_Async;
      by destruct (deleteSession (name s) w0) as [[b|e'] w2]. }
  destruct (is_set (export options)).
  { rewrite bind_eq_Async, targetName_eq, bind_eq_Async.
    unfold exportSession. rewrite bind_eq_Async, loadSessionFromDisk_eq.
    destruct (parseFile _); simpl; [exact Hinv|].
    same_store w. }
  exact Hinv.
Qed.

(** X15: every command keeps the directory in shape.  If each session
    sits in the file of its name with an identifier of its own that
    [randomUUID] issued, and [randomUUID] does not repeat itself, this is
    still so after a resolution, after [executeQuery], after a deletion,
    after the expiry sweep, after a session command and after a whole run
    of [main], whatever the options, the engine's reply and the storage
    failures. *)
Theorem commands_keep_store_invariant (w : World) :
  storeInvariant w ->
  (forall options, storeInvariant (getActiveSession options w).2)
  /\ (forall question0 options, storeInvariant (executeQuery question0 options w).2)
  /\ (forall n, storeInvariant (deleteSession n w).2)
  /\ (forall t, storeInvariant (deleteSessionsByType t w).2)
  /\ storeInvariant (cleanupExpiredSessions w).2
  /\ (forall options, storeInvariant (handleSessionCommands options w).2)
  /\ (forall options, storeInvariant (main options w).2).
Proof.
  intros Hinv. split; [|split; [|split; [|split; [|split; [|split]]]]].
  - intros options. destruct (getActiveSession options w) as [r w0] eqn:Hres.
    by destruct (getActiveSession_invariant _ _ _ _ Hres Hinv).
  - intros question0 options. by apply executeQuery_invariant.
  - intros n. by apply deleteSession_invariant.
  - intros t. unfold deleteSessionsByType. rewrite bind_eq_Async, listAllSessions_eq.
    apply (deleteLoop_invariant (fun s => bool_decide (type s = t))); [|done].
    intros c s w0. unfold deleteStep. destruct (decide (type s = t)) as [Ht|Ht].
    + rewrite bool_decide_eq_true_2 by done. rewrite bind_eq_Async.
      by destruct (deleteSession (name s) w0) as [[b|e] w1].
    + by rewrite bool_decide_eq_false_2.
  - by apply cleanupExpiredSessions_invariant.
  - intros options. by apply handleSessionCommands_invariant.
  - intros options. unfold main, tryCatch.
    destruct (help options); [exact Hinv|].
    destruct (version options); [exact Hinv|].
    rewrite bind_eq_Async.
    pose proof (cleanupExpiredSessions_invariant w Hinv) as Hsweep.
    destruct (cleanupExpiredSessions_returns w) as (k & w1 & Hrun & _).
    rewrite Hrun in *. simpl in Hsweep.
    destruct (configCommand options); [exact Hsweep|].
    destruct (listSessions options || sessionInfo options || clear options
              || clearAll options || is_set (export options)).
    { rewrite bind_eq_Async.
      pose proof (handleSessionCommands_invariant options w1 Hsweep) as Hcmd.
      by destruct (handleSessionCommands options w1) as [[r|e] w2]. }
    rewrite bind_eq_Async.
    destruct (retry options).
    + rewrite bind_eq_Async. unfold getLastFailedQuestion at 1.
      destruct (is_set (lastFailedQuestion w1)).
      * unfold mret at 1, Async_ret. destruct (is_set (lastFailedQuestion w1)).
        -- rewrite bind_eq_Async.
           pose proof (executeQuery_invariant (the (lastFailedQuestion w1)) options w1 Hsweep)
             as Hq.
           by destruct (executeQuery _ options w1) as [[r|e] w2].
        -- exact Hsweep.
      * simpl. same_store w1.
    + unfold mret at 1, Async_ret. destruct (is_set (question options)).
      * rewrite bind_eq_Async.
        pose proof (executeQuery_invariant (the (question options)) options w1 Hsweep) as Hq.
        by destruct (executeQuery _ options w1) as [[r|e] w2].
      * exact Hsweep.
Qed.

Lemma emptyWorld_storeInvariant : storeInvariant emptyWorld.
Proof.
  split; [exact emptyWorld_storeNamed|]. split; [split|].
  - simpl. apply _.
  - intros p s Hs. simpl in Hs. by rewrite lookup_empty in Hs.
  - intros p1 p2 s1 s2 H1. simpl in H1. by rewrite lookup_empty in H1.
Qed.

Lemma commands_keep_store_invariant_witness :
  storeInvariant (main (askOptions false) emptyWorld).2
  /\ storeInvariant (executeQuery "hi" (sessionOptions "topic") emptyWorld).2.
Proof.
  destruct (commands_keep_store_invariant emptyWorld emptyWorld_storeInvariant)
    as (_ & Hq & _ & _ & _ & _ & Hmain).
  split; [apply Hmain | apply Hq].
Defined.

(** ** Relative times *)


(** ** Command line arguments *)

Lemma startsWith_dash_eqb (a flag : string) :
  startsWith "-" a = false -> startsWith "-" flag = true -> String.eqb a flag = false.
Proof.
  intros Ha Hf. apply String.eqb_neq. intros ->. congruence.
Qed.

Lemma positional_no_flag a :
  startsWith "-" a = false ->
  valueFlag a = None /\ switchFlag a = None /\ startsWith "--" a = false.
Proof.
  intros Ha. split; [|split].
  - unfold valueFlag.
    repeat match goal with
           | |- context [String.eqb a ?flag] =>
               rewrite (startsWith_dash_eqb a flag Ha eq_refl)
           end.
    reflexivity.
  - unfold switchFlag.
    repeat match goal with
           | |- context [String.eqb a ?flag] =>
               rewrite (startsWith_dash_eqb a flag Ha eq_refl)
           end.
    reflexivity.
  - destruct a as [|c a]; [reflexivity|].
    change (startsWith "-" (String c a)) with (if Ascii.eqb "-" c then true else false) in Ha.
    change (startsWith "--" (String c a))
      with (if Ascii.eqb "-" c then startsWith "-" a else false).
    destruct (Ascii.eqb "-" c); [discriminate Ha | reflexivity].
Qed.

Lemma parseLoop_positional args : forall options parts,
  Forall (fun a => startsWith "-" a = false) args ->
  parseLoop args options parts = (options, parts ++ args).
Proof.
  induction args as [|a args IH]; intros options parts Hall.
  - by rewrite app_nil_r.
  - apply Forall_cons in Hall as [Ha Hall].
    destruct (positional_no_flag a Ha) as (Hv & Hs & Hd).
    cbn [parseLoop]. rewrite Hv, Hs, Hd, IH by done. by rewrite <- app_assoc.
Qed.

(** X17: when no argument begins with a dash, [parseArgs] sets nothing but
    the question, which is the arguments joined by single spaces; with no
    argument at all it sets nothing. *)
Theorem positional_arguments_make_the_question (args : list string) :
  Forall (fun a => startsWith "-" a = false) args ->
  parseArgs args = match args with
                   | [] => Args.empty
                   | _ => Args.set_question (Some (join args)) Args.empty
                   end.
Proof.
  intros Hall. unfold parseArgs. rewrite parseLoop_positional by done.
  reflexivity.
Qed.

Lemma positional_arguments_make_the_question_witness :
  parseArgs ["what"; "is"; "git"; "stash?"]
  = Args.set_question (Some "what is git stash?") Args.empty.
Proof.
  apply (positional_arguments_make_the_question ["what"; "is"; "git"; "stash?"]).
  repeat constructor.
Defined.

Lemma valueFlag_keeps_question a set :
  valueFlag a = Some set ->
  forall v o, Args.question (set v o) = Args.question o.
Proof.
  unfold valueFlag.
  repeat match goal with
         | |- context [if ?b then _ else _] => destruct b
         end; intros [= <-]; reflexivity.
Qed.

Lemma switchFlag_keeps_question a set :
  switchFlag a = Some set ->
  forall o, Args.question (set o) = Args.question o.
Proof.
  unfold switchFlag.
  repeat match goal with
         | |- context [if ?b then _ else _] => destruct b
         end; intros [= <-]; reflexivity.
Qed.

Lemma parseLoop_question args : forall options parts,
  exists words,
    (parseLoop args options parts).2 = parts ++ words
    /\ sublist words args
    /\ Forall (fun a => startsWith "--" a = false
                        /\ valueFlag a = None /\ switchFlag a = None) words
    /\ Args.question (parseLoop args options parts).1 = Args.question options.
Proof.
  remember (length args) as n eqn:Hn.
  assert (Hle : (length args <= n)%nat) by lia. clear Hn. revert args Hle.
  induction n as [|n IHn]; intros args Hle options parts.
  { destruct args as [|a args]; [|simpl in Hle; lia].
    exists []. simpl. rewrite app_nil_r. repeat split; constructor. }
  destruct args as [|a args].
  { exists []. simpl. rewrite app_nil_r. repeat split; constructor. }
  simpl in Hle.
  assert (IH : forall rest, (length rest <= length args)%nat ->
            forall options parts, exists words,
              (parseLoop rest options parts).2 = parts ++ words
              /\ sublist words rest
              /\ Forall (fun a => startsWith "--" a = false
                                  /\ valueFlag a = None /\ switchFlag a = None) words
              /\ Args.question (parseLoop rest options parts).1 = Args.question options).
  { intros rest Hrest. apply IHn. lia. }
  clear IHn Hle.
  - idtac.
    cbn [parseLoop]. destruct (valueFlag a) as [set|] eqn:Hv.
    + destruct args as [|value rest].
      * exists []. simpl. rewrite app_nil_r.
        split; [reflexivity|]. split; [apply sublist_nil_l|]. split; [constructor|].
        by apply (valueFlag_keeps_question a).
      * destruct (IH rest ltac:(simpl; lia) (set (Some value) options) parts)
          as (words & Hq & Hsub & Hall & Hquestion).
        exists words. split; [exact Hq|].
        split; [by do 2 apply sublist_cons|]. split; [exact Hall|].
        rewrite Hquestion. by apply (valueFlag_keeps_question a).
    + destruct (switchFlag a) as [set|] eqn:Hs.
      * destruct (IH args ltac:(simpl; lia) (set options) parts)
          as (words & Hq & Hsub & Hall & Hquestion).
        exists words. split; [exact Hq|]. split; [by apply sublist_cons|].
        split; [exact Hall|]. rewrite Hquestion. by apply (switchFlag_keeps_question a).
      * destruct (startsWith "--" a) eqn:Hd.
        -- destruct (IH args ltac:(simpl; lia) options parts)
             as (words & Hq & Hsub & Hall & Hquestion).
           exists words. split; [exact Hq|]. split; [by apply sublist_cons|]. by split.
        -- destruct (IH args ltac:(simpl; lia) options (parts ++ [a]))
             as (words & Hq & Hsub & Hall & Hquestion).
           exists (a :: words). split; [by rewrite Hq, <- app_assoc|].
           split; [by apply sublist_skip|]. split; [|exact Hquestion].
           by constructor.
Qed.

(** X18: the question [parseArgs] builds is made of arguments only, in
    their order, joined by single spaces, and none of its words is a
    recognised flag or begins with [--]; when no such word is left, the
    question stays undefined. *)
Theorem flags_never_reach_the_question (args : list string) :
  exists words,
    sublist words args
    /\ Forall (fun a => startsWith "--" a = false
                        /\ valueFlag a = None /\ switchFlag a = None) words
    /\ Args.question (parseArgs args)
       = match words with
         | [] => None
         | _ => Some (join words)
         end.
Proof.
  destruct (parseLoop_question args Args.empty []) as (words & Hq & Hsub & Hall & Hquestion).
  exists words. split; [exact Hsub|]. split; [exact Hall|].
  unfold parseArgs. destruct (parseLoop args Args.empty []) as [options parts].
  simpl in Hq, Hquestion. subst parts.
  destruct words as [|word words]; [exact Hquestion | reflexivity].
Qed.




(** * Properties of the configuration manager *)

Lemma sweepSpares_NaN settings t :
  (t = shell -> parseInt (shellSessionExpiry settings) = None) ->
  (t = named -> parseInt (namedSessionExpiry settings) = None) ->
  sweepSpares settings t.
Proof.
  intros Hs Hn w Hset Hcan.
  destruct (autoCleanup (sessions w)) eqn:Hauto.
  - destruct (cleanupExpiredSessions_enabled w Hauto) as (n & w' & Hrun & _ & Hfiles & _).
    exists n, w'. split; [exact Hrun|]. intros p s0 Hp Ht.
    rewrite Hfiles, bool_decide_eq_false_2; [exact Hp|].
    intros [Hin _]. apply targets_canonical in Hin as (s1 & Hs1 & Hdel); [|exact Hcan].
    rewrite Hp in Hs1. injection Hs1 as <-.
    rewrite shouldDelete_NaN in Hdel; [discriminate| |]; rewrite Hset, Ht; assumption.
  - exists 0, w. split; [by apply cleanupExpiredSessions_disabled|]. auto.
Qed.

Lemma sweepSpares_disabled settings t :
  autoCleanup settings = false -> sweepSpares settings t.
Proof.
  intros Hoff w Hset Hcan. exists 0, w.
  split; [apply cleanupExpiredSessions_disabled; by rewrite Hset | auto].
Qed.

Import ConfigManager.

Lemma bind_eq_Config {A B} (m : Async A) (k : A -> Async B) (w : World) :
  (x ← m; k x) w = match m w with
                   | (Returned a, w') => k a w'
                   | (Thrown e, w') => (Thrown e, w')
                   end.
Proof. reflexivity. Qed.

Lemma withDirectories_same w : withDirectories (directories w) w = w.
Proof. by destruct w. Qed.

(** ** Directories *)

Ltac crun :=
  unfold mbind, Async_bind, mret, Async_ret, tryCatch, throw;
  cbn [directories configFile readOnly defaultPrompts config stderr
       withDirectories withConfigFile withDefaultPrompts withConfig withStderr].

Lemma ensureDirectories_ready w :
  ready w -> ensureDirectories w = (Returned tt, w).
Proof.
  intros Hr. unfold ensureDirectories, forOf, fs_access. crun.
  rewrite !decide_True; [reflexivity| | |]; apply Hr; unfold allDirectories;
    rewrite ?elem_of_union, ?elem_of_singleton; auto.
Qed.

Lemma ensureDirectories_writable w :
  readOnly w = false ->
  ensureDirectories w
  = (Returned tt, withDirectories (allDirectories ∪ directories w) w).
Proof.
  intros Hw. unfold ensureDirectories, forOf, fs_access, fs_mkdir. crun.
  destruct w as [dirs f ro dp c err]; cbn in *; subst ro.
  destruct (decide (baseDir ∈ dirs)) as [Hb|Hb]; cbn;
    (destruct (decide (sessionsDir ∈ _)) as [Hs|Hs]); cbn;
    (destruct (decide (transcriptsDir ∈ _)) as [Ht|Ht]); cbn;
    unfold withDirectories; cbn; do 2 f_equal;
    unfold allDirectories; apply set_eq; intros [];
    rewrite ?elem_of_union, ?elem_of_singleton in *; intuition congruence.
Qed.

Lemma ensureDirectories_blocked w :
  readOnly w = true -> ~ ready w ->
  exists dir, ensureDirectories w = (Thrown (EACCES (pathOf dir)), w).
Proof.
  intros Hw Hr. unfold ensureDirectories, forOf, fs_access, fs_mkdir. crun.
  destruct (decide (baseDir ∈ directories w)) as [Hb|Hb];
    [|rewrite Hw; by eexists].
  destruct (decide (sessionsDir ∈ directories w)) as [Hs|Hs];
    [|rewrite Hw; by eexists].
  destruct (decide (transcriptsDir ∈ directories w)) as [Ht|Ht];
    [|rewrite Hw; by eexists].
  exfalso. apply Hr. unfold ready, allDirectories. intros [];
    rewrite ?elem_of_union, ?elem_of_singleton; intuition congruence.
Qed.

(** ** [saveConfig] and [loadConfig] *)

(** The world after [saveConfig (c)] went through. *)
Lemma saveConfig_writable c w :
  readOnly w = false ->
  saveConfig c w
  = (Returned tt,
     withConfig (Some c)
       (withConfigFile (Some (Encoded (written w c)))
          (withDirectories (allDirectories ∪ directories w) w))).
Proof.
  intros Hw. unfold saveConfig.
  rewrite bind_eq_Config, (ensureDirectories_writable w Hw).
  unfold JSON_stringify, fs_writeFile, setConfig. crun. rewrite Hw.
  rewrite decide_True; [reflexivity|].
  unfold allDirectories. rewrite ?elem_of_union, ?elem_of_singleton. auto.
Qed.

Lemma saveConfig_blocked c w :
  readOnly w = true ->
  exists e, saveConfig c w = (Thrown e, w).
Proof.
  intros Hw. unfold saveConfig. rewrite bind_eq_Config.
  destruct (decide (ready w)) as [Hr|Hr].
  - rewrite (ensureDirectories_ready w Hr).
    unfold JSON_stringify, fs_writeFile. crun. rewrite Hw. by eexists.
  - destruct (ensureDirectories_blocked w Hw Hr) as [dir ->]. by eexists.
Qed.

Lemma loadConfig_cached c w :
  config w = Some c -> loadConfig w = (Returned c, w).
Proof.
  intros Hc. unfold loadConfig, getConfig. rewrite bind_eq_Config, Hc. reflexivity.
Qed.

Lemma loadConfig_file_writable object w :
  config w = None -> configFile w = Some (Encoded object) -> readOnly w = false ->
  loadConfig w
  = (Returned (merged object),
     withConfig (Some (merged object))
       (withDirectories (allDirectories ∪ directories w) w)).
Proof.
  intros Hc Hf Hw. unfold loadConfig, getConfig.
  rewrite bind_eq_Config, Hc, bind_eq_Config, (ensureDirectories_writable w Hw).
  unfold fs_readFile, JSON_parse, setConfig. crun. by rewrite Hf.
Qed.

Lemma loadConfig_file_ready object w :
  config w = None -> configFile w = Some (Encoded object) -> ready w ->
  loadConfig w = (Returned (merged object), withConfig (Some (merged object)) w).
Proof.
  intros Hc Hf Hr. unfold loadConfig, getConfig.
  rewrite bind_eq_Config, Hc, bind_eq_Config, (ensureDirectories_ready w Hr).
  unfold fs_readFile, JSON_parse, setConfig. crun. by rewrite Hf.
Qed.

Lemma loadConfig_unreadable_writable w :
  config w = None -> unreadable w -> readOnly w = false ->
  loadConfig w
  = (Returned DEFAULT_CONFIG,
     withConfig (Some DEFAULT_CONFIG)
       (withConfigFile (Some (Encoded (written w DEFAULT_CONFIG)))
          (withDirectories (allDirectories ∪ directories w) w))).
Proof.
  intros Hc Hf Hw. unfold loadConfig, getConfig.
  rewrite bind_eq_Config, Hc, bind_eq_Config, (ensureDirectories_writable w Hw).
  unfold tryCatch. rewrite bind_eq_Config. unfold fs_readFile.
  cbn [configFile withDirectories].
  assert (Hsave : forall w1, readOnly w1 = false ->
            (_ ← setConfig DEFAULT_CONFIG; _ ← saveConfig DEFAULT_CONFIG;
             mret DEFAULT_CONFIG) w1
            = (Returned DEFAULT_CONFIG,
               withConfig (Some DEFAULT_CONFIG)
                 (withConfigFile (Some (Encoded (written w1 DEFAULT_CONFIG)))
                    (withDirectories (allDirectories ∪ directories w1) w1)))).
  { intros w1 Hw1. rewrite bind_eq_Config. unfold setConfig.
    rewrite bind_eq_Config, saveConfig_writable by exact Hw1. reflexivity. }
  destruct Hf as [-> | ->].
  - rewrite Hsave by exact Hw. cbn [directories withDirectories].
    unfold withConfig, withConfigFile, withDirectories, written.
    cbn [directories configFile readOnly defaultPrompts config stderr tableOf].
    by rewrite (assoc_L (∪)), (idemp_L (∪) allDirectories).
  - unfold JSON_parse, throw. rewrite bind_eq_Config.
    rewrite Hsave by exact Hw. cbn [directories withDirectories].
    unfold withConfig, withConfigFile, withDirectories, written.
    cbn [directories configFile readOnly defaultPrompts config stderr tableOf].
    by rewrite (assoc_L (∪)), (idemp_L (∪) allDirectories).
Qed.

Lemma loadConfig_unreadable_locked w :
  config w = None -> unreadable w -> readOnly w = true -> ready w ->
  loadConfig w
  = (Thrown (EACCES configFilePath), withConfig (Some DEFAULT_CONFIG) w).
Proof.
  intros Hc Hf Hw Hr. unfold loadConfig, getConfig.
  rewrite bind_eq_Config, Hc, bind_eq_Config, (ensureDirectories_ready w Hr).
  unfold tryCatch. rewrite bind_eq_Config. unfold fs_readFile.
  assert (Hsave : (_ ← setConfig DEFAULT_CONFIG; _ ← saveConfig DEFAULT_CONFIG;
                   mret DEFAULT_CONFIG) w
                  = (Thrown (EACCES configFilePath), withConfig (Some DEFAULT_CONFIG) w)).
  { rewrite bind_eq_Config. unfold setConfig. rewrite bind_eq_Config.
    unfold saveConfig. rewrite bind_eq_Config, ensureDirectories_ready by exact Hr.
    unfold JSON_stringify, fs_writeFile. crun. by rewrite Hw. }
  destruct Hf as [-> | ->]; [exact Hsave|].
  unfold JSON_parse, throw. rewrite bind_eq_Config. exact Hsave.
Qed.

Lemma loadConfig_blocked w :
  config w = None -> readOnly w = true -> ~ ready w ->
  exists dir, loadConfig w = (Thrown (EACCES (pathOf dir)), w).
Proof.
  intros Hc Hw Hr. unfold loadConfig, getConfig.
  rewrite bind_eq_Config, Hc, bind_eq_Config.
  destruct (ensureDirectories_blocked w Hw Hr) as [dir ->]. by exists dir.
Qed.

Lemma ready_after w : ready (withDirectories (allDirectories ∪ directories w) w).
Proof. unfold ready. cbn [directories withDirectories]. apply union_subseteq_l. Qed.

(** X20: when nothing is loaded yet and the configuration file is missing
    or is not JSON, [loadConfig] on a writable disk returns the defaults,
    makes the three directories and writes the defaults over the file:
    what the unreadable file held is lost. *)
Theorem unreadable_config_is_replaced (w : World) :
  config w = None -> unreadable w -> readOnly w = false ->
  exists w',
    loadConfig w = (Returned DEFAULT_CONFIG, w')
    /\ configFile w' = Some (Encoded (written w DEFAULT_CONFIG))
    /\ config w' = Some DEFAULT_CONFIG
    /\ ready w'
    /\ defaultPrompts w' = defaultPrompts w.
Proof.
  intros Hc Hf Hw. eexists. split; [by apply loadConfig_unreadable_writable|].
  repeat split. apply (ready_after w).
Qed.

Lemma unreadable_config_is_replaced_witness :
  exists w',
    loadConfig firstRun = (Returned DEFAULT_CONFIG, w')
    /\ configFile w' = Some (Encoded (written firstRun DEFAULT_CONFIG))
    /\ config w' = Some DEFAULT_CONFIG
    /\ ready w'
    /\ defaultPrompts w' = defaultPrompts firstRun.
Proof.
  apply (unreadable_config_is_replaced firstRun); [reflexivity | by left | reflexivity].
Defined.

(** X21: when the defaults cannot be written (the file is unreadable and
    the disk refuses changes), [loadConfig] throws; if the directories
    were there, the defaults stay in memory and the next call returns
    them without touching the disk; if a directory was missing, nothing
    is kept and the world is as before. *)
Theorem failed_default_write_is_cached (w : World) :
  config w = None -> unreadable w -> readOnly w = true ->
  exists e w',
    loadConfig w = (Thrown e, w')
    /\ configFile w' = configFile w
    /\ (ready w -> e = EACCES configFilePath
                   /\ loadConfig w' = (Returned DEFAULT_CONFIG, w'))
    /\ (~ ready w -> w' = w).
Proof.
  intros Hc Hf Hw. destruct (decide (ready w)) as [Hr|Hr].
  - exists (EACCES configFilePath), (withConfig (Some DEFAULT_CONFIG) w).
    split; [by apply loadConfig_unreadable_locked|]. split; [reflexivity|].
    split; [|done]. intros _. split; [reflexivity|]. by apply loadConfig_cached.
  - destruct (loadConfig_blocked w Hc Hw Hr) as [dir Hrun].
    exists (EACCES (pathOf dir)), w. by repeat split.
Qed.

Lemma failed_default_write_is_cached_witness :
  exists w',
    loadConfig lockedRun = (Thrown (EACCES configFilePath), w')
    /\ loadConfig w' = (Returned DEFAULT_CONFIG, w').
Proof.
  destruct (failed_default_write_is_cached lockedRun)
    as (e & w' & Hrun & _ & Hready & _); [reflexivity | by right | reflexivity |].
  destruct Hready as [-> Hnext]; [unfold ready; reflexivity|]. by exists w'.
Defined.

(** ** The merge with the defaults *)

Lemma merged_complete object : complete (merged object).
Proof.
  unfold complete, merged, spread, over. cbn.
  repeat split;
    match goal with
    | |- is_Some (match ?x with _ => _ end) => destruct x; eauto
    | |- is_Some (match ?f <$> ?x with _ => _ end) => destruct x; cbn; eauto
    end.
Qed.

Lemma merged_sessions object s :
  sessions object = Some s -> sessions (merged object) = Some s.
Proof. intros H. unfold merged, spread, over. cbn. by rewrite H. Qed.

(** X22: [loadConfig] completes the object of the file with the defaults
    one level deep only.  Every field the defaults define is defined in
    the result, but a [sessions] object of the file is taken as it is: an
    expiry it leaves out stays undefined, and the sweep then spares every
    session of that type; without [autoCleanup] the sweep spares them
    all.  The file is not rewritten. *)
Theorem file_settings_are_not_completed (w : World)
    (object : ConfigOf (gmap string string)) (s : SessionsObject) :
  config w = None -> configFile w = Some (Encoded object) ->
  sessions object = Some s -> readOnly w = false \/ ready w ->
  exists cfg w',
    loadConfig w = (Returned cfg, w')
    /\ complete cfg
    /\ sessions cfg = Some s
    /\ configFile w' = configFile w
    /\ (shellSessionExpiry s = None -> sweepSpares (settingsOf s) shell)
    /\ (namedSessionExpiry s = None -> sweepSpares (settingsOf s) named)
    /\ (autoCleanup s = None -> forall t, sweepSpares (settingsOf s) t).
Proof.
  intros Hc Hf Hs Hdisk.
  assert (Hrun : exists w', loadConfig w = (Returned (merged object), w')
                            /\ configFile w' = configFile w).
  { destruct Hdisk as [Hw|Hr].
    - eexists. split; [by apply loadConfig_file_writable | reflexivity].
    - eexists. split; [by apply loadConfig_file_ready | reflexivity]. }
  destruct Hrun as (w' & Hrun & Hsame).
  exists (merged object), w'. split; [exact Hrun|].
  split; [apply merged_complete|]. split; [by apply merged_sessions|].
  split; [exact Hsame|]. split; [|split].
  - intros Hnone. apply sweepSpares_NaN; [|discriminate].
    intros _. unfold settingsOf. cbn. by rewrite Hnone.
  - intros Hnone. apply sweepSpares_NaN; [discriminate|].
    intros _. unfold settingsOf. cbn. by rewrite Hnone.
  - intros Hnone t. apply sweepSpares_disabled. unfold settingsOf. cbn. by rewrite Hnone.
Qed.

Lemma file_settings_are_not_completed_witness :
  exists cfg w',
    loadConfig (edited sweepOnly) = (Returned cfg, w')
    /\ complete cfg
    /\ (sessions cfg ≫= shellSessionExpiry) = None
    /\ sweepSpares (settingsOf (sessionsIn sweepOnly)) shell.
Proof.
  destruct (file_settings_are_not_completed (edited sweepOnly) sweepOnly
              (sessionsIn sweepOnly))
    as (cfg & w' & Hrun & Hcomplete & Hs & _ & Hshell & _);
    [reflexivity | reflexivity | reflexivity | by left |].
  exists cfg, w'. split; [exact Hrun|]. split; [exact Hcomplete|].
  split; [by rewrite Hs | by apply Hshell].
Defined.

Lemma restart_saved c w :
  restart (withConfig (Some c)
             (withConfigFile (Some (Encoded (written w c)))
                (withDirectories (allDirectories ∪ directories w) w)))
  = {| directories := allDirectories ∪ directories w;
       configFile := Some (Encoded (written w c));
       readOnly := readOnly w;
       defaultPrompts := initialPrompts;
       config := None;
       stderr := [] |}.
Proof. reflexivity. Qed.

Lemma merged_detached w (c : UserConfig) :
  complete c -> merged (written w c) = detached w c.
Proof.
  intros (H1 & H2 & H3 & H4 & H5 & H6 & H7 & H8 & H9 & H10 & H11).
  destruct c as [c1 c2 c3 c4 c5 c6 c7 c8 c9 c10 c11 c12]. cbn in *.
  destruct H1 as [? ->], H2 as [? ->], H3 as [? ->], H4 as [? ->], H5 as [? ->],
    H6 as [? ->], H7 as [? ->], H8 as [? ->], H9 as [? ->], H10 as [? ->],
    H11 as [? ->].
  unfold merged, detached, written, spread, mapPrompts, over. cbn.
  by destruct c11.
Qed.

(** X23: what [saveConfig] wrote is what a new process loads: the saved
    object completed by the defaults, with a table of presets of its own;
    when the saved object defines every field of the defaults, that is the
    saved object itself. *)
Theorem saved_config_survives_restart (c : UserConfig) (w : World) :
  readOnly w = false ->
  exists w1 w2,
    saveConfig c w = (Returned tt, w1)
    /\ config w1 = Some c
    /\ loadConfig (restart w1) = (Returned (merged (written w c)), w2)
    /\ (complete c -> merged (written w c) = detached w c).
Proof.
  intros Hw. eexists _, _. split; [by apply saveConfig_writable|].
  split; [reflexivity|]. split; [|apply merged_detached].
  rewrite restart_saved. apply loadConfig_file_writable; [reflexivity..|exact Hw].
Qed.

Lemma saved_config_survives_restart_witness :
  exists w1 w2,
    saveConfig (set_model "opus" DEFAULT_CONFIG) firstRun = (Returned tt, w1)
    /\ loadConfig (restart w1)
       = (Returned (detached firstRun (set_model "opus" DEFAULT_CONFIG)), w2).
Proof.
  destruct (saved_config_survives_restart (set_model "opus" DEFAULT_CONFIG) firstRun)
    as (w1 & w2 & Hsave & _ & Hload & Heq); [reflexivity|].
  exists w1, w2. split; [exact Hsave|]. rewrite <- Heq; [exact Hload|].
  unfold complete. cbn. repeat split; eauto.
Defined.

(** ** The setters *)

Lemma unreadable_or_object w :
  unreadable w \/ exists object, configFile w = Some (Encoded object).
Proof.
  unfold unreadable. destruct (configFile w) as [[|object]|]; eauto.
Qed.

(** What [loadConfig] returns is the object [this.config] holds. *)
Lemma loadConfig_frame w c w0 :
  loadConfig w = (Returned c, w0) ->
  config w0 = Some c /\ readOnly w0 = readOnly w
  /\ defaultPrompts w0 = defaultPrompts w /\ stderr w0 = stderr w.
Proof.
  intros Hrun. destruct (config w) as [c0|] eqn:Hc.
  { rewrite (loadConfig_cached c0 w Hc) in Hrun. by injection Hrun as <- <-. }
  destruct (readOnly w) eqn:Hw.
  - destruct (decide (ready w)) as [Hr|Hr].
    + destruct (unreadable_or_object w) as [Hf|[object Hf]].
      * by rewrite loadConfig_unreadable_locked in Hrun.
      * rewrite (loadConfig_file_ready object) in Hrun by done.
        injection Hrun as <- <-. by rewrite <- Hw.
    + destruct (loadConfig_blocked w Hc Hw Hr) as [dir Hthrown]. congruence.
  - destruct (unreadable_or_object w) as [Hf|[object Hf]].
    + rewrite loadConfig_unreadable_writable in Hrun by done.
      injection Hrun as <- <-. by rewrite <- Hw.
    + rewrite (loadConfig_file_writable object) in Hrun by done.
      injection Hrun as <- <-. by rewrite <- Hw.
Qed.

Lemma loadConfig_writable w :
  readOnly w = false ->
  exists c w0, loadConfig w = (Returned c, w0)
               /\ (config w = None -> complete c).
Proof.
  intros Hw. destruct (config w) as [c0|] eqn:Hc.
  { exists c0, w. split; [by apply loadConfig_cached | done]. }
  destruct (unreadable_or_object w) as [Hf|[object Hf]].
  - eexists _, _. split; [by apply loadConfig_unreadable_writable|].
    intros _. unfold complete. cbn. repeat split; eauto.
  - eexists _, _. split; [by apply (loadConfig_file_writable object)|].
    intros _. apply merged_complete.
Qed.

Lemma setters_share_a_body :
  (forall v, setCurrentPromptPreset v = assignAndSave (set_currentSystemPrompt v))
  /\ (forall v, setDefaultSystemPrompt v = assignAndSave (set_defaultSystemPrompt v))
  /\ (forall v, setAllowedTools v = assignAndSave (set_allowedTools v))
  /\ (forall v, setModel v = assignAndSave (set_model v)).
Proof. repeat split. Qed.

Lemma assignAndSave_writable f w c w0 :
  readOnly w = false -> loadConfig w = (Returned c, w0) ->
  assignAndSave f w
  = (Returned tt,
     withConfig (Some (f c))
       (withConfigFile (Some (Encoded (written w (f c))))
          (withDirectories (allDirectories ∪ directories w0) w0))).
Proof.
  intros Hw Hrun. destruct (loadConfig_frame w c w0 Hrun) as (_ & Hw0 & Hdp & _).
  unfold assignAndSave. rewrite Hrun, saveConfig_writable by (cbn; congruence).
  unfold written, tableOf. cbn [defaultPrompts withConfig]. by rewrite Hdp.
Qed.

Lemma assignAndSave_blocked f w c w0 :
  readOnly w = true -> loadConfig w = (Returned c, w0) ->
  exists e, assignAndSave f w = (Thrown e, withConfig (Some (f c)) w0).
Proof.
  intros Hw Hrun. destruct (loadConfig_frame w c w0 Hrun) as (_ & Hw0 & _).
  unfold assignAndSave. rewrite Hrun.
  apply saveConfig_blocked. cbn. congruence.
Qed.

Lemma loadConfig_readonly_disk w c w0 :
  readOnly w = true -> loadConfig w = (Returned c, w0) -> configFile w0 = configFile w.
Proof.
  intros Hw Hrun. destruct (config w) as [c0|] eqn:Hc.
  { rewrite (loadConfig_cached c0 w Hc) in Hrun. by injection Hrun as <- <-. }
  destruct (decide (ready w)) as [Hr|Hr].
  - destruct (unreadable_or_object w) as [Hf|[object Hf]].
    + by rewrite loadConfig_unreadable_locked in Hrun.
    + rewrite (loadConfig_file_ready object) in Hrun by done. by injection Hrun as <- <-.
  - destruct (loadConfig_blocked w Hc Hw Hr) as [dir Hthrown]. congruence.
Qed.

(** X24: an assignment that could not be saved stays in memory.  When
    the configuration loads but the disk refuses changes, a setter throws
    and leaves the file as it was, yet the getter of the same process
    returns the value that was not saved. *)
Theorem unsaved_assignment_stays_in_memory (w w0 : World) (c : UserConfig) :
  readOnly w = true -> loadConfig w = (Returned c, w0) ->
  (forall v, exists e w',
      setModel v w = (Thrown e, w') /\ configFile w' = configFile w
      /\ getModel w' = (Returned (Some v), w'))
  /\ (forall v, exists e w',
      setAllowedTools v w = (Thrown e, w') /\ configFile w' = configFile w
      /\ getAllowedTools w' = (Returned (Some v), w'))
  /\ (forall v, exists e w',
      setCurrentPromptPreset v w = (Thrown e, w') /\ configFile w' = configFile w
      /\ currentSystemPrompt <$> config w' = Some (Some v)).
Proof.
  intros Hw Hrun. pose proof (loadConfig_readonly_disk w c w0 Hw Hrun) as Hdisk.
  destruct setters_share_a_body as (Hpreset & _ & Htools & Hmodel).
  split; [|split]; intros v.
  - destruct (assignAndSave_blocked (set_model v) w c w0 Hw Hrun) as [e He].
    exists e, (withConfig (Some (set_model v c)) w0). rewrite Hmodel.
    split; [exact He|]. split; [exact Hdisk|].
    unfold getModel. by rewrite bind_eq_Config, (loadConfig_cached (set_model v c)).
  - destruct (assignAndSave_blocked (set_allowedTools v) w c w0 Hw Hrun) as [e He].
    exists e, (withConfig (Some (set_allowedTools v c)) w0). rewrite Htools.
    split; [exact He|]. split; [exact Hdisk|].
    unfold getAllowedTools.
    by rewrite bind_eq_Config, (loadConfig_cached (set_allowedTools v c)).
  - destruct (assignAndSave_blocked (set_currentSystemPrompt v) w c w0 Hw Hrun) as [e He].
    exists e, (withConfig (Some (set_currentSystemPrompt v c)) w0). rewrite Hpreset.
    split; [exact He|]. by split.
Qed.

Lemma unsaved_assignment_stays_in_memory_witness :
  exists e w',
    setModel "opus" (withConfig (Some DEFAULT_CONFIG) lockedRun) = (Thrown e, w')
    /\ configFile w' = Some Garbage
    /\ getModel w' = (Returned (Some "opus"), w').
Proof.
  destruct (unsaved_assignment_stays_in_memory
              (withConfig (Some DEFAULT_CONFIG) lockedRun)
              (withConfig (Some DEFAULT_CONFIG) lockedRun) DEFAULT_CONFIG)
    as (Hmodel & _); [reflexivity | reflexivity |].
  exact (Hmodel "opus").
Defined.

(** ** The table of presets *)

(** [setCustomSystemPrompt] on a writable disk, once the object is loaded. *)
Lemma setCustomSystemPrompt_writable prompt0 w c w0 r :
  readOnly w = false -> loadConfig w = (Returned c, w0) ->
  customSystemPrompts c = Some r ->
  exists w1 c2 r2,
    setCustomSystemPrompt prompt0 w = (Returned tt, w1)
    /\ config w1 = Some c2
    /\ configFile w1 = Some (Encoded (written w1 c2))
    /\ readOnly w1 = false
    /\ stderr w1 = stderr w
    /\ currentSystemPrompt c2 = Some "custom"
    /\ defaultSystemPrompt c2 = defaultSystemPrompt c
    /\ customSystemPrompts c2 = Some r2
    /\ tableOf w1 r2 = <["custom" := prompt0]> (tableOf w r)
    /\ defaultPrompts w1
       = match r with
         | DefaultPrompts => <["custom" := prompt0]> (defaultPrompts w)
         | OwnPrompts _ => defaultPrompts w
         end.
Proof.
  intros Hw Hrun Hr. destruct (loadConfig_frame w c w0 Hrun) as (_ & Hw0 & Hdp & Herr).
  unfold setCustomSystemPrompt. rewrite bind_eq_Config, Hrun, bind_eq_Config.
  unfold assignCustom. rewrite Hr. destruct r as [|table]; cbv beta iota.
  - eexists _, _, DefaultPrompts. split.
    { rewrite bind_eq_Config. unfold assignDefault, setConfig, mret, Async_ret.
      cbv beta iota. rewrite bind_eq_Config.
      rewrite saveConfig_writable by (cbn; congruence). reflexivity. }
    cbn. rewrite Hw0, Hdp, Herr. by repeat split.
  - eexists _, _, (OwnPrompts _). split.
    { rewrite bind_eq_Config. unfold setConfig, mret, Async_ret.
      cbv beta iota. rewrite bind_eq_Config.
      rewrite saveConfig_writable by (cbn; congruence). reflexivity. }
    cbn. rewrite Hw0, Hdp, Herr. by repeat split.
Qed.

Lemma complete_table {P} (c : ConfigOf P) :
  complete c -> exists r, customSystemPrompts c = Some r.
Proof. intros (_ & _ & [r Hr] & _). eauto. Qed.

(** X25: [setCustomSystemPrompt] makes its text the prompt in force, unless
    the text is empty: then the preset [custom] is current all the same,
    and [getCurrentSystemPrompt] falls back on the default system prompt
    of the configuration, which the call left as it was. *)
Theorem custom_prompt_in_force (prompt0 : string) (w : World) :
  config w = None -> readOnly w = false ->
  exists c w0 w1,
    loadConfig w = (Returned c, w0)
    /\ setCustomSystemPrompt prompt0 w = (Returned tt, w1)
    /\ currentSystemPrompt <$> config w1 = Some (Some "custom")
    /\ defaultSystemPrompt <$> config w1 = Some (defaultSystemPrompt c)
    /\ getCurrentSystemPrompt w1
       = (Returned (if truthy prompt0 then Text prompt0
                    else valueOf (defaultSystemPrompt c)), w1).
Proof.
  intros Hc Hw. destruct (loadConfig_writable w Hw) as (c & w0 & Hrun & Hcomplete).
  destruct (complete_table c (Hcomplete Hc)) as [r Hr].
  destruct (setCustomSystemPrompt_writable prompt0 w c w0 r Hw Hrun Hr)
    as (w1 & c2 & r2 & Hset & Hc2 & _ & _ & _ & Hcur & Hdef & Hr2 & Htable & _).
  exists c, w0, w1. split; [exact Hrun|]. split; [exact Hset|].
  rewrite Hc2. cbn. rewrite Hcur, Hdef. split; [reflexivity|]. split; [reflexivity|].
  unfold getCurrentSystemPrompt.
  rewrite bind_eq_Config, (loadConfig_cached c2 w1 Hc2), Hr2, Hcur.
  unfold deref. rewrite bind_eq_Config, Htable.
  unfold getProperty, keyOf. rewrite lookup_insert_eq. cbn. by rewrite Hdef.
Qed.

Lemma custom_prompt_in_force_witness :
  exists w1,
    setCustomSystemPrompt EmptyString firstRun = (Returned tt, w1)
    /\ getCurrentSystemPrompt w1
       = (Returned (valueOf (defaultSystemPrompt DEFAULT_CONFIG)), w1).
Proof.
  destruct (custom_prompt_in_force EmptyString firstRun)
    as (c & w0 & w1 & Hrun & Hset & _ & _ & Hget); [reflexivity | reflexivity |].
  exists w1. split; [exact Hset|].
  rewrite loadConfig_unreadable_writable in Hrun; [|reflexivity | by left | reflexivity].
  injection Hrun as <- _. exact Hget.
Defined.

Lemma resetConfig_writable w :
  readOnly w = false ->
  resetConfig w
  = (Returned tt,
     withConfig (Some DEFAULT_CONFIG)
       (withConfigFile (Some (Encoded (written w DEFAULT_CONFIG)))
          (withDirectories (allDirectories ∪ directories w) w))).
Proof.
  intros Hw. unfold resetConfig, setConfig.
  rewrite bind_eq_Config, saveConfig_writable by exact Hw. reflexivity.
Qed.

(** Which table the loaded object refers to. *)
Lemma loaded_table w c w0 :
  config w = None -> loadConfig w = (Returned c, w0) ->
  if ownTable w then exists table, customSystemPrompts c = Some (OwnPrompts table)
  else customSystemPrompts c = Some DefaultPrompts.
Proof.
  intros Hc Hrun.
  assert (Hcases : c = DEFAULT_CONFIG /\ unreadable w
                   \/ exists object, c = merged object
                                     /\ configFile w = Some (Encoded object)).
  { destruct (unreadable_or_object w) as [Hf|[object Hf]].
    - left. split; [|exact Hf]. destruct (readOnly w) eqn:Hw.
      + destruct (decide (ready w)) as [Hr|Hr].
        * by rewrite loadConfig_unreadable_locked in Hrun.
        * destruct (loadConfig_blocked w Hc Hw Hr) as [dir Hthrown]. congruence.
      + rewrite loadConfig_unreadable_writable in Hrun by done. by injection Hrun as <- _.
    - right. exists object. split; [|exact Hf]. destruct (readOnly w) eqn:Hw.
      + destruct (decide (ready w)) as [Hr|Hr].
        * rewrite (loadConfig_file_ready object) in Hrun by done.
          by injection Hrun as <- _.
        * destruct (loadConfig_blocked w Hc Hw Hr) as [dir Hthrown]. congruence.
      + rewrite (loadConfig_file_writable object) in Hrun by done.
        by injection Hrun as <- _. }
  unfold ownTable. destruct Hcases as [[-> Hf]|(object & -> & Hf)].
  - by destruct Hf as [-> | ->].
  - rewrite Hf. unfold merged, spread, over. cbn.
    destruct (customSystemPrompts object) as [table|]; cbn; eauto.
Qed.

(** X26: the copies of the defaults are shallow, so the table of presets
    of [DEFAULT_CONFIG] is shared with every configuration that did not
    bring its own.  When the file gives no table (or cannot be read),
    [setCustomSystemPrompt] writes the text in the defaults themselves and
    a later [resetConfig] of the same process saves defaults that still
    carry it; when the file gives a table, the reset saves the defaults
    unchanged.  In both cases the current preset is [default] again. *)
Theorem reset_keeps_shared_custom_prompt (prompt0 : string) (w : World) :
  config w = None -> readOnly w = false ->
  exists w1 w2 object,
    setCustomSystemPrompt prompt0 w = (Returned tt, w1)
    /\ resetConfig w1 = (Returned tt, w2)
    /\ config w2 = Some DEFAULT_CONFIG
    /\ configFile w2 = Some (Encoded object)
    /\ currentSystemPrompt object = Some "default"
    /\ customSystemPrompts object
       = Some (if ownTable w then defaultPrompts w
               else <["custom" := prompt0]> (defaultPrompts w)).
Proof.
  intros Hc Hw. destruct (loadConfig_writable w Hw) as (c & w0 & Hrun & Hcomplete).
  pose proof (loaded_table w c w0 Hc Hrun) as Htable.
  destruct (complete_table c (Hcomplete Hc)) as [r Hr].
  destruct (setCustomSystemPrompt_writable prompt0 w c w0 r Hw Hrun Hr)
    as (w1 & c2 & r2 & Hset & _ & _ & Hw1 & _ & _ & _ & _ & _ & Hdp).
  eexists w1, _, _. split; [exact Hset|].
  split; [by apply resetConfig_writable|]. split; [reflexivity|].
  split; [reflexivity|]. split; [reflexivity|].
  cbn. rewrite Hdp. destruct (ownTable w).
  - destruct Htable as [table Htable]. rewrite Hr in Htable. by injection Htable as ->.
  - rewrite Hr in Htable. by injection Htable as ->.
Qed.

Lemma reset_keeps_shared_custom_prompt_witness :
  exists w1 w2 object,
    setCustomSystemPrompt "Answer in French." firstRun = (Returned tt, w1)
    /\ resetConfig w1 = (Returned tt, w2)
    /\ configFile w2 = Some (Encoded object)
    /\ currentSystemPrompt object = Some "default"
    /\ (customSystemPrompts object ≫= lookup "custom") = Some "Answer in French.".
Proof.
  destruct (reset_keeps_shared_custom_prompt "Answer in French." firstRun)
    as (w1 & w2 & object & Hset & Hreset & _ & Hfile & Hcur & Htable);
    [reflexivity | reflexivity |].
  exists w1, w2, object. repeat (split; [assumption|]).
  rewrite Htable. reflexivity.
Defined.

(** X27: [setCurrentPromptPreset] takes any name.  The prompt in force
    is then the text the table gives for the name when it is not empty;
    it is the default system prompt when the table has no such name or
    an empty text; and for a name that every object inherits (such as
    [toString]) it is no text at all. *)
Theorem preset_names_are_not_checked (preset : string) (w : World) :
  config w = None -> readOnly w = false ->
  exists c w0 w1 table,
    loadConfig w = (Returned c, w0)
    /\ tableOf w <$> customSystemPrompts c = Some table
    /\ setCurrentPromptPreset preset w = (Returned tt, w1)
    /\ currentSystemPrompt <$> config w1 = Some (Some preset)
    /\ getCurrentSystemPrompt w1
       = (Returned match table !! preset with
                   | Some text => if truthy text then Text text
                                  else valueOf (defaultSystemPrompt c)
                   | None => if decide (preset ∈ prototypeKeys) then Inherited preset
                             else valueOf (defaultSystemPrompt c)
                   end, w1).
Proof.
  intros Hc Hw. destruct (loadConfig_writable w Hw) as (c & w0 & Hrun & Hcomplete).
  destruct (complete_table c (Hcomplete Hc)) as [r Hr].
  destruct (loadConfig_frame w c w0 Hrun) as (_ & _ & Hdp & _).
  destruct setters_share_a_body as (Hpreset & _).
  eexists c, w0, _, (tableOf w r). split; [exact Hrun|].
  split; [by rewrite Hr|]. rewrite Hpreset.
  split; [by apply (assignAndSave_writable _ w c w0)|]. split; [reflexivity|].
  unfold getCurrentSystemPrompt.
  rewrite bind_eq_Config, (loadConfig_cached (set_currentSystemPrompt preset c))
    by reflexivity.
  cbn [customSystemPrompts currentSystemPrompt defaultSystemPrompt set_currentSystemPrompt].
  rewrite Hr. unfold deref. rewrite bind_eq_Config.
  unfold getProperty, or_text, keyOf, tableOf.
  cbn [defaultPrompts withConfig withConfigFile withDirectories]. rewrite Hdp.
  destruct r as [|own]; [destruct (defaultPrompts w !! preset) | destruct (own !! preset)];
    try reflexivity; by destruct (decide (preset ∈ prototypeKeys)).
Qed.

Lemma preset_names_are_not_checked_witness :
  exists w1,
    setCurrentPromptPreset "toString" firstRun = (Returned tt, w1)
    /\ getCurrentSystemPrompt w1 = (Returned (Inherited "toString"), w1).
Proof.
  destruct (preset_names_are_not_checked "toString" firstRun)
    as (c & w0 & w1 & table & Hrun & Htable & Hset & _ & Hget);
    [reflexivity | reflexivity |].
  exists w1. split; [exact Hset|].
  rewrite loadConfig_unreadable_writable in Hrun; [|reflexivity | by left | reflexivity].
  injection Hrun as <- _. cbn in Htable. injection Htable as <-. exact Hget.
Defined.

(** ** The configuration commands *)

Lemma displayConfig_writable w :
  readOnly w = false ->
  exists w', displayConfig w = (Returned tt, w')
             /\ stderr w' = stderr w /\ config w' <> None.
Proof.
  intros Hw. destruct (loadConfig_writable w Hw) as (c & w0 & Hrun & _).
  destruct (loadConfig_frame w c w0 Hrun) as (Hc0 & _ & _ & Herr).
  exists w0. unfold displayConfig. rewrite bind_eq_Config, Hrun.
  split; [reflexivity|]. split; [exact Herr|]. by rewrite Hc0.
Qed.

(** X28: on a writable disk and in a new process, each configuration
    command ends with exit code 0, writes nothing on the error stream and
    leaves a configuration in memory. *)
Theorem config_commands_succeed (options : Args.t) (w : World) :
  config w = None -> readOnly w = false ->
  exists w',
    handleConfigCommands options w = (Returned {| success := true; exitCode := 0 |}, w')
    /\ stderr w' = stderr w
    /\ (configRequested options = true -> config w' <> None).
Proof.
  intros Hc Hw. unfold handleConfigCommands, configRequested, tryCatch.
  destruct setters_share_a_body as (Hpreset & _ & Htools & _).
  destruct (loadConfig_writable w Hw) as (c & w0 & Hrun & Hcomplete).
  destruct (loadConfig_frame w c w0 Hrun) as (_ & _ & _ & Herr).
  destruct (Args.configShow options).
  { destruct (displayConfig_writable w Hw) as (w' & Hshow & Herr' & Hc').
    rewrite bind_eq_Config, Hshow. exists w'. by repeat split. }
  destruct (Args.configReset options).
  { rewrite bind_eq_Config, resetConfig_writable by exact Hw.
    eexists. by repeat split. }
  destruct (is_set (Args.usePrompt options)).
  { rewrite bind_eq_Config, Hpreset, (assignAndSave_writable _ w c w0) by done.
    eexists. split; [reflexivity|]. by split. }
  destruct (is_set (Args.setDefaultPrompt options)).
  { destruct (complete_table c (Hcomplete Hc)) as [r Hr].
    destruct (setCustomSystemPrompt_writable (the (Args.setDefaultPrompt options))
                w c w0 r Hw Hrun Hr)
      as (w1 & c2 & r2 & Hset & Hc2 & _ & _ & Herr1 & _).
    rewrite bind_eq_Config, Hset. exists w1. split; [reflexivity|].
    split; [exact Herr1|]. by rewrite Hc2. }
  destruct (is_set (Args.allowTools options)).
  { rewrite bind_eq_Config, Htools, (assignAndSave_writable _ w c w0) by done.
    eexists. split; [reflexivity|]. by split. }
  exists w. by repeat split.
Qed.

Lemma config_commands_succeed_witness :
  exists w',
    handleConfigCommands (parseArgs ["--allow-tools"; "Read, Bash"]) firstRun
    = (Returned {| success := true; exitCode := 0 |}, w')
    /\ allowedTools <$> config w' = Some (Some ["Read"; "Bash"]).
Proof.
  destruct (config_commands_succeed (parseArgs ["--allow-tools"; "Read, Bash"]) firstRun)
    as (w' & Hrun & _); [reflexivity | reflexivity |].
  exists w'. split; [exact Hrun|].
  assert (Hw' : (handleConfigCommands (parseArgs ["--allow-tools"; "Read, Bash"])
                   firstRun).2 = w') by by rewrite Hrun.
  by rewrite <- Hw'.
Defined.

Lemma saveConfig_not_ready c w :
  readOnly w = true -> ~ ready w ->
  exists dir, saveConfig c w = (Thrown (EACCES (pathOf dir)), w).
Proof.
  intros Hw Hr. unfold saveConfig. rewrite bind_eq_Config.
  destruct (ensureDirectories_blocked w Hw Hr) as [dir ->]. by exists dir.
Qed.

(** X29: on a disk that refuses changes and lacks one of the directories,
    each configuration command of a new process, [--config-show]
    included, ends with exit code 1 after one line on the error stream,
    [Error: ] followed by the message of the error that [mkdir] threw for
    the directory it could not make; the disk is as before. *)
Theorem config_commands_fail_when_blocked (options : Args.t) (w : World) :
  config w = None -> readOnly w = true -> ~ ready w ->
  configRequested options = true ->
  exists dir w',
    handleConfigCommands options w
    = (Returned {| success := false; exitCode := 1 |}, w')
    /\ stderr w' = ("Error: " +:+ errorMessage (EACCES (pathOf dir))) :: stderr w
    /\ configFile w' = configFile w
    /\ directories w' = directories w.
Proof.
  intros Hc Hw Hr Hreq. unfold handleConfigCommands, tryCatch.
  destruct setters_share_a_body as (Hpreset & _ & Htools & _).
  destruct (loadConfig_blocked w Hc Hw Hr) as [dir Hload].
  unfold configRequested in Hreq.
  destruct (Args.configShow options).
  { unfold displayConfig. rewrite !bind_eq_Config, Hload.
    exists dir. eexists. split; [reflexivity|]. by repeat split. }
  destruct (Args.configReset options).
  { unfold resetConfig, setConfig. rewrite !bind_eq_Config.
    destruct (saveConfig_not_ready DEFAULT_CONFIG (withConfig (Some DEFAULT_CONFIG) w))
      as [dir' ->]; [exact Hw | exact Hr |].
    exists dir'. eexists. split; [reflexivity|]. by repeat split. }
  destruct (is_set (Args.usePrompt options)).
  { rewrite bind_eq_Config, Hpreset. unfold assignAndSave. rewrite Hload.
    exists dir. eexists. split; [reflexivity|]. by repeat split. }
  destruct (is_set (Args.setDefaultPrompt options)).
  { unfold setCustomSystemPrompt. rewrite !bind_eq_Config, Hload.
    exists dir. eexists. split; [reflexivity|]. by repeat split. }
  destruct (is_set (Args.allowTools options)); [|discriminate Hreq].
  rewrite bind_eq_Config, Htools. unfold assignAndSave. rewrite Hload.
  exists dir. eexists. split; [reflexivity|]. by repeat split.
Qed.

Lemma config_commands_fail_when_blocked_witness :
  exists w',
    handleConfigCommands (parseArgs ["--config-show"])
      (withDirectories ∅ lockedRun)
    = (Returned {| success := false; exitCode := 1 |}, w')
    /\ stderr w' = ["Error: " +:+ errorMessage (EACCES (pathOf baseDir))].
Proof.
  destruct (config_commands_fail_when_blocked (parseArgs ["--config-show"])
              (withDirectories ∅ lockedRun))
    as (dir & w' & Hrun & Herr & _).
  - reflexivity.
  - reflexivity.
  - intros Hready. apply (not_elem_of_empty (C:=gset Directory) baseDir).
    apply (Hready baseDir).
    unfold allDirectories. rewrite !elem_of_union, !elem_of_singleton. auto.
  - reflexivity.
  - exists w'. split; [exact Hrun|].
    assert (Hw' : (handleConfigCommands (parseArgs ["--config-show"])
                     (withDirectories ∅ lockedRun)).2 = w') by by rewrite Hrun.
    by rewrite <- Hw'.
Defined.


